(** * mpv-remote: a shallow embedding of [server-rewrite.py] and [server.py]

    The development follows the two Python files of the repository:
    the JSON service ([server-rewrite.py], modules [Rewrite] and
    [Threads]) and the older HTML-rendering service ([server.py], modules
    [Legacy] and [Pages]).  Python values are modelled directly: [str] as
    a [string] of code points below 256, [bytes] as a [string] of bytes,
    [encode] between them as UTF-8, lists as [list], the [commands]
    dictionary as a [gmap], exceptions as an outcome type, and the player
    processes owned by the server as a list of process records indexed by
    pid.  [os.name] is not [nt]. *)

From Stdlib Require Import String Ascii List ZArith NArith QArith Bool Lia.
From Stdlib Require Import Sorting.Sorted Sorting.Permutation DecimalString.
From stdpp Require Import base option list gmap strings.

Import ListNotations.
Local Open Scope string_scope.
Local Open Scope list_scope.

(** ** Python string operations *)

Module PyStr.

Definition code (c : ascii) : N := N_of_ascii c.

Definition chr (n : N) : ascii := ascii_of_N n.

(** Line boundaries of [str.splitlines] among the code points below 256:
    LF, VT, FF, CR, FS, GS, RS and NEL. *)
Definition is_linebreak (c : ascii) : bool :=
  let n := code c in
  ((10 <=? n) && (n <=? 13) || (28 <=? n) && (n <=? 30) || (n =? 133))%N.

(** White space of [str.strip] among the code points below 256. *)
Definition is_space (c : ascii) : bool :=
  let n := code c in
  ((9 <=? n) && (n <=? 13) || (28 <=? n) && (n <=? 32)
   || (n =? 133) || (n =? 160))%N.

(** White space of [bytes.strip]: space, TAB, LF, CR, VT, FF. *)
Definition is_bytes_space (c : ascii) : bool :=
  let n := code c in
  ((9 <=? n) && (n <=? 13) || (n =? 32))%N.

Fixpoint startswith (p s : string) : bool :=
  match p, s with
  | EmptyString, _ => true
  | String a p', String b s' => Ascii.eqb a b && startswith p' s'
  | String _ _, EmptyString => false
  end.

Fixpoint endswith_char (c : ascii) (s : string) : bool :=
  match s with
  | EmptyString => false
  | String a EmptyString => Ascii.eqb a c
  | String _ s' => endswith_char c s'
  end.

Fixpoint contains_char (c : ascii) (s : string) : bool :=
  match s with
  | EmptyString => false
  | String a s' => Ascii.eqb a c || contains_char c s'
  end.

Fixpoint lstrip_by (sp : ascii -> bool) (s : string) : string :=
  match s with
  | EmptyString => EmptyString
  | String a s' => if sp a then lstrip_by sp s' else s
  end.

Fixpoint rstrip_by (sp : ascii -> bool) (s : string) : string :=
  match s with
  | EmptyString => EmptyString
  | String a s' =>
      match rstrip_by sp s' with
      | EmptyString => if sp a then EmptyString else String a EmptyString
      | r => String a r
      end
  end.

(** [str.strip()] and [bytes.strip()]. *)
Definition strip (s : string) : string := rstrip_by is_space (lstrip_by is_space s).
Definition bytes_strip (s : string) : string :=
  rstrip_by is_bytes_space (lstrip_by is_bytes_space s).

(** [s.split(sep, 1)[0]]: the text before the first [sep], the whole
    string when [sep] does not occur. *)
Fixpoint before_first (sep : ascii) (s : string) : string :=
  match s with
  | EmptyString => EmptyString
  | String a s' => if Ascii.eqb a sep then EmptyString else String a (before_first sep s')
  end.

(** [str.splitlines()]: [cur] is the line being read; a CR LF pair is one
    boundary, and no empty last line is produced. *)
Fixpoint splitlines_from (cur : string) (s : string) : list string :=
  match s with
  | EmptyString => match cur with EmptyString => [] | _ => [cur] end
  | String a s' =>
      if is_linebreak a then
        cur :: match s' with
               | String b s'' =>
                   if Ascii.eqb a "013" && Ascii.eqb b "010"
                   then splitlines_from EmptyString s''
                   else splitlines_from EmptyString s'
               | EmptyString => []
               end
      else splitlines_from (cur ++ String a EmptyString) s'
  end.

Definition splitlines (s : string) : list string := splitlines_from EmptyString s.

(** [str.lower()], character by character: the ASCII capitals and the
    Latin-1 capitals (192 to 222 except the multiplication sign 215). *)
Definition lower_char (c : ascii) : ascii :=
  let n := code c in
  if ((65 <=? n) && (n <=? 90)
      || (192 <=? n) && (n <=? 222) && negb (n =? 215))%N
  then chr (n + 32) else c.

Fixpoint lower (s : string) : string :=
  match s with
  | EmptyString => EmptyString
  | String a s' => String (lower_char a) (lower s')
  end.

Definition LF : string := String "010" EmptyString.

(** [s[n:]] *)
Fixpoint drop (n : nat) (s : string) : string :=
  match n, s with
  | O, _ => s
  | S n', String _ s' => drop n' s'
  | S _, EmptyString => EmptyString
  end.

(** [str(n)] for a natural number. *)
Definition decimal (n : N) : string := NilZero.string_of_uint (N.to_uint n).

(** [len(s)] *)
Definition len (s : string) : N := N.of_nat (String.length s).

(** [s.encode()]: the UTF-8 bytes of a text of code points below 256,
    one byte below 128 and two bytes from 128 on. *)
Fixpoint encode (s : string) : string :=
  match s with
  | EmptyString => EmptyString
  | String a s' =>
      let n := code a in
      if (n <? 128)%N then String a (encode s')
      else String (chr (192 + N.shiftr n 6))
             (String (chr (128 + N.land n 63)) (encode s'))
  end.

Fixpoint all_chars (p : ascii -> bool) (s : string) : bool :=
  match s with
  | EmptyString => true
  | String a s' => p a && all_chars p s'
  end.

(** [os.path.splitext(name)[1]] for a name without directory part: the
    text from the last dot on, unless only dots come before it. *)
Fixpoint ext_from (seen : bool) (s : string) : option string :=
  match s with
  | EmptyString => None
  | String a s' =>
      match ext_from (seen || negb (Ascii.eqb a ".")) s' with
      | Some e => Some e
      | None => if Ascii.eqb a "." && seen then Some s else None
      end
  end.

Definition splitext_ext (name : string) : string :=
  match ext_from false name with Some e => e | None => EmptyString end.

(** [posixpath.join(a, *p)] on strings. *)
Fixpoint join_onto (path : string) (p : list string) : string :=
  match p with
  | [] => path
  | b :: p' =>
      if startswith "/" b then join_onto b p'
      else if (path =? EmptyString) || endswith_char "/" path then join_onto (path ++ b) p'
      else join_onto (path ++ "/" ++ b) p'
  end.

End PyStr.

(** ** Regular expressions, as far as [re.match] is used by the service *)

Module Re.

Inductive re : Type :=
| Void : re
| Eps : re
| Chr : ascii -> re
| Class : (ascii -> bool) -> re
| Cat : re -> re -> re
| Alt : re -> re -> re
| Opt : re -> re
| Plus : re -> re.

Fixpoint Lit (s : string) : re :=
  match s with
  | EmptyString => Eps
  | String c s' => Cat (Chr c) (Lit s')
  end.

(** The language of an expression. *)
Inductive matches : re -> string -> Prop :=
| MEps : matches Eps EmptyString
| MChr c : matches (Chr c) (String c EmptyString)
| MClass p c : p c = true -> matches (Class p) (String c EmptyString)
| MCat a b s t : matches a s -> matches b t -> matches (Cat a b) (s ++ t)
| MAltL a b s : matches a s -> matches (Alt a b) s
| MAltR a b s : matches b s -> matches (Alt a b) s
| MOptNone a : matches (Opt a) EmptyString
| MOptSome a s : matches a s -> matches (Opt a) s
| MPlusOne a s : matches a s -> matches (Plus a) s
| MPlusMore a s t : matches a s -> matches (Plus a) t -> matches (Plus a) (s ++ t).

Fixpoint nullable (r : re) : bool :=
  match r with
  | Void | Chr _ | Class _ => false
  | Eps | Opt _ => true
  | Cat a b => nullable a && nullable b
  | Alt a b => nullable a || nullable b
  | Plus a => nullable a
  end.

(** Brzozowski derivative of [r] by the character [c]. *)
Fixpoint deriv (c : ascii) (r : re) : re :=
  match r with
  | Void | Eps => Void
  | Chr a => if Ascii.eqb a c then Eps else Void
  | Class p => if p c then Eps else Void
  | Cat a b =>
      if nullable a then Alt (Cat (deriv c a) b) (deriv c b)
      else Cat (deriv c a) b
  | Alt a b => Alt (deriv c a) (deriv c b)
  | Opt a => deriv c a
  | Plus a => Cat (deriv c a) (Opt (Plus a))
  end.

(** Does the whole of [s] belong to the language of [r]? *)
Fixpoint fullmatch (r : re) (s : string) : bool :=
  match s with
  | EmptyString => nullable r
  | String c s' => fullmatch (deriv c r) s'
  end.

Fixpoint drop_last (s : string) : string :=
  match s with
  | EmptyString => EmptyString
  | String _ EmptyString => EmptyString
  | String a s' => String a (drop_last s')
  end.

(** [re.match(r + '$', s) is not None]: a prefix of [s] is in the language
    of [r] and ends where [$] holds, that is at the end of [s] or just
    before a line feed that ends [s]. *)
Definition match_dollar (r : re) (s : string) : bool :=
  fullmatch r s || (PyStr.endswith_char "010" s && fullmatch r (drop_last s)).

End Re.

(** ** [base64.standard_b64encode] *)

Module Base64.

Definition digit (n : N) : ascii :=
  if (n <? 26)%N then PyStr.chr (65 + n)
  else if (n <? 52)%N then PyStr.chr (97 + (n - 26))
  else if (n <? 62)%N then PyStr.chr (48 + (n - 52))
  else if (n =? 62)%N then "+"%char else "/"%char.

Definition pad : ascii := "="%char.

(** Three bytes give four digits; one or two left-over bytes are padded. *)
Fixpoint standard_b64encode (s : string) : string :=
  match s with
  | EmptyString => EmptyString
  | String a EmptyString =>
      let x := PyStr.code a in
      String (digit (N.shiftr x 2))
        (String (digit (N.shiftl (N.land x 3) 4))
           (String pad (String pad EmptyString)))
  | String a (String b EmptyString) =>
      let x := PyStr.code a in
      let y := PyStr.code b in
      String (digit (N.shiftr x 2))
        (String (digit (N.lor (N.shiftl (N.land x 3) 4) (N.shiftr y 4)))
           (String (digit (N.shiftl (N.land y 15) 2))
              (String pad EmptyString)))
  | String a (String b (String c rest)) =>
      let x := PyStr.code a in
      let y := PyStr.code b in
      let z := PyStr.code c in
      String (digit (N.shiftr x 2))
        (String (digit (N.lor (N.shiftl (N.land x 3) 4) (N.shiftr y 4)))
           (String (digit (N.lor (N.shiftl (N.land y 15) 2) (N.shiftr z 6)))
              (String (digit (N.land z 63)) (standard_b64encode rest))))
  end.

End Base64.

(** ** Python values, exceptions and the runtime *)

Module Py.

(** The exception classes the two files can meet. *)
Inductive exn_class : Type :=
| AttributeError | TypeError | ValueError | KeyError | IndexError
| OverflowError | JSONDecodeError | UnicodeDecodeError
| OSError | FileNotFoundError | BrokenPipeError.

(** An exception with the text [str(e)] gives. *)
Record exn : Type := Exn { exn_cls : exn_class; exn_text : string }.

(** [except ValueError] also catches the subclasses of [ValueError]. *)
Definition is_ValueError (e : exn) : bool :=
  match exn_cls e with
  | ValueError | JSONDecodeError | UnicodeDecodeError => true
  | _ => false
  end.

Inductive outcome (A : Type) : Type :=
| Ok : A -> outcome A
| Raise : exn -> outcome A.
Arguments Ok {A} _.
Arguments Raise {A} _.

(** What [json.loads] returns; [F] is the type of Python floats. *)
#[warnings="-register-all"]
Inductive json (F : Type) : Type :=
| JNull : json F
| JBool : bool -> json F
| JInt : Z -> json F
| JFloat : F -> json F
| JStr : string -> json F
| JArr : list (json F) -> json F
| JObj : list (string * json F) -> json F.
Arguments JNull {F}.
Arguments JBool {F} _.
Arguments JInt {F} _.
Arguments JFloat {F} _.
Arguments JStr {F} _.
Arguments JArr {F} _.
Arguments JObj {F} _.

(** The library functions whose results depend on floating point, on text
    formats or on Unicode are taken from the runtime:
    [float(s)] for a string ([None]: [ValueError]), [float(n)] for an
    integer ([None]: [OverflowError]), [template.format(val)] for [val] a
    float or [None], [json.dumps], [urllib.parse.unquote],
    [urllib.parse.quote] and [html.escape]. *)
Class Runtime : Type := {
  pyfloat : Type;
  float_of_str : string -> option pyfloat;
  float_of_int : Z -> option pyfloat;
  str_format : string -> option pyfloat -> outcome string;
  json_dumps : json pyfloat -> string;
  unquote : string -> string;
  quote : string -> string;
  html_escape : string -> string
}.

End Py.

(** ** The player processes and the handler monad *)

Module World.
Import Py.

(** A player process started by the service.  [pending] holds what was
    written to the buffered [stdin] pipe and not flushed yet, [received]
    what reached the process; both newest last. *)
Record proc : Type := Proc {
  argv : list string;
  alive : bool;
  pending : list string;
  received : list string
}.

(** What a handler does to the outside, in order. *)
Inductive event : Type :=
| EvPrint (e : exn)
| EvWrite (pid : nat) (data : string)
| EvKill (pid : nat)
| EvSpawn (pid : nat) (cmd : list string)
| EvOpen (name : string).

(** [procs] lists every process started so far, a pid is a position in it;
    [mpv_process] is the attribute [self.server.mpv_process], [None] as
    long as the server has no such attribute: [HTTPServer.__init__] does
    not run [MpvProcess.__init__], so the attribute appears with the
    first player that [play_file] starts. *)
Record world : Type := World {
  procs : list proc;
  mpv_process : option nat;
  trace : list event
}.

Definition initial : world := World [] None [].

(** A computation may change the world and then return or raise; the
    changes made before a raise stay. *)
Definition M (A : Type) : Type := world -> outcome A * world.

Definition ret {A} (a : A) : M A := fun w => (Ok a, w).

Definition bind {A B} (m : M A) (k : A -> M B) : M B :=
  fun w => match m w with
           | (Ok a, w') => k a w'
           | (Raise e, w') => (Raise e, w')
           end.

#[global] Instance M_ret : MRet M := fun A a => ret a.
#[global] Instance M_bind : MBind M := fun A B k m => bind m k.

Definition raise {A} (e : exn) : M A := fun w => (Raise e, w).

Definition lift {A} (o : outcome A) : M A := fun w => (o, w).

(** [try: m  except Exception as e: h e] *)
Definition try_except {A} (m : M A) (h : exn -> M A) : M A :=
  fun w => match m w with
           | (Ok a, w') => (Ok a, w')
           | (Raise e, w') => h e w'
           end.

Definition emit (ev : event) : M unit :=
  fun w => (Ok tt, World (procs w) (mpv_process w) (trace w ++ [ev])).

(** [print(e)] *)
Definition print (e : exn) : M unit := emit (EvPrint e).

Definition get_mpv_process : M (option nat) := fun w => (Ok (mpv_process w), w).

Definition set_mpv_process (h : option nat) : M unit :=
  fun w => (Ok tt, World (procs w) h (trace w)).

Definition update_proc (pid : nat) (f : proc -> proc) : M unit :=
  fun w => (Ok tt, World (alter f pid (procs w)) (mpv_process w) (trace w)).

(** The process behind a handle; a handle always is the pid of a process
    the service has started (see [session_ok]). *)
Definition get_proc (pid : nat) : M proc :=
  fun w => match procs w !! pid with
           | Some p => (Ok p, w)
           | None => (Raise (Exn OSError "no such process"), w)
           end.

(** [self.server.mpv_process.stdin]: before the first player is started
    the server has no attribute [mpv_process]. *)
Definition stdin_of (h : option nat) : M nat :=
  match h with
  | Some pid => ret pid
  | None => raise (Exn AttributeError "'MpvServer' object has no attribute 'mpv_process'")
  end.

(** [stdin.write(data)]: the bytes go to the pipe's buffer, which the
    short lines of the service do not fill. *)
Definition stdin_write (pid : nat) (data : string) : M unit :=
  get_proc pid ;;
  emit (EvWrite pid data) ;;
  update_proc pid (fun p => Proc (argv p) (alive p) (pending p ++ [data]) (received p)).

(** [stdin.flush()]: the buffer reaches a live process; the pipe of a
    process that has exited is broken. *)
Definition stdin_flush (pid : nat) : M unit :=
  p ← get_proc pid;
  if alive p
  then update_proc pid (fun p => Proc (argv p) (alive p) [] (received p ++ pending p))
  else raise (Exn BrokenPipeError "[Errno 32] Broken pipe").

(** [p.kill()] *)
Definition kill (pid : nat) : M unit :=
  get_proc pid ;;
  emit (EvKill pid) ;;
  update_proc pid (fun p => Proc (argv p) false (pending p) (received p)).

(** [Popen(cmd, stdin=PIPE)]: [ok] tells whether the executable starts. *)
Definition Popen (ok : bool) (cmd : list string) : M nat :=
  fun w =>
    if ok then
      let pid := length (procs w) in
      (Ok pid, World (procs w ++ [Proc cmd true [] []]) (mpv_process w)
                     (trace w ++ [EvSpawn pid cmd]))
    else (Raise (Exn FileNotFoundError "[Errno 2] No such file or directory: 'mpv'"), w).

(** The player exits on its own (end of file, or a [quit] it has read). *)
Definition proc_exits (pid : nat) (w : world) : world :=
  World (alter (fun p => Proc (argv p) false (pending p) (received p)) pid (procs w))
        (mpv_process w) (trace w).

Definition live_count (w : world) : nat :=
  length (List.filter alive (procs w)).

(** At most the process the handle points to is alive, and the handle,
    if any, is a pid in use. *)
Definition session_ok (w : world) : Prop :=
  (forall pid p, procs w !! pid = Some p -> alive p = true -> mpv_process w = Some pid)
  /\ (forall pid, mpv_process w = Some pid -> pid < length (procs w)).

End World.

(** ** [server-rewrite.py] *)

Module Rewrite.
Import Py World.

Definition mpv_executable : string := "mpv".

(** An HTTP response as the handler sends it. *)
Record response : Type := Response {
  status : nat;
  headers : list (string * string);
  body : string
}.

(** What the handler reads of a request: the path, the [Authorization]
    header, the result of [int(self.headers.get('Content-Length'))] and
    the result of [json.loads(data.decode())] on the body. *)
Record request {rt : Runtime} : Type := Request {
  req_path : string;
  req_authorization : option string;
  req_content_length : outcome Z;
  req_json : outcome (json pyfloat)
}.

(** The files and programs around the service: the [commands] table read
    at start, [preferences/mpv.conf] as [open().read()] gives it,
    [preferences/login] when it is a file, what [open().read()] gives or
    raises for the [mpv-remote.conf] next to a target when it is a file,
    the [static] directory, the directories
    listed by [/dir], and whether the player starts. *)
Record env {rt : Runtime} : Type := Env {
  commands : gmap string string;
  mpv_conf : outcome string;
  login_file : option string;
  folder_conf : string -> option (outcome string);
  static_listdir : outcome (list string);
  static_read : string -> outcome string;
  index_read : outcome string;
  popen_ok : list string -> bool;
  fs_iterdir : string -> outcome (list string);
  fs_stat : string -> outcome (pyfloat * Z);
  fs_is_dir : string -> bool;
  fs_parts : string -> list string
}.

(** [c.split('=', 1)[1]]: the text after the first [sep]. *)
Fixpoint after_first (sep : ascii) (s : string) : string :=
  match s with
  | EmptyString => EmptyString
  | String a s' => if Ascii.eqb a sep then s' else after_first sep s'
  end.

(** [Config.__init__], on the lines of the [commands] file: a line without
    [=] cannot be unpacked into a name and a command. *)
Fixpoint load_commands (lines : list string) (table : gmap string string)
  : outcome (gmap string string) :=
  match lines with
  | [] => Ok table
  | c :: rest =>
      if c =? EmptyString then load_commands rest table
      else if PyStr.contains_char "=" c
      then load_commands rest (<[PyStr.before_first "=" c := after_first "=" c]> table)
      else Raise (Exn ValueError "not enough values to unpack (expected 2, got 1)")
  end.

(** [Config.mpv_config], on the text of [mpv.conf]. *)
Definition mpv_config_lines (text : string) : list string :=
  List.map (fun o => "--" +:+ PyStr.before_first "#" (PyStr.strip o))
    (List.filter
       (fun o => negb (o =? EmptyString) && negb (PyStr.startswith "#" (PyStr.strip o)))
       (PyStr.splitlines text)).

(** The pattern [allowed] of [Config.folder_config], without its [$]. *)
Definition is_value_char (c : ascii) : bool :=
  let n := PyStr.code c in
  ((48 <=? n) && (n <=? 57) || (97 <=? n) && (n <=? 122)
   || (n =? 46) || (n =? 45))%N.

Definition allowed : Re.re :=
  Re.Cat
    (Re.Cat
       (Re.Alt
          (Re.Cat (Re.Opt (Re.Lit "secondary-"))
             (Re.Cat (Re.Alt (Re.Lit "a") (Re.Alt (Re.Lit "s") (Re.Lit "v")))
                (Re.Alt (Re.Lit "id") (Re.Lit "lang"))))
          (Re.Cat (Re.Alt (Re.Lit "sub") (Re.Lit "audio")) (Re.Lit "-delay")))
       (Re.Chr "="))
    (Re.Plus (Re.Class is_value_char)).

(** The flags [Config.folder_config] makes of the text of
    [mpv-remote.conf] if any. *)
Definition folder_config_lines (conf : option string) : list string :=
  match conf with
  | Some text =>
      List.map (fun c => "--" +:+ c)
        (List.filter (Re.match_dollar allowed) (PyStr.splitlines text))
  | None => []
  end.

Definition quoted (s : string) : string :=
  String "034" s +:+ String "034" EmptyString.

Definition respond (code : nat) (hs : list (string * string)) (data : string)
  : M (option response) :=
  mret (Some (Response code hs data)).

Definition ask_auth : M (option response) :=
  respond 401
    [("WWW-Authenticate", "Basic realm=" +:+ quoted "mpv-remote");
     ("Content-Length", "0")] EmptyString.

Definition respond_ok (data content_type : string) (age : N) : M (option response) :=
  respond 200
    [("Cache-Control", "public, max-age=" +:+ PyStr.decimal age);
     ("Content-Type", content_type);
     ("Content-Length", PyStr.decimal (PyStr.len data))] data.

Definition html : string := "text/html; charset=utf-8".

Definition respond_notfound (data : string) : M (option response) :=
  respond 404
    [("Content-Type", "text/plain");
     ("Content-Length", PyStr.decimal (PyStr.len data))] data.

Section Service.
Context {rt : Runtime}.
Variable config : env.

Definition mpv_config : M (list string) :=
  text ← lift (mpv_conf config); mret (mpv_config_lines text).

(** [Config.login] *)
Definition login (auth : option string) : bool :=
  match login_file config with
  | Some bytes =>
      match auth with
      | Some a => a =? "Basic " +:+ Base64.standard_b64encode (PyStr.bytes_strip bytes)
      | None => false
      end
  | None => true
  end.

(** [Config.folder_config]: no flags without an [mpv-remote.conf]; one
    that is a file and cannot be opened or decoded makes [read] raise. *)
Definition folder_config (fpath : string) : outcome (list string) :=
  match folder_conf config fpath with
  | Some (Ok text) => Ok (folder_config_lines (Some text))
  | Some (Raise e) => Raise e
  | None => Ok (folder_config_lines None)
  end.

(** [FolderContent._item_info]: [None] when [stat] fails. *)
Definition _item_info (item : string) : M (json pyfloat) :=
  try_except
    (st ← lift (fs_stat config item);
     mret (JObj [("path", JArr (List.map JStr (fs_parts config item)));
                 ("type", JStr (if fs_is_dir config item then "dir" else "file"));
                 ("modified", JFloat (fst st));
                 ("size", JInt (snd st))]))
    (fun e => print e ;; mret JNull).

Fixpoint item_infos (items : list string) : M (list (json pyfloat)) :=
  match items with
  | [] => mret []
  | item :: rest =>
      i ← _item_info item;
      r ← item_infos rest;
      mret (match i with JNull => r | _ => i :: r end)
  end.

Definition drive_letters : list string :=
  List.map (fun n => String (PyStr.chr n) (":" +:+ String "092" EmptyString))
    [65; 66; 67; 68; 69; 70; 71; 72; 73; 74; 75; 76; 77; 78; 79; 80; 81; 82;
     83; 84; 85; 86; 87; 88; 89; 90]%N.

Fixpoint drive_infos (drives : list string) : M (list (json pyfloat)) :=
  match drives with
  | [] => mret []
  | d :: rest =>
      i ← _item_info d;
      r ← drive_infos rest;
      mret (i :: r)
  end.

Definition _list_windows_drives : M (list (json pyfloat)) :=
  drive_infos (List.filter (fs_is_dir config) drive_letters).

(** [FolderContent(path).as_json()] *)
Definition FolderContent_as_json (path : string) : M string :=
  content ← (if path =? "WINROOT" then _list_windows_drives
             else items ← lift (fs_iterdir config path); item_infos items);
  mret (json_dumps
          (JObj [("path", JArr (List.map JStr (fs_parts config path)));
                 ("content", JArr content)])).

(** The [try] block that opens [play_file]. *)
Definition quit_previous : M unit :=
  try_except
    (h ← get_mpv_process;
     p ← stdin_of h;
     stdin_write p ("quit" +:+ PyStr.LF) ;;
     stdin_flush p ;;
     kill p)
    (fun e => print e).

(** The command line [play_file] builds from the global flags and the
    flags of the target's directory. *)
Definition command_line (globals folder : list string) (fpath : string) : list string :=
  let playlist := [fpath] in
  let cmd := [mpv_executable; "--input-terminal=no"; "--input-file=/dev/stdin"; "--fs"] in
  cmd ++ globals ++ folder ++ ["--"] ++ playlist.

(** [MpvRequestHandler.play_file]: both configuration files are read
    after the [try] block and before [Popen]. *)
Definition play_file (fpath : string) : M unit :=
  quit_previous ;;
  globals ← mpv_config;
  folder ← lift (folder_config fpath);
  let cmd := command_line globals folder fpath in
  pid ← Popen (popen_ok config cmd) cmd;
  set_mpv_process (Some pid).

Definition content_type_of (requested : string) : string :=
  let e := PyStr.splitext_ext requested in
  if e =? ".css" then "text/css; charset=utf-8"
  else if e =? ".html" then "text/html; charset=utf-8"
  else if e =? ".js" then "application/javascript; charset=utf-8"
  else "application/octet-stream".

(** [MpvRequestHandler.serve_static] *)
Definition serve_static (path : string) : M (option response) :=
  let requested := unquote (PyStr.drop 8 path) in
  listing ← lift (static_listdir config);
  if negb (existsb (String.eqb requested) listing)
  then respond_notfound "file not found"
  else
    try_except
      (emit (EvOpen requested) ;;
       data ← lift (static_read config requested);
       respond_ok data (content_type_of requested) 315360000)
      (fun e => print e ;; respond_notfound "error reading file").

Definition type_name (v : json pyfloat) : string :=
  match v with
  | JNull => "NoneType" | JBool _ => "bool" | JInt _ => "int"
  | JFloat _ => "float" | JStr _ => "str" | JArr _ => "list" | JObj _ => "dict"
  end.

(** [float(val)] *)
Definition float_of (val : json pyfloat) : outcome pyfloat :=
  match val with
  | JFloat f => Ok f
  | JInt z =>
      match float_of_int z with
      | Some f => Ok f
      | None => Raise (Exn OverflowError "int too large to convert to float")
      end
  | JBool b =>
      match float_of_int (if b then 1 else 0) with
      | Some f => Ok f
      | None => Raise (Exn OverflowError "int too large to convert to float")
      end
  | JStr s =>
      match float_of_str s with
      | Some f => Ok f
      | None => Raise (Exn ValueError ("could not convert string to float: '" +:+ s +:+ "'"))
      end
  | _ => Raise (Exn TypeError
                  ("float() argument must be a string or a number, not '"
                   +:+ type_name val +:+ "'"))
  end.

Definition numeric_commands : list string := ["vol_set"; "seek"; "subdelay"; "audiodelay"].

Definition is_numeric_command (command : json pyfloat) : bool :=
  match command with
  | JStr c => existsb (String.eqb c) numeric_commands
  | _ => false
  end.

(** [MpvRequestHandler.sanitize]: only [ValueError] is handled. *)
Definition sanitize (command val : json pyfloat)
  : M (json pyfloat * option pyfloat) :=
  if is_numeric_command command then
    match float_of val with
    | Ok f => mret (command, Some f)
    | Raise e => if is_ValueError e then mret (command, None) else raise e
    end
  else mret (command, None).

(** [config.commands[command]] *)
Definition commands_item (command : json pyfloat) : outcome string :=
  match command with
  | JStr c =>
      match commands config !! c with
      | Some t => Ok t
      | None => Raise (Exn KeyError ("'" +:+ c +:+ "'"))
      end
  | JArr _ | JObj _ =>
      Raise (Exn TypeError ("unhashable type: '" +:+ type_name command +:+ "'"))
  | _ => Raise (Exn KeyError (type_name command))
  end.

(** [MpvRequestHandler.control_mpv] *)
Definition control_mpv (command val : json pyfloat) : M unit :=
  cv ← sanitize command val;
  try_except
    (h ← get_mpv_process;
     mpv_stdin ← stdin_of h;
     template ← lift (commands_item (fst cv));
     text ← lift (str_format template (snd cv));
     stdin_write mpv_stdin (PyStr.encode (text +:+ PyStr.LF)) ;;
     stdin_flush mpv_stdin)
    (fun e => print e).

(** [MpvRequestHandler.do_GET] *)
Definition do_GET (req : request) : M (option response) :=
  if negb (login (req_authorization req)) then ask_auth
  else
    try_except
      (if PyStr.startswith "/static/" (req_path req) then serve_static (req_path req)
       else if req_path req =? "/" then
         data ← lift (index_read config); respond_ok data html 0
       else respond_notfound "404")
      (fun e => respond_notfound (PyStr.encode (exn_text e))).

(** The arguments [*v] passes: the items of a list, the characters of a
    string, the keys of a dictionary. *)
Fixpoint chars (s : string) : list (json pyfloat) :=
  match s with
  | EmptyString => []
  | String a s' => JStr (String a EmptyString) :: chars s'
  end.

Fixpoint dict_keys (seen : list string) (kv : list (string * json pyfloat))
  : list (json pyfloat) :=
  match kv with
  | [] => []
  | (k, _) :: kv' =>
      if existsb (String.eqb k) seen then dict_keys seen kv'
      else JStr k :: dict_keys (k :: seen) kv'
  end.

Definition star_args (v : json pyfloat) : outcome (list (json pyfloat)) :=
  match v with
  | JArr l => Ok l
  | JStr s => Ok (chars s)
  | JObj kv => Ok (dict_keys [] kv)
  | _ => Raise (Exn TypeError
                  ("os.path.join() argument after * must be an iterable, not "
                   +:+ type_name v))
  end.

Fixpoint all_str (l : list (json pyfloat)) : outcome (list string) :=
  match l with
  | [] => Ok []
  | JStr s :: l' =>
      match all_str l' with Ok r => Ok (s :: r) | Raise e => Raise e end
  | v :: _ =>
      Raise (Exn TypeError
               ("join() argument must be str, bytes, or os.PathLike object, not '"
                +:+ type_name v +:+ "'"))
  end.

(** [os.path.join] applied to the unpacked arguments. *)
Definition os_path_join (args : list (json pyfloat)) : outcome string :=
  match args with
  | [] => Raise (Exn TypeError "join() missing 1 required positional argument: 'a'")
  | _ =>
      match all_str args with
      | Ok (a :: p) => Ok (PyStr.join_onto a p)
      | Ok [] => Raise (Exn TypeError "join() missing 1 required positional argument: 'a'")
      | Raise e => Raise e
      end
  end.

(** [d.get(key)] for what [json.loads] returned: the last value wins in
    a dictionary, and only a dictionary has [get]. *)
Fixpoint obj_get (key : string) (kv : list (string * json pyfloat)) : json pyfloat :=
  match kv with
  | [] => JNull
  | (k, v) :: kv' =>
      if existsb (fun kv => String.eqb (fst kv) key) kv' then obj_get key kv'
      else if String.eqb k key then v else JNull
  end.

Definition dict_get (d : json pyfloat) (key : string) : outcome (json pyfloat) :=
  match d with
  | JObj kv => Ok (obj_get key kv)
  | _ => Raise (Exn AttributeError
                  ("'" +:+ type_name d +:+ "' object has no attribute 'get'"))
  end.

(** [MpvRequestHandler.do_POST] *)
Definition do_POST (req : request) : M (option response) :=
  if negb (login (req_authorization req)) then ask_auth
  else
    lift (req_content_length req) ;;
    try_except
      (if req_path req =? "/dir" then
         v ← lift (req_json req);
         args ← lift (star_args v);
         dir_path ← lift (os_path_join args);
         c ← FolderContent_as_json dir_path;
         respond_ok (PyStr.encode c) "application/json" 0
       else if req_path req =? "/play" then
         v ← lift (req_json req);
         args ← lift (star_args v);
         file_path ← lift (os_path_join args);
         play_file file_path ;;
         respond_ok EmptyString html 0
       else if req_path req =? "/control" then
         command ← lift (req_json req);
         c ← lift (dict_get command "command");
         val ← lift (dict_get command "val");
         control_mpv c val ;;
         respond_ok EmptyString html 0
       else mret None)
      (fun e => respond_notfound (PyStr.encode (exn_text e))).

End Service.

End Rewrite.

(** ** [server.py] *)

Module Legacy.
Import Py World.

Definition mpv_executable : string := "mpv".

Record response : Type := Response {
  status : nat;
  headers : list (string * string);
  body : string
}.

(** The class body's reading of the [config] file. *)
Definition config_lines (text : string) : list string :=
  List.map (fun o => "--" +:+ o)
    (List.filter
       (fun o => PyStr.contains_char "=" o && negb (PyStr.startswith "#" o))
       (PyStr.splitlines text)).

(** What a path points to: a directory, a regular file, or something
    else (a socket, a device, nothing). *)
Inductive kind : Type := Directory | RegularFile | Other.

(** A directory entry [x] as [pathlib] shows it: [str(x)], [x.parts[-1]],
    [x.suffix], what [x.exists()] answers, what it points to, and
    [x.stat().st_mtime] (finite floats compare as the integers do). *)
Record entry : Type := Entry {
  str : string;
  name : string;
  suffix : string;
  exists_ : outcome bool;
  points_to : kind;
  st_mtime : Z
}.

Definition is_dir (x : entry) : bool :=
  match points_to x with Directory => true | _ => false end.

Definition is_file (x : entry) : bool :=
  match points_to x with RegularFile => true | _ => false end.

Definition of_bool (b : bool) : Q := if b then 1 else 0.

(** [DirectoryViewer.sort_compare] *)
Definition sort_compare (a b : entry) : Q :=
  if is_dir a then
    if is_dir b then of_bool (st_mtime a <? st_mtime b)%Z - (1 # 2)
    else - (1)
  else
    if is_dir b then 1
    else of_bool (String.ltb (PyStr.lower (str b)) (PyStr.lower (str a))) - (1 # 2).

(** [functools.cmp_to_key]: the key's [<] is [mycmp(a, b) < 0]. *)
Definition key_lt {A} (mycmp : A -> A -> Q) (a b : A) : bool :=
  match (mycmp a b ?= 0)%Q with Lt => true | _ => false end.

(** [sorted] consults only [<].  Each element is put into the sorted
    prefix before the first element it is less than, as CPython's binary
    insertion does on a sorted prefix. *)
Fixpoint insert_sorted {A} (lt : A -> A -> bool) (pivot : A) (prefix : list A) : list A :=
  match prefix with
  | [] => [pivot]
  | e :: rest => if lt pivot e then pivot :: prefix else e :: insert_sorted lt pivot rest
  end.

Definition sorted {A} (lt : A -> A -> bool) (l : list A) : list A :=
  fold_left (fun prefix pivot => insert_sorted lt pivot prefix) l [].

(** The first loop of [generate_content_links]. *)
Fixpoint valid_items (items : list entry) : M (list entry) :=
  match items with
  | [] => mret []
  | i :: rest =>
      keep ← try_except (lift (exists_ i)) (fun e => print e ;; mret false);
      r ← valid_items rest;
      mret (if (keep : bool) then i :: r else r)
  end.

Definition vid_ext : list string :=
  ["avi"; "mp4"; "mkv"; "ogv"; "ogg"; "flv"; "m4v"; "mov"; "mpg"; "mpeg"; "wmv"].

(** One rendered link: the [function], [cls] and [fa] chosen for [x]. *)
Record link : Type := Link {
  target : entry;
  function : string;
  cls : string;
  fa : string
}.

(** The body of the second loop: [None] where the loop continues. *)
Definition link_of (x : entry) : option link :=
  if PyStr.startswith "." (name x) then None
  else if is_file x then
    if existsb (String.eqb (PyStr.drop 1 (suffix x))) vid_ext
    then Some (Link x "play" "video" "fa fa-file-video-o")
    else Some (Link x "play" "file" EmptyString)
  else if is_dir x then Some (Link x "dir" "folder" "fa fa-folder")
  else None.

(** The entries that get a link, in the order of the listing. *)
Definition content_links (valid : list entry) : list link :=
  omap link_of (sorted (key_lt sort_compare) valid).

Definition quoted (s : string) : string :=
  String "034" s +:+ String "034" EmptyString.

Section Html.
Context {rt : Runtime}.

Definition render (l : link) : string :=
  "<li><a class=" +:+ quoted (cls l)
  +:+ " href=" +:+ quoted ("/" +:+ function l +:+ "?path=" +:+ quote (str (target l)))
  +:+ "><i class=" +:+ quoted (fa l) +:+ "></i> "
  +:+ html_escape (name (target l)) +:+ "</a></li>".

Definition play_all (glob : string) : string :=
  "<li><a class=" +:+ quoted "file"
  +:+ " href=" +:+ quoted ("/play?path=" +:+ quote glob)
  +:+ "><i class=" +:+ quoted "fa fa-asterisk" +:+ "></i> (play all)</a></li>".

(** [DirectoryViewer.generate_content_links]: [glob] is
    [str(self.path / '*')], [items] what [self.path.iterdir()] yields. *)
Definition generate_content_links (glob : string) (items : list entry) : M string :=
  valid ← valid_items items;
  mret (String.concat EmptyString (play_all glob :: List.map render (content_links valid))).

(** The files and programs around the service. *)
Record env : Type := Env {
  config : list string;
  static_listdir : outcome (list string);
  static_read : string -> outcome string;
  popen_ok : list string -> bool
}.

Variable e : env.

(** The [try] block that opens [play_file]: the quit line is written
    and not flushed. *)
Definition quit_previous : M unit :=
  try_except
    (h ← get_mpv_process;
     p ← stdin_of h;
     stdin_write p ("quit" +:+ PyStr.LF) ;;
     kill p)
    (fun e => print e).

Definition command_line (fpath : string) : list string :=
  [mpv_executable; "--input-terminal=no"; "--input-file=/dev/stdin"]
    ++ config e ++ ["--"; fpath].

(** [MpvRequestHandler.play_file] *)
Definition play_file (fpath : string) : M unit :=
  quit_previous ;;
  let cmd := command_line fpath in
  pid ← Popen (popen_ok e cmd) cmd;
  set_mpv_process (Some pid).

Definition respond_ok (data content_type : string) (age : N) : M response :=
  mret (Response 200
          [("Cache-Control", "public, max-age=" +:+ PyStr.decimal age);
           ("Content-Type", content_type)] data).

Definition respond_notfound (data : string) : M response :=
  mret (Response 404 [("Content-Type", "text/plain")]
          (if data =? EmptyString then "404" else data)).

(** [MpvRequestHandler.serve_static] *)
Definition serve_static (path : string) : M response :=
  let requested := unquote (PyStr.drop 8 path) in
  listing ← lift (static_listdir e);
  if negb (existsb (String.eqb requested) listing)
  then respond_notfound "file not found"
  else
    try_except
      (emit (EvOpen requested) ;;
       data ← lift (static_read e requested);
       respond_ok data
         (if PyStr.splitext_ext requested =? ".css" then "text/css"
          else "application/octet-stream")
         315360000)
      (fun x => print x ;; respond_notfound "error reading file").

End Html.

End Legacy.

(** ** A small runtime to run the model on examples

    Floats are the whole numbers written in decimal, a template is filled
    at its first [{}], percent escapes of two hexadecimal digits are
    decoded, and nothing needs quoting. *)

Module Sample.
Import Py.

Definition digit_value (c : ascii) : option Z :=
  let n := PyStr.code c in
  if ((48 <=? n) && (n <=? 57))%N then Some (Z.of_N n - 48)%Z else None.

Fixpoint digits_value (acc : Z) (s : string) : option Z :=
  match s with
  | EmptyString => Some acc
  | String c s' =>
      match digit_value c with
      | Some d => digits_value (10 * acc + d)%Z s'
      | None => None
      end
  end.

Definition whole_of_str (s : string) : option Z :=
  match s with
  | EmptyString => None
  | String "-" (String c s') => option_map Z.opp (digits_value 0 (String c s'))
  | _ => digits_value 0 s
  end.

Definition whole_repr (z : Z) : string :=
  ((if (z <? 0)%Z then "-" else EmptyString)
   +:+ PyStr.decimal (Z.to_N (Z.abs z)) +:+ ".0")%string.

Definition arg_text (val : option Z) : string :=
  match val with Some z => whole_repr z | None => "None" end.

Fixpoint fill (template : string) (text : string) : string :=
  match template with
  | String "{" (String "}" rest) => text +:+ rest
  | String c rest => String c (fill rest text)
  | EmptyString => EmptyString
  end.

Definition hex_value (c : ascii) : option N :=
  let n := PyStr.code c in
  if ((48 <=? n) && (n <=? 57))%N then Some (n - 48)%N
  else if ((65 <=? n) && (n <=? 70))%N then Some (n - 55)%N
  else if ((97 <=? n) && (n <=? 102))%N then Some (n - 87)%N
  else None.

Fixpoint percent_decode (s : string) : string :=
  match s with
  | EmptyString => EmptyString
  | String "%" (String a (String b rest) as t) =>
      match hex_value a, hex_value b with
      | Some x, Some y => String (PyStr.chr (16 * x + y)) (percent_decode rest)
      | _, _ => String "%" (percent_decode t)
      end
  | String c rest => String c (percent_decode rest)
  end.

Definition runtime : Runtime := {|
  pyfloat := Z;
  float_of_str := whole_of_str;
  float_of_int := Some;
  str_format := fun template val => Ok (fill template (arg_text val));
  json_dumps := fun _ => "{}";
  unquote := percent_decode;
  quote := fun s => s;
  html_escape := fun s => s
|}.

(** An installation: [login] is the content of the login file if any,
    [starts] tells whether the player can be started.  The directory
    [/videos] has an override file, the one of [/broken] cannot be
    decoded. *)
Definition config (login : option string) (starts : bool) : @Rewrite.env runtime := {|
  Rewrite.commands :=
    {[ "pause" := "cycle pause"; "seek" := "seek {}"; "vol_set" := "set volume {}" ]};
  Rewrite.mpv_conf := Ok ("fullscreen" +:+ PyStr.LF +:+ "#comment" +:+ PyStr.LF +:+ "volume=50");
  Rewrite.login_file := login;
  Rewrite.folder_conf := fun fpath =>
    if PyStr.startswith "/videos/" fpath
    then Some (Ok ("aid=2" +:+ PyStr.LF +:+ "fullscreen=yes" +:+ PyStr.LF
                   +:+ "sub-delay=-1.5"))
    else if PyStr.startswith "/broken/" fpath
    then Some (Raise (Exn UnicodeDecodeError
                        "'utf-8' codec can't decode byte 0xff in position 0: invalid start byte"))
    else None;
  Rewrite.static_listdir := Ok ["index.html"; "app.js"; "style.css"];
  Rewrite.static_read := fun _ => Ok "body { }";
  Rewrite.index_read := Ok "<html></html>";
  Rewrite.popen_ok := fun _ => starts;
  Rewrite.fs_iterdir := fun _ => Ok [];
  Rewrite.fs_stat := fun _ => Raise (Exn FileNotFoundError "[Errno 2] No such file or directory");
  Rewrite.fs_is_dir := fun _ => false;
  Rewrite.fs_parts := fun _ => []
|}.

Definition legacy_config (starts : bool) : @Legacy.env := {|
  Legacy.config := ["--volume=50"];
  Legacy.static_listdir := Ok ["style.css"];
  Legacy.static_read := fun _ => Ok "body { }";
  Legacy.popen_ok := fun _ => starts
|}.

(** A service whose player, pid 0, is running. *)
Definition playing : World.world :=
  World.World [World.Proc ["mpv"; "--"; "/videos/a.mkv"] true [] []] (Some 0) [].


(** A directory with two sub-directories, two files, a hidden directory
    and a socket, in the order [iterdir] happens to give them. *)
Definition listing : list Legacy.entry :=
  [ Legacy.Entry "/videos/b.mkv" "b.mkv" ".mkv" (Ok true) Legacy.RegularFile 7;
    Legacy.Entry "/videos/old" "old" EmptyString (Ok true) Legacy.Directory 10;
    Legacy.Entry "/videos/.git" ".git" EmptyString (Ok true) Legacy.Directory 30;
    Legacy.Entry "/videos/A.txt" "A.txt" ".txt" (Ok true) Legacy.RegularFile 9;
    Legacy.Entry "/videos/sock" "sock" EmptyString (Ok true) Legacy.Other 5;
    Legacy.Entry "/videos/new" "new" EmptyString (Ok true) Legacy.Directory 20 ].

Definition post (path : string) (auth : option string) (v : json Z) : @Rewrite.request runtime :=
  Rewrite.Request runtime path auth (Ok 2%Z) (Ok v).

Definition get (path : string) (auth : option string) : @Rewrite.request runtime :=
  Rewrite.Request runtime path auth
    (Raise (Exn TypeError "int() argument must be a string, a bytes-like object or a real number, not 'NoneType'"))
    (Raise (Exn JSONDecodeError "Expecting value: line 1 column 1 (char 0)")).

End Sample.

(** ** The rules as the specification words them *)

Module Spec.

(** The option names a directory override may set: the audio, subtitle
    and video ids and languages, also for the secondary track, and the
    two delays. *)
Definition allowed_keys : list string :=
  ["aid"; "sid"; "vid"; "alang"; "slang"; "vlang";
   "secondary-aid"; "secondary-sid"; "secondary-vid";
   "secondary-alang"; "secondary-slang"; "secondary-vlang";
   "sub-delay"; "audio-delay"].

(** An allow-listed line is [key=value] with a key of the list and a
    non-empty value of digits, small letters, dots and dashes. *)
Definition allowed_option (line : string) : Prop :=
  exists key value,
    line = (key +:+ "=" +:+ value)%string
    /\ In key allowed_keys
    /\ value <> EmptyString
    /\ PyStr.all_chars Rewrite.is_value_char value = true.

(** Global flags: split each line on [#] to drop the comment, trim white
    space, skip what is empty, prefix the rest with [--]. *)
Definition global_flag (line : string) : option string :=
  let kept := PyStr.strip (PyStr.before_first "#" line) in
  if kept =? EmptyString then None else Some ("--" +:+ kept).

Definition global_flags (text : string) : list string :=
  omap global_flag (PyStr.splitlines text).

End Spec.

(** ** What the statements below observe *)

Module Observe.
Import Py World.

(** The line [play_file] writes to the player it replaces. *)
Definition quit_line : string := "quit" +:+ PyStr.LF.

(** What [flush] raises on the pipe of a process that has exited. *)
Definition broken_pipe : exn := Exn BrokenPipeError "[Errno 32] Broken pipe".

(** What reading [self.server.mpv_process] raises before the first
    player is started. *)
Definition no_stdin : exn :=
  Exn AttributeError "'MpvServer' object has no attribute 'mpv_process'".

(** No process of [l] is alive. *)
Definition all_dead (l : list proc) : Prop :=
  forall j x, l !! j = Some x -> alive x = false.

(** The prior process after [server-rewrite.py] has dealt with it, and
    what was done after the quit line was written. *)
Definition quit_rewrite (pid : nat) (p : proc) : proc * list event :=
  if alive p
  then (Proc (argv p) false [] (received p ++ (pending p ++ [quit_line])), [EvKill pid])
  else (Proc (argv p) false (pending p ++ [quit_line]) (received p), [EvPrint broken_pipe]).

(** The prior process after [server.py] has dealt with it. *)
Definition quit_legacy (p : proc) : proc :=
  Proc (argv p) false (pending p ++ [quit_line]) (received p).

(** The status of the response a handler run has sent, if it sent one. *)
Definition status_of (r : outcome (option Rewrite.response) * world) : option nat :=
  match fst r with
  | Ok (Some resp) => Some (Rewrite.status resp)
  | _ => None
  end.


(** The answer of [ask_auth]. *)
Definition challenge : Rewrite.response :=
  Rewrite.Response 401
    [("WWW-Authenticate", "Basic realm=" +:+ Rewrite.quoted "mpv-remote");
     ("Content-Length", "0")] EmptyString.

(** [m] never answers with the status [code]. *)
Definition never (code : nat) (m : M (option Rewrite.response)) : Prop :=
  forall w, status_of (m w) <> Some code.

(** The header value [Config.login] compares with. *)
Definition credential (bytes : string) : string :=
  "Basic " +:+ Base64.standard_b64encode (PyStr.bytes_strip bytes).


Definition no_linebreak (s : string) : bool :=
  PyStr.all_chars (fun c => negb (PyStr.is_linebreak c)) s.

(** The order [sort_compare] stands for, as [key_lt] reads it:
    directories first, the latest modified first, then the other entries
    by their path in lower case. *)
Definition precedes (a b : Legacy.entry) : bool :=
  match Legacy.is_dir a, Legacy.is_dir b with
  | true, true => (Legacy.st_mtime b <=? Legacy.st_mtime a)%Z
  | true, false => true
  | false, true => false
  | false, false =>
      String.leb (PyStr.lower (Legacy.str a)) (PyStr.lower (Legacy.str b))
  end.

(** A list in which every element is [lt] every later one. *)
Definition ordered {A} (lt : A -> A -> bool) (l : list A) : Prop :=
  StronglySorted (fun a b => lt a b = true) l.

(** A line of [mpv.conf] made of blanks only. *)
Definition blank_only (o : string) : bool :=
  negb (o =? EmptyString) && (PyStr.strip o =? EmptyString).

(** A line of [mpv.conf] with a blank right before its first [#]. *)
Definition blank_before_hash (o : string) : bool :=
  PyStr.contains_char "#" o
  && negb (PyStr.rstrip_by PyStr.is_space (PyStr.before_first "#" o)
           =? PyStr.before_first "#" o).

Definition tidy (o : string) : bool := negb (blank_only o) && negb (blank_before_hash o).

(** What [Config.mpv_config] makes of one line. *)
Definition parsed (o : string) : option string :=
  if negb (o =? EmptyString) && negb (PyStr.startswith "#" (PyStr.strip o))
  then Some ("--" +:+ PyStr.before_first "#" (PyStr.strip o)) else None.

(** [m] keeps the invariant [session_ok], whether it returns or raises. *)
Definition keeps {A} (m : M A) : Prop :=
  forall w, session_ok w -> session_ok (snd (m w)).

(** The worlds [server-rewrite.py] reaches when its requests are served
    in turn, each handler running to its end before the next one starts:
    the service starts without a player, and its player may exit at any
    time.  The server is a [ThreadingMixIn] server: handlers of requests
    that overlap run in threads of their own and are not covered here
    (see [Threads]). *)
Inductive served_in_turn {rt : Runtime} (config : Rewrite.env) : world -> Prop :=
| turn_initial : served_in_turn config initial
| turn_GET req w :
    served_in_turn config w -> served_in_turn config (snd (Rewrite.do_GET config req w))
| turn_POST req w :
    served_in_turn config w -> served_in_turn config (snd (Rewrite.do_POST config req w))
| turn_exit pid w : served_in_turn config w -> served_in_turn config (proc_exits pid w).

End Observe.

(** ** Handlers that overlap

    [MpvServer] is a [ThreadingMixIn] server: every request is handled in
    a thread of its own, and [play_file] takes no lock. *)

Module Threads.
Import Py World.

(** A thread is the steps it still has to take; a step acts on the
    server's state and gives the rest of the thread. *)
#[warnings="-register-all"]
Inductive thread : Type :=
| Done
| Step (run : world -> world * thread).

(** One step that runs [m], then goes on with [ok] if [m] returns and
    with [ex] if it raises. *)
Definition atom {A} (m : M A) (ok : A -> thread) (ex : exn -> thread) : thread :=
  Step (fun w => match m w with
                 | (Ok a, w') => (w', ok a)
                 | (Raise e, w') => (w', ex e)
                 end).

Section Service.
Context {rt : Runtime}.
Variable config : Rewrite.env.

(** What [play_file] of [server-rewrite.py] does after its [try] block,
    statement by statement: the two configuration files are read, the
    player is started, and the new process is assigned to the handle.  An
    exception ends the thread. *)
Definition start_player (fpath : string) : thread :=
  atom (Rewrite.mpv_config config)
    (fun globals =>
       atom (lift (Rewrite.folder_config config fpath))
         (fun folder =>
            let cmd := Rewrite.command_line globals folder fpath in
            atom (Popen (Rewrite.popen_ok config cmd) cmd)
              (fun pid => atom (set_mpv_process (Some pid)) (fun _ => Done) (fun _ => Done))
              (fun _ => Done))
         (fun _ => Done))
    (fun _ => Done).

(** [MpvRequestHandler.play_file] of [server-rewrite.py], statement by
    statement: in the [try] block the handle is read, the quit line
    written and flushed and the process killed; an exception of these is
    printed; then the player is started. *)
Definition play_file (fpath : string) : thread :=
  let handler := fun e => atom (print e) (fun _ => start_player fpath) (fun _ => Done) in
  atom get_mpv_process
    (fun h =>
       atom (stdin_of h)
         (fun p =>
            atom (stdin_write p ("quit" +:+ PyStr.LF))
              (fun _ =>
                 atom (stdin_flush p)
                   (fun _ => atom (kill p) (fun _ => start_player fpath) handler)
                   handler)
              handler)
         handler)
    handler.

End Service.

(** A thread on its own, for at most [n] steps. *)
Fixpoint alone (n : nat) (t : thread) (w : world) : world :=
  match n, t with
  | S n', Step run => let (w', t') := run w in alone n' t' w'
  | _, _ => w
  end.

(** Two threads under a schedule that names, step by step, the thread
    that runs: [true] for the first, [false] for the second.  A thread
    that is done takes no step. *)
Fixpoint interleave (schedule : list bool) (a b : thread) (w : world) : world :=
  match schedule with
  | [] => w
  | true :: rest =>
      match a with
      | Step run => let (w', a') := run w in interleave rest a' b w'
      | Done => interleave rest a b w
      end
  | false :: rest =>
      match b with
      | Step run => let (w', b') := run w in interleave rest a b' w'
      | Done => interleave rest a b w
      end
  end.

(** The first thread runs until it has started its player, the second
    one runs to its end, then the first one assigns its player to the
    handle. *)
Definition late_assignment : list bool :=
  [true; true; true; true; true; true;
   false; false; false; false; false; false; false;
   true].

End Threads.

(** ** [pathlib] on POSIX paths, as far as [server.py] uses it *)

Module Posix.

(** [s.split(sep)] *)
Fixpoint split_from (sep : ascii) (cur : string) (s : string) : list string :=
  match s with
  | EmptyString => [cur]
  | String a s' =>
      if Ascii.eqb a sep then cur :: split_from sep EmptyString s'
      else split_from sep (cur +:+ String a EmptyString) s'
  end.

Definition split (sep : ascii) (s : string) : list string := split_from sep EmptyString s.

(** A pure path: its root ([/], [//] or none) and its names; empty names
    and [.] are dropped when the path is parsed. *)
Record path : Type := Path { root : string; names : list string }.

Definition is_name (c : string) : bool :=
  negb (c =? EmptyString) && negb (c =? ".").

Definition root_of (s : string) : string :=
  if PyStr.startswith "//" s && negb (PyStr.startswith "///" s) then "//"
  else if PyStr.startswith "/" s then "/"
  else EmptyString.

(** [Path(s)] *)
Definition parse (s : string) : path :=
  Path (root_of s) (List.filter is_name (split "/" s)).

(** [str(p)] *)
Definition str (p : path) : string :=
  match root p, names p with
  | EmptyString, [] => "."
  | r, ns => r +:+ String.concat "/" ns
  end.

(** [p.parts] *)
Definition parts (p : path) : list string :=
  (if root p =? EmptyString then [] else [root p]) ++ names p.

Fixpoint prefixes {A} (l : list A) : list (list A) :=
  [] :: match l with
        | [] => []
        | x :: l' => List.map (cons x) (prefixes l')
        end.

(** [list(reversed(p.parents)) + [p]]: the ancestors from the top down,
    then the path itself. *)
Definition lineage (p : path) : list path :=
  List.map (Path (root p)) (prefixes (names p)).

(** [p / name] for a name without slash. *)
Definition child (p : path) (name : string) : path :=
  Path (root p) (names p ++ [name]).

End Posix.

(** ** [server.py]: the pages and the dispatcher *)

Module Pages.
Import Py World Legacy.

(** What the class body of [MpvRequestHandler] has read, and the disk the
    pages look at: the [commands] table, the [login] header value if a
    login file exists, [base.substitute] with a content, the [controls]
    page, the home directory, and what [iterdir] yields for a path. *)
Record site : Type := Site {
  commands : gmap string string;
  login : option string;
  base_substitute : string -> outcome string;
  controls : string;
  homedir : string;
  iterdir : string -> outcome (list entry)
}.

(** What the handler reads of a request: [self.path], the [Authorization]
    header, [urlparse(self.path).path] and [parse_qsl] of the query. *)
Record request : Type := Request {
  path : string;
  authorization : option string;
  url_path : string;
  query : list (string * string)
}.

(** The class body's reading of the [commands] file: a command that
    starts with [file=] is replaced by the content of that file. *)
Fixpoint load_commands (read : string -> outcome string) (lines : list string)
    (table : gmap string string) : outcome (gmap string string) :=
  match lines with
  | [] => Ok table
  | c :: rest =>
      if c =? EmptyString then load_commands read rest table
      else if PyStr.contains_char "=" c then
        let cname := PyStr.before_first "=" c in
        let command := Rewrite.after_first "=" c in
        if PyStr.startswith "file=" command then
          match read (PyStr.drop 5 command) with
          | Ok text => load_commands read rest (<[cname := text]> table)
          | Raise e => Raise e
          end
        else load_commands read rest (<[cname := command]> table)
      else Raise (Exn ValueError "not enough values to unpack (expected 2, got 1)")
  end.

(** The class body's reading of the [login] file, if it is a file. *)
Definition login_of (file : option string) : option string :=
  match file with
  | Some bytes => Some ("Basic " +:+ Base64.standard_b64encode (PyStr.bytes_strip bytes))
  | None => None
  end.

(** [dict(parse_qsl(query)).get(key)]: the last value wins. *)
Fixpoint qs_get (key : string) (query : list (string * string)) : option string :=
  match query with
  | [] => None
  | (k, v) :: rest =>
      match qs_get key rest with
      | Some v' => Some v'
      | None => if String.eqb k key then Some v else None
      end
  end.

(** The truth value of [qs_list.get(key)]. *)
Definition qs_given (key : string) (query : list (string * string)) : option string :=
  match qs_get key query with
  | Some v => if v =? EmptyString then None else Some v
  | None => None
  end.

Definition ask_auth : M response :=
  mret (Response 401 [("WWW-Authenticate", "Basic realm=" +:+ quoted "mpv-remote")]
          EmptyString).

Definition redirect (location : string) : M response :=
  mret (Response 302 [("Location", location)] EmptyString).

Definition html : string := "text/html; charset=utf-8".

Section Html.
Context {rt : Runtime}.
Variable e : env.
Variable s : site.

Definition navlink (d : Posix.path) : outcome string :=
  match last (Posix.parts d) with
  | Some part =>
      Ok ("<a class=" +:+ quoted "navlink"
          +:+ " href=" +:+ quoted ("/dir?path=" +:+ quote (Posix.str d))
          +:+ ">" +:+ html_escape part +:+ "</a>")
  | None => Raise (Exn IndexError "tuple index out of range")
  end.

Fixpoint navlinks (chain : list Posix.path) : outcome (list string) :=
  match chain with
  | [] => Ok []
  | d :: rest =>
      match navlink d with
      | Ok l => match navlinks rest with Ok ls => Ok (l :: ls) | Raise x => Raise x end
      | Raise x => Raise x
      end
  end.

(** [DirectoryViewer.generate_navigation_links], where [os.sep] is [/]. *)
Definition generate_navigation_links (p : Posix.path) : outcome string :=
  match navlinks (Posix.lineage p) with
  | Ok ls => Ok (String.concat "/" ls)
  | Raise x => Raise x
  end.

(** [DirectoryViewer(path).as_html], where [os.name] is not [nt]: the
    navigation links are made first, then the directory is read. *)
Definition DirectoryViewer (path : string) : M string :=
  let p := Posix.parse path in
  nav_links ← lift (generate_navigation_links p);
  items ← lift (iterdir s (Posix.str p));
  cont_links ← generate_content_links (Posix.str (Posix.child p "*")) items;
  mret ("<h1>" +:+ nav_links +:+ "</h1><hr><ul>" +:+ cont_links +:+ "</ul>").

(** [MpvRequestHandler.list_dir] *)
Definition list_dir (path : string) : M response :=
  r ← try_except
        (listing ← DirectoryViewer path; mret (Ok listing))
        (fun x => mret (Raise x));
  match r with
  | Raise x => respond_notfound (PyStr.encode (exn_text x))
  | Ok listing =>
      page ← lift (base_substitute s
                     ("<div class=" +:+ quoted "listing" +:+ ">" +:+ listing +:+ "</div>"));
      respond_ok (PyStr.encode page) html 0
  end.

(** [MpvRequestHandler.control_mpv] *)
Definition control_mpv (command : string) : M response :=
  try_except
    (h ← get_mpv_process;
     mpv_stdin ← stdin_of h;
     stdin_write mpv_stdin (PyStr.encode (command +:+ PyStr.LF)) ;;
     stdin_flush mpv_stdin)
    (fun x => print x) ;;
  let h := if command =? "quit" then 2%N else 1%N in
  respond_ok ("<script>history.go(-" +:+ PyStr.decimal h +:+ ");</script>") html 0.

(** [MpvRequestHandler.do_GET] *)
Definition do_GET (req : request) : M response :=
  let refused :=
    match login s with
    | Some l =>
        match authorization req with
        | Some a => negb (a =? l)
        | None => true
        end
    | None => false
    end in
  if refused then ask_auth
  else if PyStr.startswith "/static/" (path req) then serve_static e (path req)
  else
    match (if url_path req =? "/dir" then qs_given "path" (query req) else None) with
    | Some p => list_dir p
    | None =>
        match (if url_path req =? "/play" then qs_given "path" (query req) else None) with
        | Some p => play_file e p ;; respond_ok (PyStr.encode (controls s)) html 0
        | None =>
            match (if url_path req =? "/control"
                   then match qs_get "command" (query req) with
                        | Some c => commands s !! c
                        | None => None
                        end
                   else None) with
            | Some command => control_mpv command
            | None =>
                if path req =? "/" then redirect ("/dir?path=" +:+ quote (homedir s))
                else respond_notfound EmptyString
            end
        end
    end.

End Html.

(** The page [control_mpv] answers with. *)
Definition go_back (command : string) : response :=
  Response 200 [("Cache-Control", "public, max-age=0"); ("Content-Type", html)]
    (if command =? "quit" then "<script>history.go(-2);</script>"
     else "<script>history.go(-1);</script>").

(** The status of the response a run of the handler has sent, if any. *)
Definition status_of (r : outcome response * world) : option nat :=
  match fst r with
  | Ok resp => Some (status resp)
  | Raise _ => None
  end.

(** [m] never answers with the status 401. *)
Definition no_challenge (m : M response) : Prop :=
  forall w, status_of (m w) <> Some 401.


(** What [i.exists()] lets into [valid_items]. *)
Definition found (i : entry) : bool :=
  match exists_ i with
  | Ok true => true
  | _ => false
  end.

(** What the first loop of [generate_content_links] prints for [i]. *)
Definition exists_failure (i : entry) : option event :=
  match exists_ i with
  | Raise x => Some (EvPrint x)
  | Ok _ => None
  end.

(** The worlds [server.py] can be in: it starts without a player, handles
    requests one after the other (its [MpvServer] is an [HTTPServer]
    without threads), and its player may exit at any time. *)
Inductive reachable {rt : Runtime} (e : env) (s : site) : world -> Prop :=
| legacy_initial : reachable e s initial
| legacy_GET req w : reachable e s w -> reachable e s (snd (do_GET e s req w))
| legacy_exit pid w : reachable e s w -> reachable e s (proc_exits pid w).

End Pages.

(** ** What a listing shows, and a disk to run the service on *)

Module Fixture.
Import Py World.

(** A name of a directory listing: not empty and without a slash. *)
Definition plain_name (s : string) : bool :=
  negb (s =? EmptyString) && negb (PyStr.contains_char "/" s).

(** What [FolderContent._item_info] returns for an item whose [stat]
    succeeds, and what it prints for one whose [stat] fails. *)
Definition info_of {rt : Runtime} (config : Rewrite.env) (item : string)
  : option (json pyfloat) :=
  match Rewrite.fs_stat config item with
  | Ok st =>
      Some (JObj [("path", JArr (List.map JStr (Rewrite.fs_parts config item)));
                  ("type", JStr (if Rewrite.fs_is_dir config item then "dir" else "file"));
                  ("modified", JFloat (fst st));
                  ("size", JInt (snd st))])
  | Raise _ => None
  end.

Definition stat_failure {rt : Runtime} (config : Rewrite.env) (item : string)
  : option event :=
  match Rewrite.fs_stat config item with
  | Ok _ => None
  | Raise e => Some (EvPrint e)
  end.

(** A disk with one directory, [/videos], that holds a film, a link whose
    target is gone and a hidden file; no other directory exists. *)
Definition disk : @Rewrite.env Sample.runtime := {|
  Rewrite.commands := {[ "pause" := "cycle pause"; "seek" := "seek {}" ]};
  Rewrite.mpv_conf := Ok "volume=50";
  Rewrite.login_file := None;
  Rewrite.folder_conf := fun _ => None;
  Rewrite.static_listdir := Ok ["index.html"];
  Rewrite.static_read := fun _ => Ok "<html></html>";
  Rewrite.index_read := Ok "<html></html>";
  Rewrite.popen_ok := fun _ => true;
  Rewrite.fs_iterdir := fun path =>
    if path =? "/videos"
    then Ok ["/videos/a.mkv"; "/videos/gone"; "/videos/.hidden"]
    else Raise (Exn FileNotFoundError
                  ("[Errno 2] No such file or directory: '" +:+ path +:+ "'"));
  Rewrite.fs_stat := fun item =>
    if item =? "/videos/a.mkv" then Ok (1700000000%Z : @pyfloat Sample.runtime, 734003200%Z)
    else if item =? "/videos/.hidden" then Ok (1600000000%Z : @pyfloat Sample.runtime, 12%Z)
    else Raise (Exn FileNotFoundError
                  ("[Errno 2] No such file or directory: '" +:+ item +:+ "'"));
  Rewrite.fs_is_dir := fun _ => false;
  Rewrite.fs_parts := fun path =>
    if path =? "/videos" then ["/"; "videos"]
    else if path =? "/videos/a.mkv" then ["/"; "videos"; "a.mkv"]
    else if path =? "/videos/.hidden" then ["/"; "videos"; ".hidden"]
    else ["/"; "videos"; "gone"]
|}.

(** An installation of [server.py]: two commands, a page template that
    wraps its content, and one directory that can be listed. *)
Definition site (login : option string) : Pages.site := {|
  Pages.commands := {[ "pause" := "cycle pause"; "stop" := "quit" ]};
  Pages.login := Pages.login_of login;
  Pages.base_substitute := fun c => Ok ("<html>" +:+ c +:+ "</html>");
  Pages.controls := "<html><button>pause</button></html>";
  Pages.homedir := "/home/user";
  Pages.iterdir := fun p =>
    if p =? "/videos" then Ok Sample.listing
    else Raise (Exn FileNotFoundError
                  ("[Errno 2] No such file or directory: '" +:+ p +:+ "'"))
|}.

End Fixture.

(** ** Facts about strings *)

Section StringFacts.

Lemma str_app_cons c s t : (String c s +:+ t) = String c (s +:+ t).
Proof. reflexivity. Qed.

Lemma str_app_nil_l t : (EmptyString +:+ t) = t.
Proof. reflexivity. Qed.

Lemma str_app_nil_r s : (s +:+ EmptyString) = s.
Proof. induction s as [|c s IH]; [reflexivity|]. rewrite str_app_cons, IH. reflexivity. Qed.

Lemma str_app_assoc s t u : ((s +:+ t) +:+ u) = (s +:+ (t +:+ u)).
Proof.
  induction s as [|c s IH]; [reflexivity|].
  rewrite !str_app_cons, IH. reflexivity.
Qed.

Lemma str_app_eq_nil s t : (s +:+ t) = EmptyString -> s = EmptyString /\ t = EmptyString.
Proof. destruct s; [rewrite str_app_nil_l; auto | rewrite str_app_cons; discriminate]. Qed.

Lemma str_app_eq_cons s t c u :
  (s +:+ t) = String c u ->
  (s = EmptyString /\ t = String c u)
  \/ exists s', s = String c s' /\ u = (s' +:+ t).
Proof.
  destruct s as [|a s].
  - rewrite str_app_nil_l. auto.
  - rewrite str_app_cons. intros [= -> <-]. right. eauto.
Qed.

End StringFacts.

(** ** The matcher decides the language *)

Module ReFacts.
Import Re.

Lemma nullable_matches r : nullable r = true <-> matches r EmptyString.
Proof.
  split.
  - induction r; simpl; intros H; try discriminate.
    + constructor.
    + apply andb_true_iff in H as [Ha Hb].
      change EmptyString with (EmptyString +:+ EmptyString). constructor; auto.
    + apply orb_true_iff in H as [H|H]; [apply MAltL | apply MAltR]; auto.
    + apply MOptNone.
    + apply MPlusOne. auto.
  - intros H. remember EmptyString as e eqn:He.
    induction H; simpl; try discriminate; try reflexivity.
    + apply str_app_eq_nil in He as [-> ->]. rewrite IHmatches1, IHmatches2; auto.
    + rewrite IHmatches; auto.
    + rewrite IHmatches; auto. apply orb_true_r.
    + auto.
    + apply str_app_eq_nil in He as [-> ->]. auto.
Qed.

Lemma deriv_sound c r s : matches (deriv c r) s -> matches r (String c s).
Proof.
  revert s. induction r; simpl; intros s H.
  - inversion H.
  - inversion H.
  - destruct (Ascii.eqb_spec a c) as [->|]; inversion H; subst. constructor.
  - destruct (b c) eqn:Hb; inversion H; subst. constructor. exact Hb.
  - assert (Hcat : forall u, matches (Cat (deriv c r1) r2) u -> matches (Cat r1 r2) (String c u)).
    { intros u Hu. inversion Hu; subst. rewrite <- str_app_cons. constructor; auto. }
    destruct (nullable r1) eqn:Hn; [|auto].
    inversion H; subst; [auto|].
    change (String c s) with (EmptyString +:+ String c s).
    constructor; [apply nullable_matches; exact Hn | auto].
  - inversion H; subst; [apply MAltL | apply MAltR]; auto.
  - apply MOptSome. auto.
  - inversion H as [| | |? ? s1 t H1 H2| | | | | |]; subst.
    inversion H2; subst.
    + rewrite str_app_nil_r. apply MPlusOne. auto.
    + rewrite <- str_app_cons. apply MPlusMore; auto.
Qed.

Lemma deriv_complete c r s : matches r (String c s) -> matches (deriv c r) s.
Proof.
  intros H. remember (String c s) as cs eqn:E. revert c s E.
  induction H; intros c0 s0 E; simpl.
  - discriminate.
  - injection E as -> <-. rewrite Ascii.eqb_refl. constructor.
  - injection E as -> <-. rewrite H. constructor.
  - apply str_app_eq_cons in E as [[-> ->]|(s' & -> & ->)].
    + apply nullable_matches in H. rewrite H. apply MAltR. auto.
    + assert (matches (Cat (deriv c0 a) b) (s' +:+ t)) by (constructor; auto).
      destruct (nullable a); [apply MAltL|]; auto.
  - apply MAltL. auto.
  - apply MAltR. auto.
  - discriminate.
  - auto.
  - rewrite <- (str_app_nil_r s0). constructor; [auto | apply MOptNone].
  - apply str_app_eq_cons in E as [[-> ->]|(s' & -> & ->)].
    + apply (IHmatches2 c0 s0 eq_refl).
    + constructor; [auto | apply MOptSome; auto].
Qed.

Lemma fullmatch_matches r s : fullmatch r s = true <-> matches r s.
Proof.
  revert r. induction s as [|c s IH]; intros r; simpl.
  - apply nullable_matches.
  - rewrite IH. split; [apply deriv_sound | apply deriv_complete].
Qed.

Lemma matches_Chr c s : matches (Chr c) s <-> s = String c EmptyString.
Proof. split; [inversion 1; reflexivity | intros ->; constructor]. Qed.

Lemma matches_Cat a b s :
  matches (Cat a b) s <-> exists s1 s2, s = (s1 +:+ s2) /\ matches a s1 /\ matches b s2.
Proof.
  split.
  - inversion 1; subst. eauto.
  - intros (s1 & s2 & -> & H1 & H2). constructor; auto.
Qed.

Lemma matches_Alt a b s : matches (Alt a b) s <-> matches a s \/ matches b s.
Proof.
  split.
  - inversion 1; subst; auto.
  - intros [H|H]; [apply MAltL | apply MAltR]; auto.
Qed.

Lemma matches_Opt a s : matches (Opt a) s <-> s = EmptyString \/ matches a s.
Proof.
  split.
  - inversion 1; subst; auto.
  - intros [->|H]; [apply MOptNone | apply MOptSome; auto].
Qed.

Lemma matches_Lit l s : matches (Lit l) s <-> s = l.
Proof.
  revert s. induction l as [|c l IH]; intros s; simpl.
  - split; [inversion 1; reflexivity | intros ->; constructor].
  - rewrite matches_Cat. split.
    + intros (s1 & s2 & -> & H1 & H2). apply matches_Chr in H1 as ->.
      apply IH in H2 as ->. reflexivity.
    + intros ->. exists (String c EmptyString), l.
      split; [reflexivity|]. split; [constructor | apply IH; reflexivity].
Qed.

Lemma matches_Class p s :
  matches (Class p) s <-> exists c, s = String c EmptyString /\ p c = true.
Proof.
  split.
  - inversion 1; subst. eauto.
  - intros (c & -> & Hc). constructor. exact Hc.
Qed.

Lemma matches_Plus_Class p s :
  matches (Plus (Class p)) s <-> s <> EmptyString /\ PyStr.all_chars p s = true.
Proof.
  split.
  - intros H. remember (Plus (Class p)) as r eqn:E.
    induction H; try discriminate; injection E as ->.
    + apply matches_Class in H as (c & -> & Hc). simpl. rewrite Hc.
      split; [discriminate | reflexivity].
    + apply matches_Class in H as (c & -> & Hc).
      destruct (IHmatches2 eq_refl) as [_ Ht].
      rewrite str_app_cons, str_app_nil_l. simpl. rewrite Hc, Ht.
      split; [discriminate | reflexivity].
  - intros [Hne Hall]. induction s as [|c s IH]; [congruence|].
    simpl in Hall. apply andb_true_iff in Hall as [Hc Hs].
    destruct s as [|d s].
    + apply MPlusOne. constructor. exact Hc.
    + change (String c (String d s)) with (String c EmptyString +:+ String d s).
      apply MPlusMore; [constructor; exact Hc | apply IH; [discriminate | exact Hs]].
Qed.

End ReFacts.

(** ** The allow-list of directory overrides *)

Module AllowList.
Import Re ReFacts.

Ltac split_match :=
  repeat match goal with
    | H : matches (Lit _) _ |- _ => apply matches_Lit in H as ->
    | H : matches (Chr _) _ |- _ => apply matches_Chr in H as ->
    | H : matches (Cat _ _) _ |- _ => apply matches_Cat in H as (? & ? & -> & ? & ?)
    | H : matches (Alt _ _) _ |- _ => apply matches_Alt in H as [?|?]
    | H : matches (Opt _) _ |- _ => apply matches_Opt in H as [->|?]
    end.

Lemma allowed_language line : matches Rewrite.allowed line <-> Spec.allowed_option line.
Proof.
  unfold Rewrite.allowed, Spec.allowed_option. split.
  - intros H.
    apply matches_Cat in H as (kq & value & -> & Hkq & Hv).
    apply matches_Cat in Hkq as (key & q & -> & Hk & Hq).
    apply matches_Chr in Hq as ->.
    apply matches_Plus_Class in Hv as [Hne Hall].
    exists key, value. rewrite str_app_assoc.
    split; [reflexivity|]. split; [|auto].
    split_match; vm_compute; tauto.
  - intros (key & value & -> & Hk & Hne & Hall).
    rewrite <- str_app_assoc.
    apply matches_Cat. exists (key +:+ "="), value.
    split; [reflexivity|]. split; [|apply matches_Plus_Class; auto].
    apply matches_Cat. exists key, "=".
    split; [reflexivity|]. split; [|constructor].
    simpl in Hk.
    repeat (destruct Hk as [<-|Hk]; [apply fullmatch_matches; reflexivity|]).
    destruct Hk.
Qed.

Import Observe.

Lemma no_linebreak_snoc s c :
  no_linebreak s = true -> PyStr.is_linebreak c = false ->
  no_linebreak (s +:+ String c EmptyString) = true.
Proof.
  unfold no_linebreak. intros Hs Hc. induction s as [|a s IH]; simpl in *.
  - rewrite Hc. reflexivity.
  - apply andb_true_iff in Hs as [Ha Hs]. rewrite Ha. simpl. auto.
Qed.

Lemma splitlines_from_no_linebreak n : forall s cur,
  String.length s <= n -> no_linebreak cur = true ->
  Forall (fun l => no_linebreak l = true) (PyStr.splitlines_from cur s).
Proof.
  induction n as [|n IH]; intros s cur Hlen Hcur.
  - destruct s; [|simpl in Hlen; lia]. simpl. destruct cur; auto.
  - destruct s as [|a s]; simpl.
    + destruct cur; auto.
    + simpl in Hlen. destruct (PyStr.is_linebreak a) eqn:Ha.
      * constructor; [exact Hcur|].
        destruct s as [|b s]; [constructor|].
        destruct (Ascii.eqb a "013" && Ascii.eqb b "010").
        -- apply IH; [simpl in Hlen; lia | reflexivity].
        -- apply IH; [lia | reflexivity].
      * apply IH; [lia | apply no_linebreak_snoc; auto].
Qed.

Lemma splitlines_no_linebreak text line :
  In line (PyStr.splitlines text) -> no_linebreak line = true.
Proof.
  intros H.
  pose proof (splitlines_from_no_linebreak (String.length text) text EmptyString
                (le_n _) eq_refl) as HF.
  rewrite Forall_forall in HF. apply HF. apply list_elem_of_In. exact H.
Qed.

Lemma no_linebreak_no_final_LF s :
  no_linebreak s = true -> PyStr.endswith_char "010" s = false.
Proof.
  unfold no_linebreak. induction s as [|a s IH]; simpl; [reflexivity|].
  intros H. apply andb_true_iff in H as [Ha Hs].
  destruct s as [|b s]; [|auto].
  destruct (Ascii.eqb_spec a "010") as [->|]; [discriminate Ha | reflexivity].
Qed.

(** On a line of [splitlines] the pattern with its [$] matches exactly
    the allow-listed options. *)
Lemma match_allowed text line :
  In line (PyStr.splitlines text) ->
  match_dollar Rewrite.allowed line = true <-> Spec.allowed_option line.
Proof.
  intros Hin. unfold match_dollar.
  rewrite (no_linebreak_no_final_LF line (splitlines_no_linebreak text line Hin)).
  rewrite andb_false_l, orb_false_r, fullmatch_matches.
  apply allowed_language.
Qed.

Lemma dashes_inj a b : ("--" +:+ a) = ("--" +:+ b) -> a = b.
Proof.
  intros H. change (String "-" (String "-" a) = String "-" (String "-" b)) in H.
  congruence.
Qed.

End AllowList.

(** C5.  When a target's directory has an override file [mpv-remote.conf]
    and the file can be read, [folder_config] returns, and
    a flag belongs to the resolved directory flags exactly when it is [--]
    followed by a line of the file that is an allow-listed option (an id,
    language or delay key, [=], and a value of digits, small letters, dots
    and dashes); a line that is not allow-listed contributes nothing. *)
Theorem folder_config_allow_list
    (rt : Py.Runtime) (config : Rewrite.env) (fpath text : string) :
  Rewrite.folder_conf config fpath = Some (Py.Ok text) ->
  exists flags,
    Rewrite.folder_config config fpath = Py.Ok flags
    /\ (forall flag,
           In flag flags <->
           exists line, In line (PyStr.splitlines text)
                        /\ Spec.allowed_option line
                        /\ flag = ("--" +:+ line))
    /\ (forall line,
           In line (PyStr.splitlines text) -> ~ Spec.allowed_option line ->
           ~ In ("--" +:+ line) flags).
Proof.
  intros Hconf. unfold Rewrite.folder_config. rewrite Hconf.
  eexists. split; [reflexivity|].
  assert (Hflag : forall flag,
      In flag (Rewrite.folder_config_lines (Some text)) <->
      exists line, In line (PyStr.splitlines text)
                   /\ Spec.allowed_option line
                   /\ flag = ("--" +:+ line)).
  { intros flag. unfold Rewrite.folder_config_lines.
    rewrite in_map_iff. split.
    - intros (line & <- & Hin). apply filter_In in Hin as [Hin Hm].
      exists line. split; [exact Hin|]. split; [|reflexivity].
      apply (AllowList.match_allowed text line Hin). exact Hm.
    - intros (line & Hin & Hal & ->). exists line. split; [reflexivity|].
      apply filter_In. split; [exact Hin|].
      apply (AllowList.match_allowed text line Hin). exact Hal. }
  split; [exact Hflag|].
  intros line Hin Hno Hflagin. apply Hflag in Hflagin as (line' & _ & Hal & E).
  apply AllowList.dashes_inj in E as ->. exact (Hno Hal).
Qed.

Lemma folder_config_allow_list_witness :
  exists flags,
    Rewrite.folder_config (Sample.config None true) "/videos/a.mkv" = Py.Ok flags
    /\ (forall flag,
           In flag flags <->
           exists line,
             In line (PyStr.splitlines ("aid=2" +:+ PyStr.LF +:+ "fullscreen=yes"
                                        +:+ PyStr.LF +:+ "sub-delay=-1.5"))
             /\ Spec.allowed_option line
             /\ flag = ("--" +:+ line))
    /\ (forall line,
           In line (PyStr.splitlines ("aid=2" +:+ PyStr.LF +:+ "fullscreen=yes"
                                      +:+ PyStr.LF +:+ "sub-delay=-1.5")) ->
           ~ Spec.allowed_option line ->
           ~ In ("--" +:+ line) flags).
Proof.
  apply (folder_config_allow_list Sample.runtime (Sample.config None true) "/videos/a.mkv").
  reflexivity.
Defined.

(** ** Responses of the handlers *)

Module Handlers.
Import Py World Rewrite Observe.

Lemma never_bind {A} code (m : M A) (k : A -> M (option response)) :
  (forall a, never code (k a)) -> never code (m ≫= k).
Proof.
  intros Hk w. unfold mbind, M_bind, bind.
  destruct (m w) as [[a|e] w']; [apply Hk | discriminate].
Qed.

Lemma never_try code (m : M (option response)) h :
  never code m -> (forall e, never code (h e)) -> never code (try_except m h).
Proof.
  intros Hm Hh w. unfold try_except. specialize (Hm w).
  destruct (m w) as [[a|e] w']; [exact Hm | apply Hh].
Qed.

Lemma never_respond code c hs d : c <> code -> never code (respond c hs d).
Proof. intros Hc w. unfold status_of. simpl. congruence. Qed.

Lemma never_none code : never code (mret None).
Proof. intros w. discriminate. Qed.

Lemma never_if code (b : bool) m1 m2 :
  never code m1 -> never code m2 -> never code (if b then m1 else m2).
Proof. destruct b; auto. Qed.

Create HintDb never.
#[local] Hint Resolve never_try never_none never_if : never.
#[local] Hint Extern 1 (never _ (respond_ok _ _ _)) =>
  apply never_respond; discriminate : never.
#[local] Hint Extern 1 (never _ (respond_notfound _)) =>
  apply never_respond; discriminate : never.
#[local] Hint Extern 2 (never _ (_ ≫= _)) => apply never_bind; intros : never.

Section Service.
Context {rt : Runtime}.
Variable config : env.

Lemma serve_static_never_401 path : never 401 (serve_static config path).
Proof. unfold serve_static. auto 10 with never. Qed.

(** What [do_GET] does once the credential is accepted. *)
Lemma do_GET_never_401 req :
  login config (req_authorization req) = true ->
  never 401 (do_GET config req).
Proof.
  intros Hl. unfold do_GET. rewrite Hl. simpl.
  apply never_try; [|auto with never].
  apply never_if; [apply serve_static_never_401 | auto 10 with never].
Qed.

Lemma do_POST_never_401 req :
  login config (req_authorization req) = true ->
  never 401 (do_POST config req).
Proof.
  intros Hl. unfold do_POST. rewrite Hl. simpl.
  apply never_bind. intros _. auto 20 with never.
Qed.

Lemma do_GET_challenge req w :
  login config (req_authorization req) = false ->
  do_GET config req w = (Ok (Some challenge), w).
Proof. intros Hl. unfold do_GET. rewrite Hl. reflexivity. Qed.

Lemma do_POST_challenge req w :
  login config (req_authorization req) = false ->
  do_POST config req w = (Ok (Some challenge), w).
Proof. intros Hl. unfold do_POST. rewrite Hl. reflexivity. Qed.

Lemma login_with_file bytes auth :
  login_file config = Some bytes ->
  login config auth = true <-> auth = Some (credential bytes).
Proof.
  intros Hf. unfold login. rewrite Hf. destruct auth as [a|].
  - fold (credential bytes). rewrite String.eqb_eq. split; congruence.
  - split; discriminate.
Qed.

Lemma login_without_file auth : login_file config = None -> login config auth = true.
Proof. intros Hf. unfold login. rewrite Hf. reflexivity. Qed.

End Service.

End Handlers.

(** C6.  With a login file, [do_GET] and [do_POST] answer 401 exactly when
    the [Authorization] header is not [Basic ] followed by the base64 of
    the stripped file content, and that answer is the challenge with its
    [WWW-Authenticate] header, sent before anything else is done; without a
    login file no request is answered 401, whatever its header. *)
Theorem authorization_gate
    (rt : Py.Runtime) (config : Rewrite.env) (req : Rewrite.request) (w : World.world) :
  match Rewrite.login_file config with
  | Some bytes =>
      (Observe.status_of (Rewrite.do_GET config req w) = Some 401
       <-> Rewrite.req_authorization req <> Some (Observe.credential bytes))
      /\ (Observe.status_of (Rewrite.do_POST config req w) = Some 401
          <-> Rewrite.req_authorization req <> Some (Observe.credential bytes))
      /\ (Rewrite.req_authorization req <> Some (Observe.credential bytes) ->
          Rewrite.do_GET config req w = (Py.Ok (Some Observe.challenge), w)
          /\ Rewrite.do_POST config req w = (Py.Ok (Some Observe.challenge), w))
  | None =>
      Observe.status_of (Rewrite.do_GET config req w) <> Some 401
      /\ Observe.status_of (Rewrite.do_POST config req w) <> Some 401
  end.
Proof.
  destruct (Rewrite.login_file config) as [bytes|] eqn:Hf.
  - pose proof (Handlers.login_with_file config bytes (Rewrite.req_authorization req) Hf) as Hl.
    destruct (Rewrite.login config (Rewrite.req_authorization req)) eqn:Hlogin.
    + assert (Ha : Rewrite.req_authorization req = Some (Observe.credential bytes))
        by (apply Hl; reflexivity).
      pose proof (Handlers.do_GET_never_401 config req Hlogin w) as HG.
      pose proof (Handlers.do_POST_never_401 config req Hlogin w) as HP.
      repeat split; intros; congruence.
    + assert (Ha : Rewrite.req_authorization req <> Some (Observe.credential bytes)).
      { intros E. apply Hl in E. congruence. }
      rewrite (Handlers.do_GET_challenge config req w Hlogin).
      rewrite (Handlers.do_POST_challenge config req w Hlogin).
      repeat split; auto.
  - pose proof (Handlers.login_without_file config (Rewrite.req_authorization req) Hf) as Hlogin.
    split; [apply Handlers.do_GET_never_401 | apply Handlers.do_POST_never_401]; exact Hlogin.
Qed.

Lemma authorization_gate_witness :
  (Observe.status_of
     (Rewrite.do_GET (Sample.config (Some ("user:pass" +:+ PyStr.LF)) true)
        (Sample.get "/" (Some "Basic dXNlcjpwYXNz")) World.initial) = Some 401
   <-> Some "Basic dXNlcjpwYXNz" <> Some (Observe.credential ("user:pass" +:+ PyStr.LF)))
  /\ (Observe.status_of
        (Rewrite.do_POST (Sample.config (Some ("user:pass" +:+ PyStr.LF)) true)
           (Sample.get "/" (Some "Basic dXNlcjpwYXNz")) World.initial) = Some 401
      <-> Some "Basic dXNlcjpwYXNz" <> Some (Observe.credential ("user:pass" +:+ PyStr.LF)))
  /\ (Some "Basic dXNlcjpwYXNz" <> Some (Observe.credential ("user:pass" +:+ PyStr.LF)) ->
      Rewrite.do_GET (Sample.config (Some ("user:pass" +:+ PyStr.LF)) true)
        (Sample.get "/" (Some "Basic dXNlcjpwYXNz")) World.initial
      = (Py.Ok (Some Observe.challenge), World.initial)
      /\ Rewrite.do_POST (Sample.config (Some ("user:pass" +:+ PyStr.LF)) true)
           (Sample.get "/" (Some "Basic dXNlcjpwYXNz")) World.initial
         = (Py.Ok (Some Observe.challenge), World.initial)).
Proof.
  exact (authorization_gate Sample.runtime
           (Sample.config (Some ("user:pass" +:+ PyStr.LF)) true)
           (Sample.get "/" (Some "Basic dXNlcjpwYXNz")) World.initial).
Defined.

(** With the login file [user:pass] a request without the header, or
    with another credential, is challenged, and one with the right header
    is served. *)
Lemma authorization_examples :
  Observe.status_of
    (Rewrite.do_GET (Sample.config (Some ("user:pass" +:+ PyStr.LF)) true)
       (Sample.get "/" None) World.initial) = Some 401
  /\ Observe.status_of
       (Rewrite.do_GET (Sample.config (Some ("user:pass" +:+ PyStr.LF)) true)
          (Sample.get "/" (Some "Basic dXNlcjpwYXN6")) World.initial) = Some 401
  /\ Observe.status_of
       (Rewrite.do_GET (Sample.config (Some ("user:pass" +:+ PyStr.LF)) true)
          (Sample.get "/" (Some "Basic dXNlcjpwYXNz")) World.initial) = Some 200
  /\ Observe.status_of
       (Rewrite.do_GET (Sample.config None true) (Sample.get "/" None) World.initial)
     = Some 200.
Proof. repeat split. Qed.

(** C7.  [serve_static] takes the text after [/static/], unquotes it and
    looks it up in the listing of the static directory; when it is not a
    name of that listing, both services answer 404 [file not found] and
    leave the world as it was, so that no file is opened. *)
Theorem static_outside_listing
    (rt : Py.Runtime) (config : Rewrite.env) (legacy : Legacy.env)
    (path : string) (listing listing' : list string) (w : World.world) :
  Rewrite.static_listdir config = Py.Ok listing ->
  Legacy.static_listdir legacy = Py.Ok listing' ->
  ~ In (Py.unquote (PyStr.drop 8 path)) listing ->
  ~ In (Py.unquote (PyStr.drop 8 path)) listing' ->
  Rewrite.serve_static config path w
  = (Py.Ok (Some (Rewrite.Response 404
                    [("Content-Type", "text/plain"); ("Content-Length", "14")]
                    "file not found")), w)
  /\ Legacy.serve_static legacy path w
     = (Py.Ok (Legacy.Response 404 [("Content-Type", "text/plain")] "file not found"), w).
Proof.
  intros Hl Hl' Hn Hn'.
  assert (Hex : forall l, ~ In (Py.unquote (PyStr.drop 8 path)) l ->
                          existsb (String.eqb (Py.unquote (PyStr.drop 8 path))) l = false).
  { intros l Hnot. apply not_true_is_false. intros Hex.
    apply existsb_exists in Hex as (x & Hx & Heq).
    apply String.eqb_eq in Heq as <-. exact (Hnot Hx). }
  split.
  - unfold Rewrite.serve_static, mbind, World.M_bind, World.bind, World.lift.
    rewrite Hl, (Hex listing Hn). reflexivity.
  - unfold Legacy.serve_static, mbind, World.M_bind, World.bind, World.lift.
    rewrite Hl', (Hex listing' Hn'). reflexivity.
Qed.

Lemma static_outside_listing_witness :
  Rewrite.serve_static (Sample.config None true) "/static/../secret" Sample.playing
  = (Py.Ok (Some (Rewrite.Response 404
                    [("Content-Type", "text/plain"); ("Content-Length", "14")]
                    "file not found")), Sample.playing)
  /\ Legacy.serve_static (rt:=Sample.runtime) (Sample.legacy_config true) "/static/../secret" Sample.playing
     = (Py.Ok (Legacy.Response 404 [("Content-Type", "text/plain")] "file not found"),
        Sample.playing).
Proof.
  apply (static_outside_listing Sample.runtime (Sample.config None true)
           (Sample.legacy_config true) "/static/../secret"
           ["index.html"; "app.js"; "style.css"] ["style.css"] Sample.playing).
  - reflexivity.
  - reflexivity.
  - simpl. intros [H|[H|[H|[]]]]; discriminate H.
  - simpl. intros [H|[]]; discriminate H.
Defined.

(** ** Static files *)

Module StaticFacts.
Import Py World.

(** No name of a directory listing contains a slash, so a requested name
    with one is outside every listing. *)
Lemma name_with_slash_outside (listing : list string) (name : string) :
  Forall (fun n => PyStr.contains_char "/" n = false) listing ->
  PyStr.contains_char "/" name = true ->
  ~ In name listing.
Proof.
  intros Hall Hname Hin. rewrite Forall_forall in Hall.
  apply list_elem_of_In in Hin. rewrite (Hall name Hin) in Hname. discriminate Hname.
Qed.

Lemma do_GET_static_outside_listing
    {rt : Runtime} (config : Rewrite.env) (req : Rewrite.request)
    (listing : list string) (w : world) :
  Rewrite.login config (Rewrite.req_authorization req) = true ->
  PyStr.startswith "/static/" (Rewrite.req_path req) = true ->
  Rewrite.static_listdir config = Ok listing ->
  ~ In (unquote (PyStr.drop 8 (Rewrite.req_path req))) listing ->
  Rewrite.do_GET config req w
  = (Ok (Some (Rewrite.Response 404
                 [("Content-Type", "text/plain"); ("Content-Length", "14")]
                 "file not found")), w).
Proof.
  intros Hl Hp Hd Hn.
  assert (Hex : existsb (String.eqb (unquote (PyStr.drop 8 (Rewrite.req_path req)))) listing
                = false).
  { apply not_true_is_false. intros Hex.
    apply existsb_exists in Hex as (x & Hx & Heq).
    apply String.eqb_eq in Heq as <-. exact (Hn Hx). }
  unfold Rewrite.do_GET. rewrite Hl, Hp. simpl.
  unfold World.try_except, Rewrite.serve_static, mbind, World.M_bind, World.bind, World.lift.
  rewrite Hd, Hex. reflexivity.
Qed.

Lemma traversal_rejected :
  Rewrite.do_GET (Sample.config None true) (Sample.get "/static/../secret" None)
    Sample.playing
  = (Ok (Some (Rewrite.Response 404
                 [("Content-Type", "text/plain"); ("Content-Length", "14")]
                 "file not found")), Sample.playing)
  /\ Rewrite.do_GET (Sample.config None true) (Sample.get "/static/%2E%2E%2Fsecret" None)
       Sample.playing
     = (Ok (Some (Rewrite.Response 404
                    [("Content-Type", "text/plain"); ("Content-Length", "14")]
                    "file not found")), Sample.playing).
Proof. split; reflexivity. Qed.

End StaticFacts.

(** C10.  A POST to [/play] or [/dir] that passes the credential check and
    whose body is the empty JSON array makes [os.path.join] raise for its
    missing argument; [do_POST] answers 404 with the text of that exception
    and the world, the player session with it, is left as it was: nothing
    is written, killed or started. *)
Theorem empty_segments_rejected
    (rt : Py.Runtime) (config : Rewrite.env) (req : Rewrite.request)
    (n : Z) (w : World.world) :
  Rewrite.login config (Rewrite.req_authorization req) = true ->
  Rewrite.req_content_length req = Py.Ok n ->
  Rewrite.req_json req = Py.Ok (Py.JArr []) ->
  Rewrite.req_path req = "/play" \/ Rewrite.req_path req = "/dir" ->
  Rewrite.do_POST config req w
  = (Py.Ok (Some (Rewrite.Response 404
                    [("Content-Type", "text/plain"); ("Content-Length", "50")]
                    "join() missing 1 required positional argument: 'a'")), w).
Proof.
  intros Hl Hn Hj Hp.
  unfold Rewrite.do_POST, mbind, World.M_bind, World.bind, World.lift, World.try_except.
  rewrite Hl, Hn, Hj. simpl.
  destruct Hp as [-> | ->]; reflexivity.
Qed.

Lemma empty_segments_rejected_witness :
  Rewrite.do_POST (Sample.config None true) (Sample.post "/play" None (Py.JArr []))
    Sample.playing
  = (Py.Ok (Some (Rewrite.Response 404
                    [("Content-Type", "text/plain"); ("Content-Length", "50")]
                    "join() missing 1 required positional argument: 'a'")), Sample.playing).
Proof.
  apply (empty_segments_rejected Sample.runtime (Sample.config None true)
           (Sample.post "/play" None (Py.JArr [])) 2%Z Sample.playing).
  - reflexivity.
  - reflexivity.
  - reflexivity.
  - left. reflexivity.
Defined.

(** ** Steps of the handler monad *)

Module Steps.
Import Py World Observe.

Lemma bind_ok {A B} (m : M A) (k : A -> M B) w a w' :
  m w = (Ok a, w') -> (m ≫= k) w = k a w'.
Proof. intros H. unfold mbind, M_bind, bind. rewrite H. reflexivity. Qed.

Lemma bind_raise {A B} (m : M A) (k : A -> M B) w e w' :
  m w = (Raise e, w') -> (m ≫= k) w = (Raise e, w').
Proof. intros H. unfold mbind, M_bind, bind. rewrite H. reflexivity. Qed.

Lemma try_ok {A} (m : M A) h w a w' :
  m w = (Ok a, w') -> try_except m h w = (Ok a, w').
Proof. intros H. unfold try_except. rewrite H. reflexivity. Qed.

Lemma try_raise {A} (m : M A) h w e w' :
  m w = (Raise e, w') -> try_except m h w = h e w'.
Proof. intros H. unfold try_except. rewrite H. reflexivity. Qed.

Lemma alter_insert {A} (f : A -> A) (l : list A) i x :
  l !! i = Some x -> alter f i l = <[i := f x]> l.
Proof.
  intros H. apply list_eq. intros j. destruct (decide (i = j)) as [<-|Hne].
  - rewrite list_lookup_alter_eq, H. simpl.
    rewrite list_lookup_insert_eq; [reflexivity | eapply lookup_lt_Some; eauto].
  - rewrite list_lookup_alter_ne, list_lookup_insert_ne; auto.
Qed.

Lemma insert_insert {A} (l : list A) i x y : <[i := y]> (<[i := x]> l) = <[i := y]> l.
Proof.
  apply list_eq. intros j. destruct (decide (i = j)) as [<-|Hne].
  - destruct (decide (i < length l)) as [Hlt|Hge].
    + rewrite !list_lookup_insert_eq; rewrite ?length_insert; auto.
    + rewrite !list_insert_ge; rewrite ?length_insert; auto; lia.
  - rewrite !list_lookup_insert_ne; auto.
Qed.

Lemma stdin_write_at w pid p data :
  procs w !! pid = Some p ->
  stdin_write pid data w
  = (Ok tt, World (<[pid := Proc (argv p) (alive p) (pending p ++ [data]) (received p)]> (procs w))
                  (mpv_process w) (trace w ++ [EvWrite pid data])).
Proof.
  intros H. unfold stdin_write, mbind, M_bind, bind, get_proc, emit, update_proc.
  rewrite H. simpl. rewrite (alter_insert _ _ _ _ H). reflexivity.
Qed.

Lemma stdin_flush_alive w pid p :
  procs w !! pid = Some p -> alive p = true ->
  stdin_flush pid w
  = (Ok tt, World (<[pid := Proc (argv p) true [] (received p ++ pending p)]> (procs w))
                  (mpv_process w) (trace w)).
Proof.
  intros H Ha. unfold stdin_flush, mbind, M_bind, bind, get_proc, update_proc.
  rewrite H, Ha. rewrite (alter_insert _ _ _ _ H), Ha. reflexivity.
Qed.

Lemma stdin_flush_dead w pid p :
  procs w !! pid = Some p -> alive p = false ->
  stdin_flush pid w = (Raise (Exn BrokenPipeError "[Errno 32] Broken pipe"), w).
Proof.
  intros H Ha. unfold stdin_flush, mbind, M_bind, bind, get_proc, raise.
  rewrite H, Ha. reflexivity.
Qed.

Lemma kill_at w pid p :
  procs w !! pid = Some p ->
  kill pid w
  = (Ok tt, World (<[pid := Proc (argv p) false (pending p) (received p)]> (procs w))
                  (mpv_process w) (trace w ++ [EvKill pid])).
Proof.
  intros H. unfold kill, mbind, M_bind, bind, get_proc, emit, update_proc.
  rewrite H. simpl. rewrite (alter_insert _ _ _ _ H). reflexivity.
Qed.

Lemma lookup_insert_here {A} (l : list A) i x y :
  l !! i = Some x -> <[i := y]> l !! i = Some y.
Proof. intros H. apply list_lookup_insert_eq. eapply lookup_lt_Some; eauto. Qed.

Lemma all_dead_filter l : all_dead l -> List.filter alive l = [].
Proof.
  induction l as [|x l IH]; intros H; [reflexivity|]. simpl.
  rewrite (H 0 x eq_refl). apply IH. intros j y Hj. apply (H (S j) y Hj).
Qed.

Lemma all_dead_after_quit w pid q :
  session_ok w -> mpv_process w = Some pid -> alive q = false ->
  all_dead (<[pid := q]> (procs w)).
Proof.
  intros [Hone _] Hh Hq j x Hj.
  destruct (decide (pid = j)) as [<-|Hne].
  - destruct (decide (pid < length (procs w))) as [Hlt|Hge].
    + rewrite list_lookup_insert_eq in Hj by exact Hlt. congruence.
    + rewrite list_insert_ge in Hj by lia.
      apply lookup_lt_Some in Hj. lia.
  - rewrite list_lookup_insert_ne in Hj by exact Hne.
    destruct (alive x) eqn:Hx; [|reflexivity].
    specialize (Hone j x Hj Hx). congruence.
Qed.

Lemma live_count_started l h t cmd :
  all_dead l -> live_count (World (l ++ [Proc cmd true [] []]) h t) = 1.
Proof.
  intros H. unfold live_count. simpl.
  rewrite List.filter_app, (all_dead_filter l H). reflexivity.
Qed.

Lemma session_ok_started l t cmd :
  all_dead l -> session_ok (World (l ++ [Proc cmd true [] []]) (Some (length l)) t).
Proof.
  intros H. split; simpl.
  - intros j x Hj Hx. destruct (decide (j < length l)) as [Hlt|Hge].
    + rewrite lookup_app_l in Hj by exact Hlt. rewrite (H j x Hj) in Hx. discriminate.
    + apply lookup_lt_Some in Hj as Hlen. rewrite length_app in Hlen. simpl in Hlen.
      f_equal. lia.
  - intros j [= <-]. rewrite length_app. simpl. lia.
Qed.

End Steps.

(** ** Starting and replacing the player *)

Module PlayFacts.
Import Py World Observe Steps.

Section Rewrite.
Context {rt : Runtime}.
Variable config : Rewrite.env.

Lemma quit_previous_session w pid p :
  mpv_process w = Some pid -> procs w !! pid = Some p ->
  Rewrite.quit_previous w
  = (Ok tt, World (<[pid := fst (quit_rewrite pid p)]> (procs w)) (Some pid)
                  (trace w ++ EvWrite pid quit_line :: snd (quit_rewrite pid p))).
Proof.
  intros Hh Hp. unfold Rewrite.quit_previous, quit_rewrite.
  pose proof (stdin_write_at w pid p quit_line Hp) as Hw.
  set (w1 := World _ _ _) in Hw.
  assert (Hp1 : procs w1 !! pid
                = Some (Proc (argv p) (alive p) (pending p ++ [quit_line]) (received p)))
    by (apply (lookup_insert_here _ _ p); exact Hp).
  destruct (alive p) eqn:Ha.
  - pose proof (stdin_flush_alive w1 pid _ Hp1 eq_refl) as Hf.
    set (w2 := World _ _ _) in Hf.
    assert (Hp2 : procs w2 !! pid
                  = Some (Proc (argv p) true [] (received p ++ (pending p ++ [quit_line]))))
      by (apply (lookup_insert_here _ _ _ _ Hp1)).
    pose proof (kill_at w2 pid _ Hp2) as Hk.
    erewrite try_ok; [reflexivity|].
    erewrite bind_ok by reflexivity. unfold get_mpv_process. rewrite Hh.
    erewrite bind_ok by reflexivity.
    erewrite bind_ok by exact Hw.
    erewrite bind_ok by exact Hf.
    rewrite Hk. subst w2 w1. simpl.
    rewrite !insert_insert, <- app_assoc, Hh. reflexivity.
  - pose proof (stdin_flush_dead w1 pid _ Hp1 eq_refl) as Hf.
    erewrite try_raise.
    2:{ erewrite bind_ok by reflexivity. unfold get_mpv_process. rewrite Hh.
        erewrite bind_ok by reflexivity.
        erewrite bind_ok by exact Hw.
        erewrite bind_raise by exact Hf. reflexivity. }
    subst w1. unfold print, emit. simpl. rewrite <- app_assoc, Hh. reflexivity.
Qed.

Lemma quit_rewrite_dead pid p : alive (fst (quit_rewrite pid p)) = false.
Proof. unfold quit_rewrite. destruct (alive p); reflexivity. Qed.

Lemma quit_previous_no_session w :
  mpv_process w = None ->
  Rewrite.quit_previous w
  = (Ok tt, World (procs w) None
                  (trace w ++ [EvPrint (Exn AttributeError
                                          "'MpvServer' object has no attribute 'mpv_process'")])).
Proof.
  intros Hh. unfold Rewrite.quit_previous.
  erewrite try_raise.
  2:{ erewrite bind_ok by reflexivity. unfold get_mpv_process. rewrite Hh.
      erewrite bind_raise by reflexivity. reflexivity. }
  unfold print, emit. simpl. rewrite Hh. reflexivity.
Qed.

(** The try block never raises and never changes the number of
    processes or the handle. *)
Lemma quit_previous_total w :
  exists w1, Rewrite.quit_previous w = (Ok tt, w1)
             /\ length (procs w1) = length (procs w)
             /\ mpv_process w1 = mpv_process w.
Proof.
  unfold Rewrite.quit_previous, try_except, mbind, M_bind, bind.
  unfold get_mpv_process, stdin_of, stdin_write, stdin_flush, kill, get_proc,
    emit, update_proc, print, mbind, M_bind, bind, mret, M_ret, ret, raise.
  destruct (mpv_process w) as [pid|] eqn:Hh; simpl.
  - destruct (procs w !! pid) as [p|] eqn:Hp; simpl.
    + rewrite list_lookup_alter_eq, Hp. simpl.
      destruct (alive p); simpl.
      * rewrite list_lookup_alter_eq, list_lookup_alter_eq, Hp. simpl.
        eexists. split; [reflexivity|]. simpl. rewrite !length_alter. auto.
      * eexists. split; [reflexivity|]. simpl. rewrite !length_alter. auto.
    + eexists. split; [reflexivity|]. simpl. auto.
  - eexists. split; [reflexivity|]. simpl. auto.
Qed.

(** A run of [play_file] that returns has started the player with the
    command line built from [mpv.conf] and the override file. *)
Lemma play_file_returns fpath w w' :
  Rewrite.play_file config fpath w = (Ok tt, w') ->
  exists text flags w1,
    Rewrite.mpv_conf config = Ok text
    /\ Rewrite.folder_config config fpath = Ok flags
    /\ Rewrite.quit_previous w = (Ok tt, w1)
    /\ let cmd := Rewrite.command_line (Rewrite.mpv_config_lines text) flags fpath in
       Rewrite.popen_ok config cmd = true
       /\ w' = World (procs w1 ++ [Proc cmd true [] []]) (Some (length (procs w1)))
                     (trace w1 ++ [EvSpawn (length (procs w1)) cmd]).
Proof.
  intros H. destruct (quit_previous_total w) as (w1 & Hq & _ & _).
  unfold Rewrite.play_file in H. erewrite bind_ok in H by exact Hq.
  unfold Rewrite.mpv_config in H.
  destruct (Rewrite.mpv_conf config) as [text|e] eqn:Hc.
  - destruct (Rewrite.folder_config config fpath) as [flags|e] eqn:Hf.
    + exists text, flags, w1. split; [reflexivity|]. split; [reflexivity|].
      split; [exact Hq|]. simpl.
      unfold mbind, M_bind, bind, lift, mret, M_ret, ret, Popen, set_mpv_process in H.
      simpl in H.
      destruct (Rewrite.popen_ok config
                  (Rewrite.command_line (Rewrite.mpv_config_lines text) flags fpath)).
      * split; [reflexivity|]. simpl in H. congruence.
      * discriminate H.
    + unfold mbind, M_bind, bind, lift, mret, M_ret, ret in H. simpl in H. discriminate H.
  - unfold mbind, M_bind, bind, lift in H. simpl in H. discriminate H.
Qed.

Lemma play_file_starts fpath w w1 text flags :
  Rewrite.quit_previous w = (Ok tt, w1) ->
  Rewrite.mpv_conf config = Ok text ->
  Rewrite.folder_config config fpath = Ok flags ->
  let cmd := Rewrite.command_line (Rewrite.mpv_config_lines text) flags fpath in
  Rewrite.popen_ok config cmd = true ->
  Rewrite.play_file config fpath w
  = (Ok tt, World (procs w1 ++ [Proc cmd true [] []]) (Some (length (procs w1)))
                  (trace w1 ++ [EvSpawn (length (procs w1)) cmd])).
Proof.
  intros Hq Hc Hf cmd Hs. unfold Rewrite.play_file.
  erewrite bind_ok by exact Hq.
  unfold Rewrite.mpv_config, mbind, M_bind, bind, lift, mret, M_ret, ret, Popen,
    set_mpv_process.
  rewrite Hc, Hf. simpl. fold cmd. rewrite Hs. reflexivity.
Qed.

Lemma play_file_no_start fpath w w1 text flags :
  Rewrite.quit_previous w = (Ok tt, w1) ->
  Rewrite.mpv_conf config = Ok text ->
  Rewrite.folder_config config fpath = Ok flags ->
  let cmd := Rewrite.command_line (Rewrite.mpv_config_lines text) flags fpath in
  Rewrite.popen_ok config cmd = false ->
  Rewrite.play_file config fpath w
  = (Raise (Exn FileNotFoundError "[Errno 2] No such file or directory: 'mpv'"), w1).
Proof.
  intros Hq Hc Hf cmd Hs. unfold Rewrite.play_file.
  erewrite bind_ok by exact Hq.
  unfold Rewrite.mpv_config, mbind, M_bind, bind, lift, mret, M_ret, ret, Popen,
    set_mpv_process.
  rewrite Hc, Hf. simpl. fold cmd. rewrite Hs. reflexivity.
Qed.

(** A configuration file that cannot be read stops [play_file] after the
    try block: the exception leaves [play_file] and no player is
    started. *)
Lemma play_file_no_global fpath w w1 e :
  Rewrite.quit_previous w = (Ok tt, w1) ->
  Rewrite.mpv_conf config = Raise e ->
  Rewrite.play_file config fpath w = (Raise e, w1).
Proof.
  intros Hq Hc. unfold Rewrite.play_file.
  erewrite bind_ok by exact Hq.
  unfold Rewrite.mpv_config, mbind, M_bind, bind, lift.
  rewrite Hc. reflexivity.
Qed.

Lemma play_file_no_folder fpath w w1 text e :
  Rewrite.quit_previous w = (Ok tt, w1) ->
  Rewrite.mpv_conf config = Ok text ->
  Rewrite.folder_config config fpath = Raise e ->
  Rewrite.play_file config fpath w = (Raise e, w1).
Proof.
  intros Hq Hc Hf. unfold Rewrite.play_file.
  erewrite bind_ok by exact Hq.
  unfold Rewrite.mpv_config, mbind, M_bind, bind, lift, mret, M_ret, ret.
  rewrite Hc, Hf. reflexivity.
Qed.

End Rewrite.

End PlayFacts.

(** ** The session invariant *)

Module Invariant.
Import Py World Observe Steps.

Lemma session_ok_initial : session_ok initial.
Proof.
  split.
  - intros pid p H. discriminate H.
  - intros pid H. discriminate H.
Qed.

(** Without a session no process is alive. *)
Lemma all_dead_no_session w :
  session_ok w -> mpv_process w = None -> all_dead (procs w).
Proof.
  intros [Hone _] Hh j x Hj. destruct (alive x) eqn:Hx; [|reflexivity].
  specialize (Hone j x Hj Hx). congruence.
Qed.

Lemma session_ok_all_dead l h t :
  all_dead l -> (forall pid, h = Some pid -> pid < length l) -> session_ok (World l h t).
Proof.
  intros Hd Hh. split; simpl; [|exact Hh].
  intros pid p Hp Ha. rewrite (Hd pid p Hp) in Ha. discriminate Ha.
Qed.

(** Changing what a process has pending or received keeps the invariant. *)
Lemma session_ok_alter w pid f t :
  (forall p, alive (f p) = alive p) ->
  session_ok w -> session_ok (World (alter f pid (procs w)) (mpv_process w) t).
Proof.
  intros Hf [Hone Hlt]. split; simpl.
  - intros j x Hj Hx. destruct (decide (pid = j)) as [<-|Hne].
    + rewrite list_lookup_alter_eq in Hj.
      destruct (procs w !! pid) as [p|] eqn:Hp; [|discriminate Hj].
      injection Hj as <-. rewrite Hf in Hx. exact (Hone pid p Hp Hx).
    + rewrite list_lookup_alter_ne in Hj by exact Hne. exact (Hone j x Hj Hx).
  - intros j Hj. rewrite length_alter. exact (Hlt j Hj).
Qed.

(** A player that exits leaves the invariant in place. *)
Lemma session_ok_proc_exits w pid : session_ok w -> session_ok (proc_exits pid w).
Proof.
  intros [Hone Hlt]. unfold proc_exits. split; simpl.
  - intros j x Hj Hx. destruct (decide (pid = j)) as [<-|Hne].
    + rewrite list_lookup_alter_eq in Hj.
      destruct (procs w !! pid) as [p|]; [|discriminate Hj].
      injection Hj as <-. discriminate Hx.
    + rewrite list_lookup_alter_ne in Hj by exact Hne. exact (Hone j x Hj Hx).
  - intros j Hj. rewrite length_alter. exact (Hlt j Hj).
Qed.

Lemma keeps_bind {A B} (m : M A) (k : A -> M B) :
  keeps m -> (forall a, keeps (k a)) -> keeps (m ≫= k).
Proof.
  intros Hm Hk w Hok. specialize (Hm w Hok).
  unfold mbind, M_bind, bind. destruct (m w) as [[a|e] w1]; [apply Hk|]; exact Hm.
Qed.

Lemma keeps_try {A} (m : M A) h : keeps m -> (forall e, keeps (h e)) -> keeps (try_except m h).
Proof.
  intros Hm Hh w Hok. specialize (Hm w Hok).
  unfold try_except. destruct (m w) as [[a|e] w1]; [|apply Hh]; exact Hm.
Qed.

(** A computation that leaves the world alone. *)
Lemma keeps_quiet {A} (m : M A) : (forall w, snd (m w) = w) -> keeps m.
Proof. intros H w Hok. rewrite H. exact Hok. Qed.

Lemma keeps_emit ev : keeps (emit ev).
Proof. intros w [Hone Hlt]. split; assumption. Qed.

Lemma keeps_print e : keeps (print e).
Proof. apply keeps_emit. Qed.

Lemma keeps_update pid f : (forall p, alive (f p) = alive p) -> keeps (update_proc pid f).
Proof. intros Hf w Hok. apply session_ok_alter; assumption. Qed.

Lemma keeps_get_proc pid : keeps (get_proc pid).
Proof. apply keeps_quiet. intros w. unfold get_proc. destruct (procs w !! pid); reflexivity. Qed.

Lemma keeps_write pid data : keeps (stdin_write pid data).
Proof.
  unfold stdin_write. apply keeps_bind; [apply keeps_get_proc|]. intros _.
  apply keeps_bind; [apply keeps_emit|]. intros _.
  apply keeps_update. reflexivity.
Qed.

Lemma keeps_flush pid : keeps (stdin_flush pid).
Proof.
  unfold stdin_flush. apply keeps_bind; [apply keeps_get_proc|]. intros p.
  destruct (alive p); [apply keeps_update; reflexivity | apply keeps_quiet; reflexivity].
Qed.

Lemma one_index_live_count (l : list proc) k :
  (forall j x, l !! j = Some x -> alive x = true -> j = k) ->
  length (List.filter alive l) <= 1.
Proof.
  revert k. induction l as [|x l IH]; intros k H; simpl; [lia|].
  destruct (alive x) eqn:Hx.
  - assert (Hd : all_dead l).
    { intros j y Hj. destruct (alive y) eqn:Hy; [|reflexivity].
      pose proof (H 0 x eq_refl Hx). pose proof (H (S j) y Hj Hy). lia. }
    rewrite (all_dead_filter l Hd). simpl. lia.
  - apply (IH (pred k)). intros j y Hj Hy. pose proof (H (S j) y Hj Hy). lia.
Qed.

(** Under the invariant there is never more than one live player. *)
Lemma session_ok_live_count w : session_ok w -> live_count w <= 1.
Proof.
  intros [Hone _]. unfold live_count. destruct (mpv_process w) as [pid|] eqn:Hh.
  - apply (one_index_live_count _ pid). intros j x Hj Hx.
    specialize (Hone j x Hj Hx). congruence.
  - apply (one_index_live_count _ 0). intros j x Hj Hx.
    specialize (Hone j x Hj Hx). congruence.
Qed.

Section Legacy.
Variable legacy : Legacy.env.

Lemma legacy_quit_previous_session w pid p :
  mpv_process w = Some pid -> procs w !! pid = Some p ->
  Legacy.quit_previous w
  = (Ok tt, World (<[pid := quit_legacy p]> (procs w)) (Some pid)
                  (trace w ++ [EvWrite pid quit_line; EvKill pid])).
Proof.
  intros Hh Hp. unfold Legacy.quit_previous, quit_legacy.
  pose proof (stdin_write_at w pid p quit_line Hp) as Hw.
  set (w1 := World _ _ _) in Hw.
  assert (Hp1 : procs w1 !! pid
                = Some (Proc (argv p) (alive p) (pending p ++ [quit_line]) (received p)))
    by (apply (lookup_insert_here _ _ p); exact Hp).
  pose proof (kill_at w1 pid _ Hp1) as Hk.
  erewrite try_ok; [reflexivity|].
  erewrite bind_ok by reflexivity. unfold get_mpv_process. rewrite Hh.
  erewrite bind_ok by reflexivity.
  erewrite bind_ok by exact Hw.
  rewrite Hk. subst w1. simpl.
  rewrite insert_insert, <- app_assoc, Hh. reflexivity.
Qed.

(** [server.py] replaces the player in the same way, except that the quit
    line stays in the pipe's buffer: the prior process is killed without
    having received it. *)
Lemma legacy_play_file_replaces_player fpath w pid p :
  session_ok w -> mpv_process w = Some pid -> procs w !! pid = Some p ->
  Legacy.popen_ok legacy (Legacy.command_line legacy fpath) = true ->
  exists w',
    Legacy.play_file legacy fpath w = (Ok tt, w')
    /\ live_count w' = 1
    /\ mpv_process w' = Some (length (procs w))
    /\ session_ok w'
    /\ procs w' !! pid = Some (quit_legacy p)
    /\ trace w' = trace w ++ [EvWrite pid quit_line; EvKill pid;
                              EvSpawn (length (procs w)) (Legacy.command_line legacy fpath)].
Proof.
  intros Hok Hh Hp Hs.
  pose proof (legacy_quit_previous_session w pid p Hh Hp) as Hq.
  assert (Hdead : all_dead (<[pid := quit_legacy p]> (procs w)))
    by (apply all_dead_after_quit; auto).
  assert (Hlt : pid < length (procs w)) by (eapply lookup_lt_Some; eauto).
  eexists. split.
  { unfold Legacy.play_file. erewrite bind_ok by exact Hq.
    unfold mbind, M_bind, bind, Popen, set_mpv_process. simpl.
    rewrite Hs. reflexivity. }
  simpl. rewrite length_insert.
  split; [apply live_count_started; exact Hdead|].
  split; [reflexivity|].
  split.
  { rewrite <- (length_insert (procs w) pid (quit_legacy p)).
    apply session_ok_started. exact Hdead. }
  split.
  - rewrite lookup_app_l by (rewrite length_insert; exact Hlt).
    apply list_lookup_insert_eq. exact Hlt.
  - rewrite <- app_assoc. reflexivity.
Qed.

End Legacy.

Section Rewrite.
Context {rt : Runtime}.
Variable config : Rewrite.env.

(** After the try block of [play_file] no process is alive. *)
Lemma quit_previous_all_dead w :
  session_ok w ->
  exists w1, Rewrite.quit_previous w = (Ok tt, w1)
             /\ all_dead (procs w1) /\ mpv_process w1 = mpv_process w
             /\ length (procs w1) = length (procs w).
Proof.
  intros Hok. destruct (mpv_process w) as [pid|] eqn:Hh.
  - destruct Hok as [Hone Hlt]. pose proof (Hlt pid Hh) as Hpid.
    destruct (lookup_lt_is_Some_2 (procs w) pid Hpid) as [p Hp].
    eexists. split; [apply (PlayFacts.quit_previous_session w pid p Hh Hp)|]. simpl.
    split; [|split; [reflexivity | apply length_insert]].
    apply all_dead_after_quit; [split; assumption | exact Hh | apply PlayFacts.quit_rewrite_dead].
  - eexists. split; [apply (PlayFacts.quit_previous_no_session w Hh)|]. simpl.
    split; [apply all_dead_no_session; assumption | auto].
Qed.

(** [play_file] keeps the invariant, whether it returns or raises. *)
Lemma session_ok_play_file fpath w :
  session_ok w -> session_ok (snd (Rewrite.play_file config fpath w)).
Proof.
  intros Hok. pose proof Hok as [_ Hlt].
  destruct (quit_previous_all_dead w Hok) as (w1 & Hq & Hd & Hh & Hlen).
  assert (Hok1 : session_ok w1).
  { destruct w1 as [l h t]. simpl in *. apply session_ok_all_dead; [exact Hd|].
    intros pid Hpid. rewrite Hlen. apply Hlt. congruence. }
  destruct (Rewrite.mpv_conf config) as [text|e] eqn:Hc.
  - destruct (Rewrite.folder_config config fpath) as [flags|e] eqn:Hf.
    + destruct (Rewrite.popen_ok config
                  (Rewrite.command_line (Rewrite.mpv_config_lines text) flags fpath)) eqn:Hs.
      * rewrite (PlayFacts.play_file_starts config fpath w w1 text flags Hq Hc Hf Hs).
        simpl. apply session_ok_started. exact Hd.
      * rewrite (PlayFacts.play_file_no_start config fpath w w1 text flags Hq Hc Hf Hs).
        exact Hok1.
    + rewrite (PlayFacts.play_file_no_folder config fpath w w1 text e Hq Hc Hf). exact Hok1.
  - rewrite (PlayFacts.play_file_no_global config fpath w w1 e Hq Hc). exact Hok1.
Qed.

(** [control_mpv] keeps the invariant: it only writes to the player. *)
Lemma session_ok_control_mpv command val :
  keeps (Rewrite.control_mpv config command val).
Proof.
  unfold Rewrite.control_mpv. apply keeps_bind.
  - unfold Rewrite.sanitize.
    destruct (Rewrite.is_numeric_command command); [|apply keeps_quiet; reflexivity].
    destruct (Rewrite.float_of val) as [f|e]; [apply keeps_quiet; reflexivity|].
    destruct (is_ValueError e); apply keeps_quiet; reflexivity.
  - intros cv. apply keeps_try; [|intros e; apply keeps_print].
    apply keeps_bind; [apply keeps_quiet; reflexivity|]. intros h.
    apply keeps_bind; [destruct h; apply keeps_quiet; reflexivity|]. intros pid.
    apply keeps_bind; [apply keeps_quiet; reflexivity|]. intros template.
    apply keeps_bind; [apply keeps_quiet; reflexivity|]. intros text.
    apply keeps_bind; [apply keeps_write|]. intros _. apply keeps_flush.
Qed.

Lemma keeps_play_file fpath : keeps (Rewrite.play_file config fpath).
Proof. intros w. apply session_ok_play_file. Qed.

Lemma keeps_respond code hs data : keeps (Rewrite.respond code hs data).
Proof. apply keeps_quiet. reflexivity. Qed.

Lemma keeps_lift {A} (o : outcome A) : keeps (lift o).
Proof. apply keeps_quiet. reflexivity. Qed.

Lemma keeps_ret {A} (a : A) : keeps (mret a).
Proof. apply keeps_quiet. reflexivity. Qed.

Lemma keeps_item_info item : keeps (Rewrite._item_info config item).
Proof.
  unfold Rewrite._item_info. apply keeps_try.
  - apply keeps_bind; [apply keeps_lift | intros st; apply keeps_ret].
  - intros e. apply keeps_bind; [apply keeps_print | intros _; apply keeps_ret].
Qed.

Lemma keeps_item_infos items : keeps (Rewrite.item_infos config items).
Proof.
  induction items as [|item rest IH]; simpl; [apply keeps_ret|].
  apply keeps_bind; [apply keeps_item_info|]. intros i.
  apply keeps_bind; [exact IH|]. intros r. apply keeps_ret.
Qed.

Lemma keeps_drive_infos drives : keeps (Rewrite.drive_infos config drives).
Proof.
  induction drives as [|d rest IH]; simpl; [apply keeps_ret|].
  apply keeps_bind; [apply keeps_item_info|]. intros i.
  apply keeps_bind; [exact IH|]. intros r. apply keeps_ret.
Qed.

Lemma keeps_FolderContent path : keeps (Rewrite.FolderContent_as_json config path).
Proof.
  unfold Rewrite.FolderContent_as_json. apply keeps_bind; [|intros c; apply keeps_ret].
  destruct (path =? "WINROOT")%string.
  - apply keeps_drive_infos.
  - apply keeps_bind; [apply keeps_lift | intros items; apply keeps_item_infos].
Qed.

Lemma keeps_serve_static path : keeps (Rewrite.serve_static config path).
Proof.
  unfold Rewrite.serve_static. apply keeps_bind; [apply keeps_lift|]. intros listing.
  destruct (negb _); [apply keeps_respond|].
  apply keeps_try.
  - apply keeps_bind; [apply keeps_emit|]. intros _.
    apply keeps_bind; [apply keeps_lift|]. intros data. apply keeps_respond.
  - intros e. apply keeps_bind; [apply keeps_print | intros _; apply keeps_respond].
Qed.

Lemma keeps_do_GET req : keeps (Rewrite.do_GET config req).
Proof.
  unfold Rewrite.do_GET. destruct (negb _); [apply keeps_respond|].
  apply keeps_try; [|intros e; apply keeps_respond].
  destruct (PyStr.startswith _ _); [apply keeps_serve_static|].
  destruct (_ =? _)%string; [|apply keeps_respond].
  apply keeps_bind; [apply keeps_lift | intros data; apply keeps_respond].
Qed.

Lemma keeps_do_POST req : keeps (Rewrite.do_POST config req).
Proof.
  unfold Rewrite.do_POST. destruct (negb _); [apply keeps_respond|].
  apply keeps_bind; [apply keeps_lift|]. intros _.
  apply keeps_try; [|intros e; apply keeps_respond].
  destruct (_ =? "/dir")%string.
  { apply keeps_bind; [apply keeps_lift|]. intros v.
    apply keeps_bind; [apply keeps_lift|]. intros args.
    apply keeps_bind; [apply keeps_lift|]. intros dir_path.
    apply keeps_bind; [apply keeps_FolderContent | intros c; apply keeps_respond]. }
  destruct (_ =? "/play")%string.
  { apply keeps_bind; [apply keeps_lift|]. intros v.
    apply keeps_bind; [apply keeps_lift|]. intros args.
    apply keeps_bind; [apply keeps_lift|]. intros file_path.
    apply keeps_bind; [apply keeps_play_file | intros _; apply keeps_respond]. }
  destruct (_ =? "/control")%string; [|apply keeps_ret].
  apply keeps_bind; [apply keeps_lift|]. intros command.
  apply keeps_bind; [apply keeps_lift|]. intros c.
  apply keeps_bind; [apply keeps_lift|]. intros val.
  apply keeps_bind; [apply session_ok_control_mpv | intros _; apply keeps_respond].
Qed.

(** In every world the service reaches when its requests are served in
    turn, at most the process the handle points to is alive. *)
Lemma served_in_turn_session_ok w : served_in_turn config w -> session_ok w.
Proof.
  induction 1.
  - apply session_ok_initial.
  - apply keeps_do_GET. assumption.
  - apply keeps_do_POST. assumption.
  - apply session_ok_proc_exits. assumption.
Qed.

End Rewrite.

End Invariant.




(** C9 (as amended).  When [play_file] returns, the process it has started
    was given the executable, the three fixed flags [--input-terminal=no],
    [--input-file=/dev/stdin] and [--fs], then the global flags of
    [mpv.conf], then the allow-listed flags of the target's directory, then
    [--] and the target, in that order. *)
Theorem play_file_command_line
    (rt : Py.Runtime) (config : Rewrite.env) (fpath : string) (w w' : World.world) :
  Rewrite.play_file config fpath w = (Py.Ok tt, w') ->
  exists text flags,
    Rewrite.mpv_conf config = Py.Ok text
    /\ Rewrite.folder_config config fpath = Py.Ok flags
    /\ World.mpv_process w' = Some (length (World.procs w))
    /\ World.procs w' !! length (World.procs w)
       = Some (World.Proc
                 (["mpv"; "--input-terminal=no"; "--input-file=/dev/stdin"; "--fs"]
                    ++ Rewrite.mpv_config_lines text
                    ++ flags
                    ++ ["--"; fpath])
                 true [] [])
    /\ last (World.trace w')
       = Some (World.EvSpawn (length (World.procs w))
                 (["mpv"; "--input-terminal=no"; "--input-file=/dev/stdin"; "--fs"]
                    ++ Rewrite.mpv_config_lines text
                    ++ flags
                    ++ ["--"; fpath])).
Proof.
  intros H.
  apply PlayFacts.play_file_returns in H as (text & flags & w1 & Hc & Hf & Hq & _ & ->).
  destruct (PlayFacts.quit_previous_total w) as (w1' & Hq' & Hlen & _).
  rewrite Hq in Hq'. injection Hq' as <-.
  exists text, flags. split; [exact Hc|]. split; [exact Hf|]. simpl. rewrite Hlen.
  split; [reflexivity|]. split.
  - rewrite lookup_app_r by lia. rewrite <- Hlen, Nat.sub_diag. reflexivity.
  - rewrite last_snoc. reflexivity.
Qed.

Lemma play_file_command_line_witness :
  exists text flags,
    Rewrite.mpv_conf (Sample.config None true) = Py.Ok text
    /\ Rewrite.folder_config (Sample.config None true) "/videos/a.mkv" = Py.Ok flags
    /\ World.mpv_process
         (snd (Rewrite.play_file (Sample.config None true) "/videos/a.mkv" World.initial))
       = Some 0.
Proof.
  destruct (play_file_command_line Sample.runtime (Sample.config None true)
              "/videos/a.mkv" World.initial
              (snd (Rewrite.play_file (Sample.config None true) "/videos/a.mkv" World.initial))
              eq_refl)
    as (text & flags & Hc & Hf & Hh & _).
  exists text, flags. split; [exact Hc|]. split; [exact Hf | exact Hh].
Defined.

(** C9 fails as stated: the arguments after the executable are not just
    the global flags, the directory flags, [--] and the target. *)
Lemma play_file_fixed_flags :
  World.procs (snd (Rewrite.play_file (Sample.config None true) "/videos/a.mkv" World.initial))
    !! 0
  = Some (World.Proc
            ["mpv"; "--input-terminal=no"; "--input-file=/dev/stdin"; "--fs";
             "--fullscreen"; "--volume=50"; "--aid=2"; "--sub-delay=-1.5";
             "--"; "/videos/a.mkv"] true [] [])
  /\ Rewrite.folder_config (Sample.config None true) "/videos/a.mkv"
     = Py.Ok ["--aid=2"; "--sub-delay=-1.5"]
  /\ ["mpv"; "--input-terminal=no"; "--input-file=/dev/stdin"; "--fs";
      "--fullscreen"; "--volume=50"; "--aid=2"; "--sub-delay=-1.5";
      "--"; "/videos/a.mkv"]
     <> Rewrite.mpv_executable
          :: (Rewrite.mpv_config_lines
                ("fullscreen" +:+ PyStr.LF +:+ "#comment" +:+ PyStr.LF +:+ "volume=50")
              ++ ["--aid=2"; "--sub-delay=-1.5"]
              ++ ["--"; "/videos/a.mkv"]).
Proof.
  split; [reflexivity|]. split; [reflexivity|].
  intros H. vm_compute in H. discriminate H.
Qed.

(** ** Control commands *)

Module ControlFacts.
Import Py World Observe Steps.


Section Service.
Context {rt : Runtime}.
Variable config : Rewrite.env.




Lemma sanitize_null command w :
  Rewrite.is_numeric_command command = true ->
  Rewrite.sanitize command JNull w
  = (Raise (Exn TypeError "float() argument must be a string or a number, not 'NoneType'"), w).
Proof. intros H. unfold Rewrite.sanitize. rewrite H. reflexivity. Qed.

(** A value that is a string and no number: the template is filled
    with [None] and the line is written and flushed to a running
    player. *)
Lemma control_mpv_not_a_number c s template text w pid p :
  Rewrite.is_numeric_command (JStr c) = true ->
  float_of_str s = None ->
  Rewrite.commands config !! c = Some template ->
  str_format template None = Ok text ->
  mpv_process w = Some pid -> procs w !! pid = Some p -> alive p = true ->
  Rewrite.control_mpv config (JStr c) (JStr s) w
  = (Ok tt, World (<[pid := Proc (argv p) true []
                             (received p ++ pending p ++ [PyStr.encode (text +:+ PyStr.LF)])]> (procs w))
                  (Some pid) (trace w ++ [EvWrite pid (PyStr.encode (text +:+ PyStr.LF))])).
Proof.
  intros Hn Hf Hc Ht Hh Hp Ha.
  unfold Rewrite.control_mpv.
  assert (Hs : Rewrite.sanitize (JStr c) (JStr s) w = (Ok (JStr c, None), w)).
  { unfold Rewrite.sanitize. rewrite Hn. simpl. rewrite Hf. reflexivity. }
  erewrite bind_ok by exact Hs.
  pose proof (stdin_write_at w pid p (PyStr.encode (text +:+ PyStr.LF)) Hp) as Hw.
  set (w1 := World _ _ _) in Hw.
  assert (Hp1 : procs w1 !! pid
                = Some (Proc (argv p) (alive p) (pending p ++ [PyStr.encode (text +:+ PyStr.LF)]) (received p)))
    by (apply (lookup_insert_here _ _ p); exact Hp).
  pose proof (stdin_flush_alive w1 pid _ Hp1 Ha) as Hfl.
  erewrite try_ok; [reflexivity|].
  erewrite bind_ok by reflexivity. unfold get_mpv_process. rewrite Hh.
  erewrite bind_ok by reflexivity.
  erewrite bind_ok by (unfold lift; simpl; rewrite Hc; reflexivity).
  erewrite bind_ok by (unfold lift; simpl; rewrite Ht; reflexivity).
  erewrite bind_ok by exact Hw.
  rewrite Hfl. subst w1. simpl. rewrite insert_insert, Hh. reflexivity.
Qed.

(** A player that has exited: the line is written to its pipe, the
    flush fails and the failure is printed. *)
Lemma control_mpv_exited command val v template text w pid p :
  Rewrite.sanitize command val w = (Ok (command, v), w) ->
  Rewrite.commands_item config command = Ok template ->
  str_format template v = Ok text ->
  mpv_process w = Some pid -> procs w !! pid = Some p -> alive p = false ->
  Rewrite.control_mpv config command val w
  = (Ok tt, World (<[pid := Proc (argv p) false (pending p ++ [PyStr.encode (text +:+ PyStr.LF)])
                             (received p)]> (procs w))
                  (Some pid)
                  (trace w ++ [EvWrite pid (PyStr.encode (text +:+ PyStr.LF)); EvPrint broken_pipe])).
Proof.
  intros Hs Hc Ht Hh Hp Ha.
  unfold Rewrite.control_mpv. erewrite bind_ok by exact Hs.
  pose proof (stdin_write_at w pid p (PyStr.encode (text +:+ PyStr.LF)) Hp) as Hw.
  set (w1 := World _ _ _) in Hw.
  assert (Hp1 : procs w1 !! pid
                = Some (Proc (argv p) (alive p) (pending p ++ [PyStr.encode (text +:+ PyStr.LF)]) (received p)))
    by (apply (lookup_insert_here _ _ p); exact Hp).
  pose proof (stdin_flush_dead w1 pid _ Hp1 Ha) as Hfl.
  erewrite try_raise; cycle 1.
  { erewrite bind_ok by reflexivity. unfold get_mpv_process. rewrite Hh.
    erewrite bind_ok by reflexivity.
    erewrite bind_ok by (unfold lift; simpl; rewrite Hc; reflexivity).
    erewrite bind_ok by (unfold lift; simpl; rewrite Ht; reflexivity).
    erewrite bind_ok by exact Hw.
    exact Hfl. }
  subst w1. unfold print, emit. simpl. rewrite <- app_assoc, Hh, Ha. reflexivity.
Qed.

End Service.

End ControlFacts.




(** C4.  A control request for a command that takes a number and whose
    body has no [val] (or a null one) is rejected: [float(None)] raises a
    [TypeError], which [sanitize] does not handle, and [do_POST] answers 404
    with its text and writes nothing to the player. *)
Theorem control_without_value
    (rt : Py.Runtime) (config : Rewrite.env) (req : Rewrite.request)
    (n : Z) (kv : list (string * Py.json Py.pyfloat)) (w : World.world) :
  Rewrite.login config (Rewrite.req_authorization req) = true ->
  Rewrite.req_content_length req = Py.Ok n ->
  Rewrite.req_path req = "/control" ->
  Rewrite.req_json req = Py.Ok (Py.JObj kv) ->
  Rewrite.is_numeric_command (Rewrite.obj_get "command" kv) = true ->
  Rewrite.obj_get "val" kv = Py.JNull ->
  Rewrite.do_POST config req w
  = (Py.Ok (Some (Rewrite.Response 404
                    [("Content-Type", "text/plain"); ("Content-Length", "61")]
                    "float() argument must be a string or a number, not 'NoneType'")), w).
Proof.
  intros Hl Hn Hp Hj Hc Hv.
  unfold Rewrite.do_POST. rewrite Hl, Hp. simpl.
  erewrite Steps.bind_ok by (unfold World.lift; rewrite Hn; reflexivity).
  erewrite Steps.try_raise; cycle 1.
  { erewrite Steps.bind_ok by (unfold World.lift; rewrite Hj; reflexivity).
    erewrite Steps.bind_ok by reflexivity.
    erewrite Steps.bind_ok by reflexivity.
    erewrite Steps.bind_raise; [reflexivity|].
    unfold Rewrite.control_mpv. rewrite Hv.
    erewrite Steps.bind_raise by (apply ControlFacts.sanitize_null; exact Hc).
    reflexivity. }
  reflexivity.
Qed.

Lemma control_without_value_witness :
  Rewrite.do_POST (Sample.config None true)
    (Sample.post "/control" None (Py.JObj [("command", Py.JStr "seek")])) Sample.playing
  = (Py.Ok (Some (Rewrite.Response 404
                    [("Content-Type", "text/plain"); ("Content-Length", "61")]
                    "float() argument must be a string or a number, not 'NoneType'")),
     Sample.playing).
Proof.
  apply (control_without_value Sample.runtime (Sample.config None true)
           (Sample.post "/control" None (Py.JObj [("command", Py.JStr "seek")]))
           2%Z [("command", Py.JStr "seek")] Sample.playing);
    reflexivity.
Defined.

(** A command without a number is sent as the [commands] file spells it. *)
Lemma control_pause :
  Rewrite.load_commands (PyStr.splitlines ("pause=cycle pause" +:+ PyStr.LF)) ∅
  = Py.Ok {[ "pause" := "cycle pause" ]}
  /\ snd (Rewrite.do_POST (Sample.config None true)
            (Sample.post "/control" None (Py.JObj [("command", Py.JStr "pause")]))
            Sample.playing)
     = World.World
         [World.Proc ["mpv"; "--"; "/videos/a.mkv"] true [] ["cycle pause" +:+ PyStr.LF]]
         (Some 0) [World.EvWrite 0 ("cycle pause" +:+ PyStr.LF)].
Proof. split; reflexivity. Qed.

(** A value that is text and no number takes the other way: the command
    is sent with [None] in the place of the number. *)
Lemma control_with_text_value :
  Rewrite.do_POST (Sample.config None true)
    (Sample.post "/control" None
       (Py.JObj [("command", Py.JStr "seek"); ("val", Py.JStr "soon")]))
    Sample.playing
  = (Py.Ok (Some (Rewrite.Response 200
                    [("Cache-Control", "public, max-age=0");
                     ("Content-Type", "text/html; charset=utf-8");
                     ("Content-Length", "0")] EmptyString)),
     World.World
       [World.Proc ["mpv"; "--"; "/videos/a.mkv"] true [] ["seek None" +:+ PyStr.LF]]
       (Some 0) [World.EvWrite 0 ("seek None" +:+ PyStr.LF)]).
Proof. reflexivity. Qed.

(** ** The order of the listing *)

Module SortFacts.
Import Legacy Observe.

Section Insertion.
Context {A : Type}.
Variable lt : A -> A -> bool.
Hypothesis lt_total : forall a b, lt a b = true \/ lt b a = true.
Hypothesis lt_trans : forall a b c, lt a b = true -> lt b c = true -> lt a c = true.

Abbreviation ordered := (Observe.ordered lt).

Lemma Forall_insert_sorted (P : A -> Prop) pivot prefix :
  P pivot -> Forall P prefix -> Forall P (insert_sorted lt pivot prefix).
Proof.
  intros Hp Hl. induction Hl as [|e rest He Hrest IH]; simpl.
  - constructor; [exact Hp | constructor].
  - destruct (lt pivot e).
    + constructor; [exact Hp|]. constructor; assumption.
    + constructor; assumption.
Qed.

Lemma insert_sorted_ordered pivot prefix :
  ordered prefix -> ordered (insert_sorted lt pivot prefix).
Proof.
  intros H. induction H as [|e rest Hrest IH He]; simpl.
  - constructor; constructor.
  - destruct (lt pivot e) eqn:Hpe.
    + constructor; [constructor; assumption|].
      constructor; [exact Hpe|].
      eapply Forall_impl; [exact He|]. intros x Hx. simpl in Hx. eauto.
    + constructor; [exact IH|].
      apply Forall_insert_sorted; [|exact He].
      destruct (lt_total e pivot) as [Hep|Hep]; [exact Hep | congruence].
Qed.

Lemma fold_insert_ordered l prefix :
  ordered prefix ->
  ordered (fold_left (fun prefix pivot => insert_sorted lt pivot prefix) l prefix).
Proof.
  revert prefix. induction l as [|x l IH]; intros prefix H; simpl; [exact H|].
  apply IH. apply insert_sorted_ordered. exact H.
Qed.

Lemma sorted_ordered l : ordered (sorted lt l).
Proof. apply fold_insert_ordered. constructor. Qed.

Lemma insert_sorted_perm pivot prefix :
  Permutation (insert_sorted lt pivot prefix) (pivot :: prefix).
Proof.
  induction prefix as [|e rest IH]; simpl; [reflexivity|].
  destruct (lt pivot e); [reflexivity|].
  rewrite IH. apply perm_swap.
Qed.

Lemma fold_insert_perm l prefix :
  Permutation (fold_left (fun prefix pivot => insert_sorted lt pivot prefix) l prefix)
    (prefix ++ l).
Proof.
  revert prefix. induction l as [|x l IH]; intros prefix; simpl.
  - rewrite app_nil_r. reflexivity.
  - rewrite IH, insert_sorted_perm. apply Permutation_middle.
Qed.

(** [sorted] loses and invents nothing. *)
Lemma sorted_perm l : Permutation (sorted lt l) l.
Proof. apply (fold_insert_perm l []). Qed.

End Insertion.

Lemma StronglySorted_lookup {A} (R : A -> A -> Prop) l i j a b :
  StronglySorted R l -> i < j -> l !! i = Some a -> l !! j = Some b -> R a b.
Proof.
  intros H. revert i j. induction H as [|x l Hl IH Hx]; intros i j Hij Hi Hj.
  - discriminate Hi.
  - destruct j as [|j]; [lia|]. simpl in Hj. destruct i as [|i].
    + injection Hi as ->. rewrite Forall_forall in Hx. apply Hx.
      apply list_elem_of_lookup. eauto.
    + simpl in Hi. apply (IH i j); [lia | assumption | assumption].
Qed.

Lemma StronglySorted_omap {A B} (R : A -> A -> Prop) (R' : B -> B -> Prop)
    (f : A -> option B) l :
  (forall x y x' y', R x y -> f x = Some x' -> f y = Some y' -> R' x' y') ->
  StronglySorted R l -> StronglySorted R' (omap f l).
Proof.
  intros Hf H. induction H as [|x l Hl IH Hx]; simpl; [constructor|].
  destruct (f x) as [x'|] eqn:Hfx; [|exact IH].
  constructor; [exact IH|].
  apply Forall_forall. intros y' Hy'. apply list_elem_of_omap in Hy' as (y & Hy & Hfy).
  rewrite Forall_forall in Hx. exact (Hf x y x' y' (Hx y Hy) Hfx Hfy).
Qed.

Lemma ltb_leb_swap s t : negb (String.ltb t s) = String.leb s t.
Proof.
  unfold String.ltb, String.leb. rewrite (String.compare_antisym t s).
  destruct (String.compare s t); reflexivity.
Qed.

Lemma key_lt_sort_compare a b : key_lt sort_compare a b = precedes a b.
Proof.
  unfold key_lt, sort_compare, precedes.
  destruct (is_dir a), (is_dir b); try reflexivity.
  - rewrite Z.leb_antisym. destruct (st_mtime a <? st_mtime b)%Z; reflexivity.
  - rewrite <- ltb_leb_swap.
    destruct (String.ltb (PyStr.lower (str b)) (PyStr.lower (str a))); reflexivity.
Qed.

Lemma leb_trans s t u : String.leb s t = true -> String.leb t u = true -> String.leb s u = true.
Proof.
  intros H1 H2. apply Is_true_true.
  apply (PreOrder_Transitive (R := String.le) s t u); apply Is_true_true; assumption.
Qed.

Lemma precedes_total a b : precedes a b = true \/ precedes b a = true.
Proof.
  unfold precedes. destruct (is_dir a), (is_dir b); auto.
  - destruct (Z.leb_spec (st_mtime b) (st_mtime a)); [auto|].
    right. apply Z.leb_le. lia.
  - apply String.leb_total.
Qed.

Lemma precedes_trans a b c :
  precedes a b = true -> precedes b c = true -> precedes a c = true.
Proof.
  unfold precedes. destruct (is_dir a), (is_dir b), (is_dir c); try congruence.
  - rewrite !Z.leb_le. lia.
  - apply leb_trans.
Qed.

Lemma link_of_target x l : link_of x = Some l -> target l = x.
Proof.
  unfold link_of. intros H.
  repeat match type of H with
         | (if ?c then _ else _) = _ => destruct c
         end; try discriminate; injection H as <-; reflexivity.
Qed.

Lemma content_links_ordered valid :
  StronglySorted (fun a b => precedes (target a) (target b) = true) (content_links valid).
Proof.
  unfold content_links.
  apply (StronglySorted_omap (fun a b => key_lt sort_compare a b = true)).
  - intros x y x' y' Hxy Hx Hy.
    rewrite (link_of_target x x' Hx), (link_of_target y y' Hy), <- key_lt_sort_compare.
    exact Hxy.
  - apply sorted_ordered.
    + intros a b. rewrite !key_lt_sort_compare. apply precedes_total.
    + intros a b c. rewrite !key_lt_sort_compare. apply precedes_trans.
Qed.

End SortFacts.

(** ** The rendered listing *)

Module RenderFacts.
Import Py World Legacy.

(** The first loop keeps entries of the directory, in their order, and
    never raises. *)
Lemma valid_items_total items w :
  exists valid w',
    valid_items items w = (Ok valid, w') /\ Forall (fun x => In x items) valid.
Proof.
  revert w. induction items as [|i rest IH]; intros w; simpl.
  - exists [], w. split; [reflexivity | constructor].
  - unfold mbind, M_bind, bind, try_except, lift, print, emit, mret, M_ret, ret.
    destruct (exists_ i) as [b|e]; simpl.
    + destruct (IH w) as (valid & w' & Hv & Hall). rewrite Hv.
      eexists _, w'. split; [reflexivity|].
      assert (Hall' : Forall (fun x => i = x \/ In x rest) valid)
        by (eapply Forall_impl; [exact Hall | intros x Hx; right; exact Hx]).
      destruct b; [constructor; [left; reflexivity | exact Hall'] | exact Hall'].
    + destruct (IH (World (procs w) (mpv_process w) (trace w ++ [EvPrint e])))
        as (valid & w' & Hv & Hall).
      rewrite Hv. eexists _, w'. split; [reflexivity|].
      eapply Forall_impl; [exact Hall | intros x Hx; right; exact Hx].
Qed.

(** The text of [generate_content_links] is the play-all link followed
    by the links of [content_links], in their order. *)
Lemma generate_content_links_text {rt : Runtime} glob items w :
  exists valid w',
    valid_items items w = (Ok valid, w')
    /\ generate_content_links glob items w
       = (Ok (String.concat EmptyString
                (play_all glob :: List.map render (content_links valid))), w').
Proof.
  destruct (valid_items_total items w) as (valid & w' & Hv & _).
  exists valid, w'. split; [exact Hv|].
  unfold generate_content_links, mbind, M_bind, bind. rewrite Hv. reflexivity.
Qed.

(** A link is a directory link exactly for a directory and a play link
    exactly for a regular file. *)
Lemma link_of_function x l :
  link_of x = Some l ->
  target l = x
  /\ (function l = "dir" <-> is_dir x = true)
  /\ (function l = "play" <-> is_file x = true).
Proof.
  unfold link_of, is_dir, is_file. intros H.
  destruct (PyStr.startswith "." (name x)); [discriminate H|].
  destruct (points_to x).
  - injection H as <-. simpl. repeat split; auto; discriminate.
  - destruct (existsb _ vid_ext); injection H as <-; simpl; repeat split; auto; discriminate.
  - discriminate H.
Qed.

End RenderFacts.

(** C2.  In the list of links [generate_content_links] renders, of two
    links the earlier one is never a file when the later one is a
    directory; of two directories the earlier one was not modified before
    the later one; and of two files the earlier one's path is not greater
    than the later one's when both are put in lower case. *)
Theorem listing_order
    (valid : list Legacy.entry) (i j : nat) (a b : Legacy.link) :
  i < j ->
  Legacy.content_links valid !! i = Some a ->
  Legacy.content_links valid !! j = Some b ->
  (Legacy.is_dir (Legacy.target b) = true -> Legacy.is_dir (Legacy.target a) = true)
  /\ (Legacy.is_dir (Legacy.target a) = true -> Legacy.is_dir (Legacy.target b) = true ->
      (Legacy.st_mtime (Legacy.target b) <= Legacy.st_mtime (Legacy.target a))%Z)
  /\ (Legacy.is_file (Legacy.target a) = true -> Legacy.is_file (Legacy.target b) = true ->
      String.leb (PyStr.lower (Legacy.str (Legacy.target a)))
                 (PyStr.lower (Legacy.str (Legacy.target b))) = true).
Proof.
  intros Hij Hi Hj.
  pose proof (SortFacts.StronglySorted_lookup _ _ i j a b
                (SortFacts.content_links_ordered valid) Hij Hi Hj) as H.
  simpl in H. unfold Observe.precedes in H.
  unfold Legacy.is_dir, Legacy.is_file in *.
  destruct (Legacy.points_to (Legacy.target a)), (Legacy.points_to (Legacy.target b));
    repeat split; intros; try congruence; try (apply Z.leb_le; exact H).
Qed.

Lemma listing_order_witness :
  (Legacy.is_dir (Legacy.Entry "/videos/A.txt" "A.txt" ".txt" (Py.Ok true) Legacy.RegularFile 9)
   = true ->
   Legacy.is_dir (Legacy.Entry "/videos/old" "old" EmptyString (Py.Ok true) Legacy.Directory 10)
   = true)
  /\ (Legacy.content_links Sample.listing
      = [Legacy.Link (Legacy.Entry "/videos/new" "new" EmptyString (Py.Ok true)
                        Legacy.Directory 20) "dir" "folder" "fa fa-folder";
         Legacy.Link (Legacy.Entry "/videos/old" "old" EmptyString (Py.Ok true)
                        Legacy.Directory 10) "dir" "folder" "fa fa-folder";
         Legacy.Link (Legacy.Entry "/videos/A.txt" "A.txt" ".txt" (Py.Ok true)
                        Legacy.RegularFile 9) "play" "file" EmptyString;
         Legacy.Link (Legacy.Entry "/videos/b.mkv" "b.mkv" ".mkv" (Py.Ok true)
                        Legacy.RegularFile 7) "play" "video" "fa fa-file-video-o"]).
Proof.
  split.
  - apply (listing_order Sample.listing 1 2
             (Legacy.Link (Legacy.Entry "/videos/old" "old" EmptyString (Py.Ok true)
                             Legacy.Directory 10) "dir" "folder" "fa fa-folder")
             (Legacy.Link (Legacy.Entry "/videos/A.txt" "A.txt" ".txt" (Py.Ok true)
                             Legacy.RegularFile 9) "play" "file" EmptyString)).
    + lia.
    + reflexivity.
    + reflexivity.
  - reflexivity.
Defined.

(** ** The global flags *)

(** ** Where the parser of [mpv.conf] and the rule agree *)

Module ConfFacts.
Import PyStr Observe.

Section Strip.
Variable sp : ascii -> bool.

Lemma lstrip_empty_rstrip s : lstrip_by sp s = EmptyString -> rstrip_by sp s = EmptyString.
Proof.
  induction s as [|a s IH]; simpl; [reflexivity|].
  destruct (sp a) eqn:Ha; [|discriminate].
  intros H. rewrite (IH H). reflexivity.
Qed.

Lemma rstrip_fixed_lstrip s :
  rstrip_by sp s = s -> rstrip_by sp (lstrip_by sp s) = lstrip_by sp s.
Proof.
  induction s as [|a s IH]; simpl; [reflexivity|].
  destruct (sp a) eqn:Ha.
  - destruct (rstrip_by sp s) eqn:Hr; [discriminate|].
    intros [= Hs]. apply IH. congruence.
  - intros H. simpl. rewrite Ha. exact H.
Qed.

Lemma lstrip_app p r :
  lstrip_by sp p <> EmptyString -> lstrip_by sp (p +:+ r) = (lstrip_by sp p +:+ r).
Proof.
  induction p as [|a p IH]; simpl; [congruence|].
  destruct (sp a); [exact IH | reflexivity].
Qed.

Lemma rstrip_app a r :
  rstrip_by sp r <> EmptyString -> rstrip_by sp (a +:+ r) = (a +:+ rstrip_by sp r).
Proof.
  intros Hr. induction a as [|c a IH]; [reflexivity|].
  rewrite !str_app_cons. simpl. rewrite IH.
  destruct (a +:+ rstrip_by sp r) eqn:E; [|reflexivity].
  apply str_app_eq_nil in E as [_ E]. congruence.
Qed.

Lemma rstrip_head c s :
  sp c = false -> exists s', rstrip_by sp (String c s) = String c s'.
Proof.
  intros Hc. simpl. destruct (rstrip_by sp s); [rewrite Hc|]; eauto.
Qed.

Lemma lstrip_suffix s : exists p, s = (p +:+ lstrip_by sp s).
Proof.
  induction s as [|a s [p IH]]; simpl; [exists EmptyString; reflexivity|].
  destruct (sp a); [|exists EmptyString; reflexivity].
  exists (String a p). rewrite str_app_cons, <- IH. reflexivity.
Qed.

Lemma rstrip_prefix s : exists q, s = (rstrip_by sp s +:+ q).
Proof.
  induction s as [|a s [q IH]]; simpl; [exists EmptyString; reflexivity|].
  destruct (rstrip_by sp s) eqn:Hr.
  - destruct (sp a); [exists (String a s); reflexivity|].
    exists s. reflexivity.
  - exists q. rewrite str_app_cons, <- IH. reflexivity.
Qed.

End Strip.

Lemma contains_app c s t :
  contains_char c (s +:+ t) = contains_char c s || contains_char c t.
Proof.
  induction s as [|a s IH]; [reflexivity|].
  rewrite str_app_cons. simpl. rewrite IH, orb_assoc. reflexivity.
Qed.

Lemma strip_no_hash o :
  contains_char "#" o = false -> contains_char "#" (strip o) = false.
Proof.
  intros H. unfold strip.
  destruct (lstrip_suffix is_space o) as [p Hp].
  destruct (rstrip_prefix is_space (lstrip_by is_space o)) as [q Hq].
  rewrite Hp, Hq, !contains_app in H.
  apply orb_false_iff in H as [_ H]. apply orb_false_iff in H as [H _]. exact H.
Qed.

Lemma before_first_all c s : contains_char c s = false -> before_first c s = s.
Proof.
  induction s as [|a s IH]; simpl; [reflexivity|].
  intros H. apply orb_false_iff in H as [Ha Hs]. rewrite Ha, (IH Hs). reflexivity.
Qed.

Lemma before_first_split c s :
  contains_char c s = true -> exists q, s = (before_first c s +:+ String c q).
Proof.
  induction s as [|a s IH]; simpl; [discriminate|].
  destruct (Ascii.eqb_spec a c) as [->|Hne]; simpl.
  - intros _. exists s. reflexivity.
  - intros H. destruct (IH H) as [q Hq]. exists q.
    rewrite str_app_cons, <- Hq. reflexivity.
Qed.

Lemma before_first_clean c s : contains_char c (before_first c s) = false.
Proof.
  induction s as [|a s IH]; simpl; [reflexivity|].
  destruct (Ascii.eqb a c) eqn:E; simpl; [reflexivity|]. rewrite E. exact IH.
Qed.

Lemma before_first_app c p q :
  contains_char c p = false -> before_first c (p +:+ String c q) = p.
Proof.
  induction p as [|a p IH]; simpl.
  - intros _. rewrite Ascii.eqb_refl. reflexivity.
  - intros H. apply orb_false_iff in H as [Ha Hp].
    rewrite Ha, (IH Hp). reflexivity.
Qed.

Lemma startswith_contains c s :
  startswith (String c EmptyString) s = true -> contains_char c s = true.
Proof.
  destruct s as [|a s]; simpl; [discriminate|].
  rewrite andb_true_r, Ascii.eqb_sym. intros ->. reflexivity.
Qed.

Lemma startswith_head c a s :
  startswith (String c EmptyString) (String a s) = Ascii.eqb c a.
Proof. simpl. apply andb_true_r. Qed.

Lemma hash_not_space : is_space "#" = false.
Proof. reflexivity. Qed.

Lemma mpv_config_lines_parsed text :
  Rewrite.mpv_config_lines text = omap parsed (splitlines text).
Proof.
  unfold Rewrite.mpv_config_lines.
  set (g := fun o : string => negb (o =? EmptyString) && negb (startswith "#" (strip o))).
  set (f := fun o : string => ("--" +:+ before_first "#" (strip o))%string).
  induction (splitlines text) as [|o l IH]; [reflexivity|].
  change (List.filter g (o :: l)) with (if g o then o :: List.filter g l else List.filter g l).
  change (omap parsed (o :: l))
    with (match parsed o with Some y => y :: omap parsed l | None => omap parsed l end).
  unfold parsed at 1. fold (g o). fold (f o).
  destruct (g o); [change (f o :: List.map f (List.filter g l) = f o :: omap parsed l)|];
    rewrite IH; reflexivity.
Qed.

Lemma eqb_empty_false s : s <> EmptyString -> (s =? EmptyString) = false.
Proof. intros H. apply String.eqb_neq. exact H. Qed.

(** On a tidy line the parser and the rule agree. *)
Lemma parsed_tidy o : tidy o = true -> parsed o = Spec.global_flag o.
Proof.
  unfold tidy, blank_only, blank_before_hash, parsed, Spec.global_flag.
  intros H. apply andb_true_iff in H as [Hblank Hhash].
  apply negb_true_iff in Hblank, Hhash.
  destruct (contains_char "#" o) eqn:Hc.
  - (* the line has a comment *)
    simpl in Hhash. apply negb_false_iff, String.eqb_eq in Hhash.
    destruct (before_first_split "#" o Hc) as [q Hq].
    pose proof (before_first_clean "#" o) as Hclean.
    set (p := before_first "#" o) in *.
    destruct (String.eqb_spec p EmptyString) as [Hp|Hp].
    + (* nothing before the comment *)
      rewrite Hp in Hq. rewrite str_app_nil_l in Hq.
      assert (Hs : startswith "#" (strip o) = true).
      { rewrite Hq. unfold strip.
        change (lstrip_by is_space (String "#" q)) with (String "#" q).
        destruct (rstrip_head is_space "#" q hash_not_space) as [s' ->].
        rewrite startswith_head. apply Ascii.eqb_refl. }
      rewrite Hs, andb_false_r.
      rewrite Hp. reflexivity.
    + (* an option before the comment *)
      assert (Hl : lstrip_by is_space p <> EmptyString).
      { intros E. apply lstrip_empty_rstrip in E. congruence. }
      pose proof (rstrip_fixed_lstrip is_space p Hhash) as Hfix.
      assert (Hstrip : strip o = (lstrip_by is_space p
                                  +:+ rstrip_by is_space (String "#" q))).
      { unfold strip. rewrite Hq, (lstrip_app is_space p _ Hl).
        apply rstrip_app.
        destruct (rstrip_head is_space "#" q hash_not_space) as [s' ->]. discriminate. }
      destruct (rstrip_head is_space "#" q hash_not_space) as [s' Hs'].
      rewrite Hs' in Hstrip.
      assert (Hlc : contains_char "#" (lstrip_by is_space p) = false).
      { destruct (lstrip_suffix is_space p) as [pre Hpre].
        rewrite Hpre, contains_app in Hclean. apply orb_false_iff in Hclean as [_ H]. exact H. }
      assert (Ho : o <> EmptyString).
      { rewrite Hq. destruct p; discriminate. }
      assert (Hstart : startswith "#" (strip o) = false).
      { rewrite Hstrip. destruct (lstrip_by is_space p) as [|a r] eqn:E; [congruence|].
        rewrite str_app_cons, startswith_head.
        change (contains_char "#" (String a r))
          with (Ascii.eqb a "#" || contains_char "#" r) in Hlc.
        apply orb_false_iff in Hlc as [Ha _].
        rewrite Ascii.eqb_sym. exact Ha. }
      rewrite (eqb_empty_false o Ho), Hstart. simpl.
      rewrite Hstrip, (before_first_app "#" _ s' Hlc).
      unfold strip. rewrite Hfix, (eqb_empty_false _ Hl). reflexivity.
  - (* the line has no comment *)
    rewrite (before_first_all "#" o Hc).
    pose proof (strip_no_hash o Hc) as Hsc.
    rewrite (before_first_all "#" (strip o) Hsc).
    assert (Hstart : startswith "#" (strip o) = false).
    { apply not_true_is_false. intros E. apply startswith_contains in E. congruence. }
    rewrite Hstart, andb_true_r.
    destruct (o =? EmptyString) eqn:Ho.
    + apply String.eqb_eq in Ho. rewrite Ho. reflexivity.
    + simpl in Hblank. rewrite Hblank. reflexivity.
Qed.

(** The resolved global flags are those of the rule when every line of
    the file is tidy. *)
Lemma mpv_config_agrees text :
  Forall (fun o => tidy o = true) (splitlines text) ->
  Rewrite.mpv_config_lines text = Spec.global_flags text.
Proof.
  intros H. rewrite mpv_config_lines_parsed. unfold Spec.global_flags.
  induction H as [|o l Ho Hl IH]; [reflexivity|].
  change (omap parsed (o :: l))
    with (match parsed o with Some y => y :: omap parsed l | None => omap parsed l end).
  change (omap Spec.global_flag (o :: l))
    with (match Spec.global_flag o with
          | Some y => y :: omap Spec.global_flag l
          | None => omap Spec.global_flag l
          end).
  rewrite (parsed_tidy o Ho), IH. reflexivity.
Qed.

End ConfFacts.


(** C8.  On the line [volume=50 # loud] of [mpv.conf] the service trims
    the line before it cuts the comment and does not trim again: it keeps
    the blank before the [#] and resolves [--volume=50 ] with a blank at its
    end, where the rule (cut the comment, trim, prefix) gives [--volume=50];
    a line of blanks resolves to a bare [--], where the rule skips it. *)
Theorem mpv_config_inline_comment :
  Rewrite.mpv_config_lines "volume=50 # loud" = ["--volume=50 "]
  /\ Spec.global_flags "volume=50 # loud" = ["--volume=50"]
  /\ Rewrite.mpv_config_lines "   " = ["--"]
  /\ Spec.global_flags "   " = [].
Proof. repeat split. Qed.

(** The scenario of the claim holds in [server-rewrite.py]; [server.py]
    keeps only the lines with an [=] and drops [fullscreen]. *)
Lemma mpv_config_scenario :
  Rewrite.mpv_config_lines
    ("fullscreen" +:+ PyStr.LF +:+ "#comment" +:+ PyStr.LF +:+ "volume=50")
  = ["--fullscreen"; "--volume=50"]
  /\ Spec.global_flags
       ("fullscreen" +:+ PyStr.LF +:+ "#comment" +:+ PyStr.LF +:+ "volume=50")
     = ["--fullscreen"; "--volume=50"]
  /\ Legacy.config_lines
       ("fullscreen" +:+ PyStr.LF +:+ "#comment" +:+ PyStr.LF +:+ "volume=50")
     = ["--volume=50"].
Proof. repeat split. Qed.

(** ** More about the global flags *)

(** X1.  Every global flag [Config.mpv_config] makes of the text of
    [mpv.conf] starts with [--] and holds no [#]: what follows the first
    [#] of a line never reaches the command line of the player. *)
Theorem global_flags_carry_no_comment (text flag : string) :
  In flag (Rewrite.mpv_config_lines text) ->
  PyStr.startswith "--" flag = true /\ PyStr.contains_char "#" flag = false.
Proof.
  unfold Rewrite.mpv_config_lines. intros H.
  apply in_map_iff in H as (o & <- & _). split; [reflexivity|].
  change (PyStr.contains_char "#" ("--" +:+ PyStr.before_first "#" (PyStr.strip o)))
    with (PyStr.contains_char "#" (PyStr.before_first "#" (PyStr.strip o))).
  apply ConfFacts.before_first_clean.
Qed.

Lemma global_flags_carry_no_comment_witness :
  PyStr.startswith "--" "--volume=50 " = true
  /\ PyStr.contains_char "#" "--volume=50 " = false.
Proof.
  apply (global_flags_carry_no_comment "volume=50 # loud" "--volume=50 ").
  left. reflexivity.
Defined.

(** ** More about control commands *)

(** X2.  [control_mpv] called with a name that is not in the [commands]
    table, whether it returns or raises, changes no process and leaves the
    handle as it is; at most it prints one exception. *)
Theorem unknown_command_writes_nothing
    (rt : Py.Runtime) (config : Rewrite.env) (c : string) (val : Py.json Py.pyfloat)
    (w : World.world) :
  Rewrite.commands config !! c = None ->
  World.procs (snd (Rewrite.control_mpv config (Py.JStr c) val w)) = World.procs w
  /\ World.mpv_process (snd (Rewrite.control_mpv config (Py.JStr c) val w))
     = World.mpv_process w
  /\ (World.trace (snd (Rewrite.control_mpv config (Py.JStr c) val w)) = World.trace w
      \/ exists e,
           World.trace (snd (Rewrite.control_mpv config (Py.JStr c) val w))
           = World.trace w ++ [World.EvPrint e]).
Proof.
  intros Hc.
  assert (Htry : forall v,
    World.try_except
      (h ← World.get_mpv_process;
       mpv_stdin ← World.stdin_of h;
       template ← World.lift (Rewrite.commands_item config (Py.JStr c));
       text ← World.lift (Py.str_format template v);
       World.stdin_write mpv_stdin (PyStr.encode (text +:+ PyStr.LF)) ;;
       World.stdin_flush mpv_stdin)
      (fun e => World.print e) w
    = (Py.Ok tt,
       World.World (World.procs w) (World.mpv_process w)
         (World.trace w
            ++ [World.EvPrint
                  (match World.mpv_process w with
                   | Some _ => Py.Exn Py.KeyError ("'" +:+ c +:+ "'")
                   | None => Observe.no_stdin
                   end)]))).
  { intros v. destruct (World.mpv_process w) as [pid|] eqn:Hh.
    - erewrite Steps.try_raise; cycle 1.
      { erewrite Steps.bind_ok by reflexivity. unfold World.get_mpv_process. rewrite Hh.
        erewrite Steps.bind_ok by reflexivity.
        erewrite Steps.bind_raise; [reflexivity|].
        unfold World.lift, Rewrite.commands_item. rewrite Hc. reflexivity. }
      unfold World.print, World.emit. rewrite Hh. reflexivity.
    - erewrite Steps.try_raise; cycle 1.
      { erewrite Steps.bind_ok by reflexivity. unfold World.get_mpv_process. rewrite Hh.
        erewrite Steps.bind_raise by reflexivity. reflexivity. }
      unfold World.print, World.emit. rewrite Hh. reflexivity. }
  unfold Rewrite.control_mpv.
  destruct (Rewrite.sanitize (Py.JStr c) val w) as [[cv|e] w1] eqn:Hs.
  - assert (Hcv : fst cv = Py.JStr c /\ w1 = w).
    { unfold Rewrite.sanitize in Hs.
      destruct (Rewrite.is_numeric_command (Py.JStr c)).
      - destruct (Rewrite.float_of val) as [f|e].
        + injection Hs as <- <-. auto.
        + destruct (Py.is_ValueError e); [injection Hs as <- <-; auto | discriminate Hs].
      - injection Hs as <- <-. auto. }
    destruct Hcv as [Hcv ->].
    erewrite Steps.bind_ok by exact Hs. rewrite Hcv, Htry. simpl.
    split; [reflexivity|]. split; [reflexivity|]. right. eauto.
  - assert (w1 = w) as ->.
    { unfold Rewrite.sanitize in Hs.
      destruct (Rewrite.is_numeric_command (Py.JStr c)).
      - destruct (Rewrite.float_of val) as [f|e'].
        + discriminate Hs.
        + destruct (Py.is_ValueError e'); [discriminate Hs | injection Hs as _ <-; reflexivity].
      - discriminate Hs. }
    erewrite Steps.bind_raise by exact Hs. simpl. auto.
Qed.

Lemma unknown_command_writes_nothing_witness :
  World.procs
    (snd (Rewrite.control_mpv (Sample.config None true) (Py.JStr "shutdown") Py.JNull
            Sample.playing))
  = World.procs Sample.playing.
Proof.
  apply (unknown_command_writes_nothing Sample.runtime (Sample.config None true)
           "shutdown" Py.JNull Sample.playing).
  reflexivity.
Defined.

(** X3.  For a command that takes a number, a value [float] accepts and a
    running player behind the handle, [control_mpv] returns, and the
    player receives what was still in the pipe followed by the bytes of
    the command's template filled with the float and a line feed; the one
    write is all that is recorded. *)
Theorem numeric_command_sends_number
    (rt : Py.Runtime) (config : Rewrite.env) (c template text : string)
    (val : Py.json Py.pyfloat) (f : Py.pyfloat)
    (w : World.world) (pid : nat) (p : World.proc) :
  Rewrite.is_numeric_command (Py.JStr c) = true ->
  Rewrite.float_of val = Py.Ok f ->
  Rewrite.commands config !! c = Some template ->
  Py.str_format template (Some f) = Py.Ok text ->
  World.mpv_process w = Some pid ->
  World.procs w !! pid = Some p ->
  World.alive p = true ->
  Rewrite.control_mpv config (Py.JStr c) val w
  = (Py.Ok tt,
     World.World
       (<[pid := World.Proc (World.argv p) true []
                   (World.received p ++ World.pending p ++ [PyStr.encode (text +:+ PyStr.LF)])]>
          (World.procs w))
       (Some pid) (World.trace w ++ [World.EvWrite pid (PyStr.encode (text +:+ PyStr.LF))])).
Proof.
  intros Hn Hf Hc Ht Hh Hp Ha.
  unfold Rewrite.control_mpv.
  assert (Hs : Rewrite.sanitize (Py.JStr c) val w = (Py.Ok (Py.JStr c, Some f), w)).
  { unfold Rewrite.sanitize. rewrite Hn, Hf. reflexivity. }
  erewrite Steps.bind_ok by exact Hs.
  pose proof (Steps.stdin_write_at w pid p (PyStr.encode (text +:+ PyStr.LF)) Hp) as Hw.
  set (w1 := World.World _ _ _) in Hw.
  assert (Hp1 : World.procs w1 !! pid
                = Some (World.Proc (World.argv p) (World.alive p)
                          (World.pending p ++ [PyStr.encode (text +:+ PyStr.LF)]) (World.received p)))
    by (apply (Steps.lookup_insert_here _ _ p); exact Hp).
  pose proof (Steps.stdin_flush_alive w1 pid _ Hp1 Ha) as Hfl.
  erewrite Steps.try_ok; [reflexivity|].
  erewrite Steps.bind_ok by reflexivity. unfold World.get_mpv_process. rewrite Hh.
  erewrite Steps.bind_ok by reflexivity.
  erewrite Steps.bind_ok by (unfold World.lift; simpl; rewrite Hc; reflexivity).
  erewrite Steps.bind_ok by (unfold World.lift; simpl; rewrite Ht; reflexivity).
  erewrite Steps.bind_ok by exact Hw.
  rewrite Hfl. subst w1. simpl. rewrite Steps.insert_insert, Hh. reflexivity.
Qed.

Lemma numeric_command_sends_number_witness :
  Rewrite.control_mpv (Sample.config None true) (Py.JStr "seek") (Py.JStr "-12")
    Sample.playing
  = (Py.Ok tt,
     World.World
       [World.Proc ["mpv"; "--"; "/videos/a.mkv"] true [] ["seek -12.0" +:+ PyStr.LF]]
       (Some 0) [World.EvWrite 0 ("seek -12.0" +:+ PyStr.LF)]).
Proof.
  apply (numeric_command_sends_number Sample.runtime (Sample.config None true)
           "seek" "seek {}" "seek -12.0" (Py.JStr "-12") (-12)%Z Sample.playing 0
           (World.Proc ["mpv"; "--"; "/videos/a.mkv"] true [] []));
    reflexivity.
Defined.

(** ** More about requests *)

(** X4.  An authorised POST with a readable [Content-Length] to a path
    other than [/dir], [/play] and [/control] sends no response at all and
    changes nothing. *)
Theorem post_elsewhere_gets_no_answer
    (rt : Py.Runtime) (config : Rewrite.env) (req : Rewrite.request)
    (n : Z) (w : World.world) :
  Rewrite.login config (Rewrite.req_authorization req) = true ->
  Rewrite.req_content_length req = Py.Ok n ->
  Rewrite.req_path req <> "/dir" ->
  Rewrite.req_path req <> "/play" ->
  Rewrite.req_path req <> "/control" ->
  Rewrite.do_POST config req w = (Py.Ok None, w).
Proof.
  intros Hl Hn Hd Hp Hc.
  apply String.eqb_neq in Hd, Hp, Hc.
  unfold Rewrite.do_POST. rewrite Hl. simpl.
  erewrite Steps.bind_ok by (unfold World.lift; rewrite Hn; reflexivity).
  unfold World.try_except. rewrite Hd, Hp, Hc. reflexivity.
Qed.

Lemma post_elsewhere_gets_no_answer_witness :
  Rewrite.do_POST (Sample.config None true) (Sample.post "/stop" None Py.JNull)
    Sample.playing
  = (Py.Ok None, Sample.playing).
Proof.
  apply (post_elsewhere_gets_no_answer Sample.runtime (Sample.config None true)
           (Sample.post "/stop" None Py.JNull) 2%Z Sample.playing);
    first [reflexivity | discriminate].
Defined.

(** X5.  When the requested name is in the listing of [static],
    [serve_static] opens the file; if it can be read the answer is 200
    with the content, its length, the content type of its extension and
    a cache age of 315360000, and if not the exception is printed and the
    answer is 404 with the text [error reading file]. *)
Theorem static_file_served
    (rt : Py.Runtime) (config : Rewrite.env) (path : string)
    (listing : list string) (w : World.world) :
  Rewrite.static_listdir config = Py.Ok listing ->
  In (Py.unquote (PyStr.drop 8 path)) listing ->
  Rewrite.serve_static config path w
  = match Rewrite.static_read config (Py.unquote (PyStr.drop 8 path)) with
    | Py.Ok data =>
        (Py.Ok (Some (Rewrite.Response 200
                        [("Cache-Control", "public, max-age=315360000");
                         ("Content-Type",
                          Rewrite.content_type_of (Py.unquote (PyStr.drop 8 path)));
                         ("Content-Length", PyStr.decimal (PyStr.len data))]
                        data)),
         World.World (World.procs w) (World.mpv_process w)
           (World.trace w ++ [World.EvOpen (Py.unquote (PyStr.drop 8 path))]))
    | Py.Raise e =>
        (Py.Ok (Some (Rewrite.Response 404
                        [("Content-Type", "text/plain"); ("Content-Length", "18")]
                        "error reading file")),
         World.World (World.procs w) (World.mpv_process w)
           (World.trace w ++ [World.EvOpen (Py.unquote (PyStr.drop 8 path));
                              World.EvPrint e]))
    end.
Proof.
  intros Hl Hin.
  assert (Hex : existsb (String.eqb (Py.unquote (PyStr.drop 8 path))) listing = true).
  { apply existsb_exists. exists (Py.unquote (PyStr.drop 8 path)).
    split; [exact Hin | apply String.eqb_refl]. }
  unfold Rewrite.serve_static.
  set (requested := Py.unquote (PyStr.drop 8 path)) in *.
  unfold mbind, World.M_bind, World.bind, World.lift,
    World.try_except, World.emit, World.print, World.emit.
  rewrite Hl, Hex.
  destruct (Rewrite.static_read config requested) as [data|e].
  - reflexivity.
  - cbn [negb fst snd World.procs World.mpv_process World.trace].
    rewrite <- app_assoc. reflexivity.
Qed.

Lemma static_file_served_witness :
  Rewrite.serve_static (Sample.config None true) "/static/style.css" World.initial
  = (Py.Ok (Some (Rewrite.Response 200
                    [("Cache-Control", "public, max-age=315360000");
                     ("Content-Type", "text/css; charset=utf-8");
                     ("Content-Length", "8")]
                    "body { }")),
     World.World [] None [World.EvOpen "style.css"]).
Proof.
  apply (static_file_served Sample.runtime (Sample.config None true) "/static/style.css"
           ["index.html"; "app.js"; "style.css"] World.initial).
  - reflexivity.
  - right. right. left. reflexivity.
Defined.

(** ** The JSON listing *)

Module ListingFacts.
Import Py World Fixture.

Section Service.
Context {rt : Runtime}.
Variable config : Rewrite.env.

Lemma item_info_result item w :
  Rewrite._item_info config item w
  = (Ok (match info_of config item with Some i => i | None => JNull end),
     World (procs w) (mpv_process w)
       (trace w ++ match stat_failure config item with Some ev => [ev] | None => [] end)).
Proof.
  unfold Rewrite._item_info, info_of, stat_failure, try_except, mbind, M_bind, bind, lift,
    print, emit, mret, M_ret, ret.
  destruct (Rewrite.fs_stat config item) as [st|e]; simpl.
  - rewrite app_nil_r. destruct w; reflexivity.
  - reflexivity.
Qed.

Lemma item_infos_result items w :
  Rewrite.item_infos config items w
  = (Ok (omap (info_of config) items),
     World (procs w) (mpv_process w) (trace w ++ omap (stat_failure config) items)).
Proof.
  revert w. induction items as [|item rest IH]; intros w.
  - simpl. rewrite app_nil_r. destruct w; reflexivity.
  - cbn [Rewrite.item_infos].
    erewrite Steps.bind_ok by apply item_info_result.
    erewrite Steps.bind_ok by apply IH.
    change (omap (info_of config) (item :: rest))
      with (match info_of config item with
            | Some i => i :: omap (info_of config) rest
            | None => omap (info_of config) rest
            end).
    change (omap (stat_failure config) (item :: rest))
      with (match stat_failure config item with
            | Some ev => ev :: omap (stat_failure config) rest
            | None => omap (stat_failure config) rest
            end).
    unfold mret, M_ret, ret. cbn [procs mpv_process trace].
    unfold info_of, stat_failure.
    destruct (Rewrite.fs_stat config item) as [st|e].
    + rewrite app_nil_r. reflexivity.
    + rewrite <- app_assoc. reflexivity.
Qed.

End Service.

End ListingFacts.

(** X6.  For a path other than [WINROOT] whose directory can be read,
    [FolderContent(path).as_json()] is the dump of the parts of the path
    and of one record for each item whose [stat] succeeds, in the order of
    the directory; the items whose [stat] fails are left out and their
    exceptions printed, in that order. *)
Theorem folder_listing
    (rt : Py.Runtime) (config : Rewrite.env) (path : string)
    (items : list string) (w : World.world) :
  path <> "WINROOT" ->
  Rewrite.fs_iterdir config path = Py.Ok items ->
  Rewrite.FolderContent_as_json config path w
  = (Py.Ok (Py.json_dumps
              (Py.JObj [("path", Py.JArr (List.map Py.JStr (Rewrite.fs_parts config path)));
                        ("content", Py.JArr (omap (Fixture.info_of config) items))])),
     World.World (World.procs w) (World.mpv_process w)
       (World.trace w ++ omap (Fixture.stat_failure config) items)).
Proof.
  intros Hp Hi. apply String.eqb_neq in Hp.
  unfold Rewrite.FolderContent_as_json. rewrite Hp.
  erewrite Steps.bind_ok; [reflexivity|].
  erewrite Steps.bind_ok by (unfold World.lift; rewrite Hi; reflexivity).
  apply ListingFacts.item_infos_result.
Qed.

(** X7.  An authorised POST to [/dir] whose segments join to a directory
    that cannot be read is answered with 404, the UTF-8 bytes of the text
    of the exception as body and their number as [Content-Length], and
    changes nothing. *)
Theorem missing_folder_is_not_found
    (rt : Py.Runtime) (config : Rewrite.env) (req : Rewrite.request) (n : Z)
    (v : Py.json Py.pyfloat) (args : list (Py.json Py.pyfloat)) (dir_path : string)
    (e : Py.exn) (w : World.world) :
  Rewrite.login config (Rewrite.req_authorization req) = true ->
  Rewrite.req_content_length req = Py.Ok n ->
  Rewrite.req_path req = "/dir" ->
  Rewrite.req_json req = Py.Ok v ->
  Rewrite.star_args v = Py.Ok args ->
  Rewrite.os_path_join args = Py.Ok dir_path ->
  dir_path <> "WINROOT" ->
  Rewrite.fs_iterdir config dir_path = Py.Raise e ->
  Rewrite.do_POST config req w
  = (Py.Ok (Some (Rewrite.Response 404
                    [("Content-Type", "text/plain");
                     ("Content-Length",
                      PyStr.decimal (PyStr.len (PyStr.encode (Py.exn_text e))))]
                    (PyStr.encode (Py.exn_text e)))), w).
Proof.
  intros Hl Hn Hp Hj Ha Hjoin Hw Hi. apply String.eqb_neq in Hw.
  unfold Rewrite.do_POST. rewrite Hl, Hp. simpl.
  erewrite Steps.bind_ok by (unfold World.lift; rewrite Hn; reflexivity).
  erewrite Steps.try_raise; cycle 1.
  { erewrite Steps.bind_ok by (unfold World.lift; rewrite Hj; reflexivity).
    erewrite Steps.bind_ok by (unfold World.lift; rewrite Ha; reflexivity).
    erewrite Steps.bind_ok by (unfold World.lift; rewrite Hjoin; reflexivity).
    erewrite Steps.bind_raise; [reflexivity|].
    unfold Rewrite.FolderContent_as_json. rewrite Hw.
    erewrite Steps.bind_raise; [reflexivity|].
    erewrite Steps.bind_raise by (unfold World.lift; rewrite Hi; reflexivity).
    reflexivity. }
  reflexivity.
Qed.

Lemma folder_listing_witness :
  Rewrite.FolderContent_as_json Fixture.disk "/videos" World.initial
  = (Py.Ok (Py.json_dumps (Runtime := Sample.runtime)
              (Py.JObj
                 [("path", Py.JArr [Py.JStr "/"; Py.JStr "videos"]);
                  ("content",
                   Py.JArr
                     [Py.JObj [("path", Py.JArr [Py.JStr "/"; Py.JStr "videos"; Py.JStr "a.mkv"]);
                               ("type", Py.JStr "file");
                               ("modified", Py.JFloat 1700000000%Z);
                               ("size", Py.JInt 734003200)];
                      Py.JObj [("path", Py.JArr [Py.JStr "/"; Py.JStr "videos";
                                                 Py.JStr ".hidden"]);
                               ("type", Py.JStr "file");
                               ("modified", Py.JFloat 1600000000%Z);
                               ("size", Py.JInt 12)]])])),
     World.World [] None
       [World.EvPrint (Py.Exn Py.FileNotFoundError
                         "[Errno 2] No such file or directory: '/videos/gone'")]).
Proof.
  apply (folder_listing Sample.runtime Fixture.disk "/videos"
           ["/videos/a.mkv"; "/videos/gone"; "/videos/.hidden"] World.initial).
  - discriminate.
  - reflexivity.
Defined.

Lemma missing_folder_is_not_found_witness :
  Rewrite.do_POST Fixture.disk
    (Sample.post "/dir" None (Py.JArr [Py.JStr "/"; Py.JStr (String "m" (String "252" "sic"))]))
    World.initial
  = (Py.Ok (Some (Rewrite.Response 404
                    [("Content-Type", "text/plain"); ("Content-Length", "46")]
                    ("[Errno 2] No such file or directory: '/m"
                     +:+ String "195" (String "188" "sic'")))), World.initial).
Proof.
  apply (missing_folder_is_not_found Sample.runtime Fixture.disk
           (Sample.post "/dir" None
              (Py.JArr [Py.JStr "/"; Py.JStr (String "m" (String "252" "sic"))])) 2%Z
           (Py.JArr [Py.JStr "/"; Py.JStr (String "m" (String "252" "sic"))])
           [Py.JStr "/"; Py.JStr (String "m" (String "252" "sic"))]
           (String "/" (String "m" (String "252" "sic")))
           (Py.Exn Py.FileNotFoundError
              ("[Errno 2] No such file or directory: '/m" +:+ String "252" "sic'"))
           World.initial);
    first [reflexivity | discriminate].
Defined.

(** ** Joining the path segments *)

Module JoinFacts.
Import Py Fixture.

Lemma join_onto_absolute p : forall path t,
  PyStr.startswith "/" t = true -> PyStr.join_onto path (p ++ [t]) = t.
Proof.
  induction p as [|b p IH]; intros path t Ht.
  - change ([] ++ [t]) with [t]. cbn [PyStr.join_onto]. rewrite Ht. reflexivity.
  - change ((b :: p) ++ [t]) with (b :: (p ++ [t])). cbn [PyStr.join_onto].
    destruct (PyStr.startswith "/" b); [apply IH; exact Ht|].
    destruct ((path =? EmptyString) || PyStr.endswith_char "/" path); apply IH; exact Ht.
Qed.

Lemma all_str_strings {rt : Runtime} (l : list string) :
  Rewrite.all_str (List.map JStr l) = Ok l.
Proof.
  induction l as [|s l IH]; [reflexivity|]. simpl. rewrite IH. reflexivity.
Qed.

Lemma endswith_app c s b :
  b <> EmptyString -> PyStr.endswith_char c (s +:+ b) = PyStr.endswith_char c b.
Proof.
  intros Hb. induction s as [|a s IH]; [reflexivity|].
  rewrite str_app_cons. cbn [PyStr.endswith_char]. rewrite IH.
  destruct (s +:+ b) eqn:E; [|reflexivity].
  apply str_app_eq_nil in E as [_ E]. congruence.
Qed.

Lemma plain_name_facts b :
  plain_name b = true ->
  b <> EmptyString /\ PyStr.startswith "/" b = false /\ PyStr.endswith_char "/" b = false.
Proof.
  unfold plain_name. intros H. apply andb_true_iff in H as [Hne Hs].
  apply negb_true_iff in Hne, Hs. apply String.eqb_neq in Hne.
  split; [exact Hne|]. split.
  - destruct b as [|a b]; [reflexivity|].
    rewrite ConfFacts.startswith_head.
    change (PyStr.contains_char "/" (String a b))
      with (Ascii.eqb a "/" || PyStr.contains_char "/" b) in Hs.
    apply orb_false_iff in Hs as [Ha _]. rewrite Ascii.eqb_sym. exact Ha.
  - clear Hne. induction b as [|a b IH]; [reflexivity|].
    change (PyStr.contains_char "/" (String a b))
      with (Ascii.eqb a "/" || PyStr.contains_char "/" b) in Hs.
    apply orb_false_iff in Hs as [Ha Hb]. cbn [PyStr.endswith_char].
    destruct b; [exact Ha | exact (IH Hb)].
Qed.

Lemma concat_cons_app path b l :
  String.concat "/" ((path +:+ "/" +:+ b) :: l) = (path +:+ "/" +:+ String.concat "/" (b :: l)).
Proof.
  destruct l as [|c l]; [reflexivity|].
  cbn [String.concat]. rewrite !str_app_assoc. reflexivity.
Qed.

(** Joining plain names onto a path that does not end with a slash puts
    one slash before each. *)
Lemma join_onto_plain p : forall path,
  path <> EmptyString -> PyStr.endswith_char "/" path = false ->
  Forall (fun b => plain_name b = true) p ->
  PyStr.join_onto path p = String.concat "/" (path :: p).
Proof.
  induction p as [|b p IH]; intros path Hne Hend Hp; [reflexivity|].
  inversion Hp as [|? ? Hb Hrest]; subst.
  destruct (plain_name_facts b Hb) as (Hbne & Hbs & Hbe).
  cbn [PyStr.join_onto]. rewrite Hbs, Hend.
  apply String.eqb_neq in Hne as Hne'. rewrite Hne'. cbn [orb].
  rewrite IH.
  - rewrite concat_cons_app. reflexivity.
  - destruct path; [congruence | discriminate].
  - rewrite endswith_app by (destruct b; [congruence | discriminate]).
    change ("/" +:+ b) with (String "/" b).
    cbn [PyStr.endswith_char]. destruct b; [congruence | exact Hbe].
  - exact Hrest.
Qed.

(** Joined onto the root, the first name follows the root's slash. *)
Lemma join_onto_root b p :
  Forall (fun b => plain_name b = true) (b :: p) ->
  PyStr.join_onto "/" (b :: p) = ("/" +:+ String.concat "/" (b :: p)).
Proof.
  intros Hp. inversion Hp as [|? ? Hb Hrest]; subst.
  destruct (plain_name_facts b Hb) as (Hbne & Hbs & Hbe).
  cbn [PyStr.join_onto]. rewrite Hbs.
  change (("/" =? EmptyString) || PyStr.endswith_char "/" "/") with true. cbn iota.
  change ("/" +:+ b) with (String "/" b).
  rewrite join_onto_plain.
  - destruct p as [|c p]; reflexivity.
  - discriminate.
  - cbn [PyStr.endswith_char]. destruct b; [congruence | exact Hbe].
  - exact Hrest.
Qed.

End JoinFacts.

Lemma os_path_join_absolute {rt : Py.Runtime} (segments : list string) (t : string) :
  PyStr.startswith "/" t = true ->
  Rewrite.os_path_join (List.map Py.JStr (segments ++ [t])) = Py.Ok t.
Proof.
  intros Ht. unfold Rewrite.os_path_join.
  rewrite JoinFacts.all_str_strings.
  destruct segments as [|a p]; simpl.
  - reflexivity.
  - rewrite JoinFacts.join_onto_absolute by exact Ht. reflexivity.
Qed.

(** X8.  When the last segment posted to [/play] starts with a slash,
    [os.path.join] drops the segments before it: when [mpv.conf] and the
    override file next to that last segment can be read and the player
    starts, the answer is 200 and the new process runs on that last
    segment alone, with the flags of its directory. *)
Theorem play_target_is_absolute_segment
    (rt : Py.Runtime) (config : Rewrite.env) (req : Rewrite.request) (n : Z)
    (segments : list string) (t text : string) (flags : list string) (w : World.world) :
  Rewrite.login config (Rewrite.req_authorization req) = true ->
  Rewrite.req_content_length req = Py.Ok n ->
  Rewrite.req_path req = "/play" ->
  Rewrite.req_json req = Py.Ok (Py.JArr (List.map Py.JStr (segments ++ [t]))) ->
  PyStr.startswith "/" t = true ->
  Rewrite.mpv_conf config = Py.Ok text ->
  Rewrite.folder_config config t = Py.Ok flags ->
  Rewrite.popen_ok config
    (Rewrite.command_line (Rewrite.mpv_config_lines text) flags t) = true ->
  Observe.status_of (Rewrite.do_POST config req w) = Some 200
  /\ World.procs (snd (Rewrite.do_POST config req w)) !! length (World.procs w)
     = Some (World.Proc (Rewrite.command_line (Rewrite.mpv_config_lines text) flags t)
               true [] []).
Proof.
  intros Hl Hn Hp Hj Ht Hc Hf Hs.
  destruct (PlayFacts.quit_previous_total w) as (w1 & Hq & Hlen & _).
  assert (Hrun : Rewrite.do_POST config req w
                 = (Py.Ok (Some (Rewrite.Response 200
                                   [("Cache-Control", "public, max-age=0");
                                    ("Content-Type", "text/html; charset=utf-8");
                                    ("Content-Length", "0")] EmptyString)),
                    World.World
                      (World.procs w1
                         ++ [World.Proc
                               (Rewrite.command_line (Rewrite.mpv_config_lines text) flags t)
                               true [] []])
                      (Some (length (World.procs w1)))
                      (World.trace w1
                         ++ [World.EvSpawn (length (World.procs w1))
                               (Rewrite.command_line
                                  (Rewrite.mpv_config_lines text) flags t)]))).
  { unfold Rewrite.do_POST. rewrite Hl, Hp. simpl.
    erewrite Steps.bind_ok by (unfold World.lift; rewrite Hn; reflexivity).
    erewrite Steps.try_ok; [reflexivity|].
    erewrite Steps.bind_ok by (unfold World.lift; rewrite Hj; reflexivity).
    erewrite Steps.bind_ok by reflexivity.
    erewrite Steps.bind_ok
      by (unfold World.lift; rewrite (os_path_join_absolute segments t Ht); reflexivity).
    erewrite Steps.bind_ok
      by (apply (PlayFacts.play_file_starts config t w w1 text flags Hq Hc Hf Hs)).
    reflexivity. }
  rewrite Hrun. split; [reflexivity|]. simpl.
  rewrite lookup_app_r by lia. rewrite Hlen, Nat.sub_diag. reflexivity.
Qed.

Lemma play_target_is_absolute_segment_witness :
  Observe.status_of
    (Rewrite.do_POST (Sample.config None true)
       (Sample.post "/play" None
          (Py.JArr (List.map Py.JStr (["/"; "videos"] ++ ["/etc/passwd"]))))
       World.initial) = Some 200
  /\ World.procs
       (snd (Rewrite.do_POST (Sample.config None true)
               (Sample.post "/play" None
                  (Py.JArr (List.map Py.JStr (["/"; "videos"] ++ ["/etc/passwd"]))))
               World.initial)) !! 0
     = Some (World.Proc
               ["mpv"; "--input-terminal=no"; "--input-file=/dev/stdin"; "--fs";
                "--fullscreen"; "--volume=50"; "--"; "/etc/passwd"]
               true [] []).
Proof.
  apply (play_target_is_absolute_segment Sample.runtime (Sample.config None true)
           (Sample.post "/play" None
              (Py.JArr (List.map Py.JStr (["/"; "videos"] ++ ["/etc/passwd"]))))
           2%Z ["/"; "videos"] "/etc/passwd"
           ("fullscreen" +:+ PyStr.LF +:+ "#comment" +:+ PyStr.LF +:+ "volume=50")
           [] World.initial);
    reflexivity.
Defined.

(** X9.  Segments without a slash that are not empty are joined with one
    slash between them, and after the root [/] with none added: this is
    the path [do_POST] lists or plays for the parts a listing has
    returned. *)
Theorem plain_segments_join
    (rt : Py.Runtime) (a : string) (names : list string) :
  Forall (fun b => Fixture.plain_name b = true) names ->
  (Fixture.plain_name a = true ->
   Rewrite.os_path_join (List.map Py.JStr (a :: names))
   = Py.Ok (String.concat "/" (a :: names)))
  /\ (names <> [] ->
      Rewrite.os_path_join (List.map Py.JStr ("/" :: names))
      = Py.Ok ("/" +:+ String.concat "/" names)).
Proof.
  intros Hn. split.
  - intros Ha. unfold Rewrite.os_path_join.
    rewrite JoinFacts.all_str_strings. simpl.
    destruct (JoinFacts.plain_name_facts a Ha) as (Hne & _ & He).
    rewrite JoinFacts.join_onto_plain; auto.
  - intros Hne. unfold Rewrite.os_path_join.
    rewrite JoinFacts.all_str_strings. simpl.
    destruct names as [|b p]; [congruence|].
    rewrite JoinFacts.join_onto_root by exact Hn. reflexivity.
Qed.

Lemma plain_segments_join_witness :
  Rewrite.os_path_join (rt := Sample.runtime)
    (List.map Py.JStr ["/"; "videos"; "a.mkv"]) = Py.Ok "/videos/a.mkv".
Proof.
  assert (Hn : Forall (fun b => Fixture.plain_name b = true) ["videos"; "a.mkv"])
    by (repeat constructor).
  destruct (plain_segments_join Sample.runtime "videos" ["videos"; "a.mkv"] Hn) as [_ H].
  apply H. discriminate.
Defined.

(** ** One player at a time *)

(** X10.  When the requests are served in turn, each handler running to
    its end before the next one starts, then in every world
    [server-rewrite.py] reaches, from the start through any requests and
    any exits of the player, at most one process is alive, and a live
    process is the one the handle points to. *)
Theorem at_most_one_player
    (rt : Py.Runtime) (config : Rewrite.env) (w : World.world) :
  Observe.served_in_turn config w ->
  World.live_count w <= 1
  /\ (forall pid p, World.procs w !! pid = Some p -> World.alive p = true ->
                    World.mpv_process w = Some pid).
Proof.
  intros H. apply Invariant.served_in_turn_session_ok in H.
  split; [apply Invariant.session_ok_live_count; exact H | apply H].
Qed.

Lemma at_most_one_player_witness :
  World.live_count
    (snd (Rewrite.do_POST (Sample.config None true)
            (Sample.post "/play" None (Py.JArr [Py.JStr "/videos"; Py.JStr "b.mkv"]))
            (snd (Rewrite.do_POST (Sample.config None true)
                    (Sample.post "/play" None (Py.JArr [Py.JStr "/videos"; Py.JStr "a.mkv"]))
                    World.initial)))) <= 1.
Proof.
  apply (at_most_one_player Sample.runtime (Sample.config None true)).
  apply Observe.turn_POST. apply Observe.turn_POST. apply Observe.turn_initial.
Defined.

(** ** Two plays that overlap *)

Module ThreadFacts.
Import Py World.

Lemma alone_atom {A} n (m : M A) ok ex w :
  Threads.alone (S n) (Threads.atom m ok ex) w
  = match m w with
    | (Ok a, w') => Threads.alone n (ok a) w'
    | (Raise e, w') => Threads.alone n (ex e) w'
    end.
Proof. cbn. destruct (m w) as [[a|e] w']; reflexivity. Qed.

Lemma alone_Done n w : Threads.alone n Threads.Done w = w.
Proof. destruct n; reflexivity. Qed.

Section Service.
Context {rt : Runtime}.
Variable config : Rewrite.env.

(** The steps after the [try] block, taken one after the other. *)
Lemma start_player_alone n fpath w :
  Threads.alone (4 + n) (Threads.start_player config fpath) w
  = snd ((globals ← Rewrite.mpv_config config;
          folder ← lift (Rewrite.folder_config config fpath);
          let cmd := Rewrite.command_line globals folder fpath in
          pid ← Popen (Rewrite.popen_ok config cmd) cmd;
          set_mpv_process (Some pid)) w).
Proof.
  unfold Threads.start_player, mbind, M_bind, bind.
  change (4 + n) with (S (S (S (S n)))).
  rewrite alone_atom. destruct (Rewrite.mpv_config config w) as [[globals|e] w1];
    [|apply alone_Done].
  rewrite alone_atom.
  destruct (lift (Rewrite.folder_config config fpath) w1) as [[folder|e] w2];
    [|apply alone_Done].
  cbv zeta. rewrite alone_atom.
  destruct (Popen _ _ w2) as [[pid|e] w3]; [|apply alone_Done].
  rewrite alone_atom.
  destruct (set_mpv_process (Some pid) w3) as [[[]|e] w4]; apply alone_Done.
Qed.

(** The steps of [Threads.play_file], taken one after the other, are
    [Rewrite.play_file]. *)
Lemma play_file_alone fpath w :
  Threads.alone 10 (Threads.play_file config fpath) w
  = snd (Rewrite.play_file config fpath w).
Proof.
  unfold Threads.play_file, Rewrite.play_file, Rewrite.quit_previous.
  unfold try_except, mbind at 1, M_bind at 1, bind at 1.
  repeat (unfold mbind at 1, M_bind at 1, bind at 1).
  assert (Hhandler : forall n e w',
    Threads.alone (5 + n)
      (Threads.atom (print e) (fun _ => Threads.start_player config fpath)
         (fun _ => Threads.Done)) w'
    = snd (match print e w' with
           | (Ok _, w1) =>
               (globals ← Rewrite.mpv_config config;
                folder ← lift (Rewrite.folder_config config fpath);
                let cmd := Rewrite.command_line globals folder fpath in
                pid ← Popen (Rewrite.popen_ok config cmd) cmd;
                set_mpv_process (Some pid)) w1
           | (Raise e', w1) => (Raise e', w1)
           end)).
  { intros n e w'. change (5 + n) with (S (4 + n)). rewrite alone_atom.
    destruct (print e w') as [[[]|e'] w1]; [apply start_player_alone | apply alone_Done]. }
  rewrite alone_atom.
  destruct (get_mpv_process w) as [[h|e] w1]; [|apply (Hhandler _)].
  rewrite alone_atom. destruct (stdin_of h w1) as [[p|e] w2]; [|apply (Hhandler _)].
  rewrite alone_atom. destruct (stdin_write p _ w2) as [[[]|e] w3]; [|apply (Hhandler _)].
  rewrite alone_atom. destruct (stdin_flush p w3) as [[[]|e] w4]; [|apply (Hhandler _)].
  rewrite alone_atom. destruct (kill p w4) as [[[]|e] w5]; [|apply (Hhandler _)].
  apply (start_player_alone _).
Qed.

End Service.

End ThreadFacts.

(** X28.  Two [play_file] calls of [server-rewrite.py] that overlap can
    leave two live players: from the start, with readable configuration
    files and a player that starts, when the second call runs between
    the first call's [Popen] and its assignment to the handle, both new
    processes are alive at the end and the handle points to the first
    one, so that no later request reaches the second. *)
Theorem overlapping_plays_leave_two_players
    (rt : Py.Runtime) (config : Rewrite.env) (first second text : string)
    (flags1 flags2 : list string) :
  Rewrite.mpv_conf config = Py.Ok text ->
  Rewrite.folder_config config first = Py.Ok flags1 ->
  Rewrite.folder_config config second = Py.Ok flags2 ->
  Rewrite.popen_ok config
    (Rewrite.command_line (Rewrite.mpv_config_lines text) flags1 first) = true ->
  Rewrite.popen_ok config
    (Rewrite.command_line (Rewrite.mpv_config_lines text) flags2 second) = true ->
  let w := Threads.interleave Threads.late_assignment
             (Threads.play_file config first) (Threads.play_file config second)
             World.initial in
  World.procs w
  = [World.Proc (Rewrite.command_line (Rewrite.mpv_config_lines text) flags1 first)
       true [] [];
     World.Proc (Rewrite.command_line (Rewrite.mpv_config_lines text) flags2 second)
       true [] []]
  /\ World.live_count w = 2
  /\ World.mpv_process w = Some 0.
Proof.
  intros Hc Hf1 Hf2 Hs1 Hs2.
  unfold Threads.late_assignment, Threads.play_file, Threads.start_player, Threads.atom,
    Rewrite.mpv_config, mbind, World.M_bind, World.bind, World.lift, mret, World.M_ret,
    World.ret, World.Popen, World.set_mpv_process.
  repeat first [ rewrite Hc | rewrite Hf1 | rewrite Hf2 | rewrite Hs1 | rewrite Hs2
               | progress cbn -[Rewrite.command_line Rewrite.mpv_config_lines] ].
  repeat split.
Qed.

Lemma overlapping_plays_leave_two_players_witness :
  World.live_count
    (Threads.interleave Threads.late_assignment
       (Threads.play_file (Sample.config None true) "/videos/a.mkv")
       (Threads.play_file (Sample.config None true) "/videos/b.mkv")
       World.initial) = 2.
Proof.
  apply (overlapping_plays_leave_two_players Sample.runtime (Sample.config None true)
           "/videos/a.mkv" "/videos/b.mkv"
           ("fullscreen" +:+ PyStr.LF +:+ "#comment" +:+ PyStr.LF +:+ "volume=50")
           ["--aid=2"; "--sub-delay=-1.5"] ["--aid=2"; "--sub-delay=-1.5"]);
    reflexivity.
Defined.

(** ** The commands file *)

Module CommandFacts.
Import Py.

Lemma split_at_equals c :
  PyStr.contains_char "=" c = true ->
  c = (PyStr.before_first "=" c +:+ "=" +:+ Rewrite.after_first "=" c).
Proof.
  induction c as [|a c IH]; [discriminate|].
  cbn [PyStr.contains_char PyStr.before_first Rewrite.after_first].
  destruct (Ascii.eqb_spec a "=") as [->|Hne].
  - intros _. reflexivity.
  - cbn [orb]. intros H. rewrite str_app_cons, <- (IH H). reflexivity.
Qed.

Lemma after_first_app name cmd :
  PyStr.contains_char "=" name = false ->
  Rewrite.after_first "=" (name +:+ "=" +:+ cmd) = cmd.
Proof.
  induction name as [|a name IH].
  - intros _. reflexivity.
  - cbn [PyStr.contains_char]. intros H. apply orb_false_iff in H as [Ha Hn].
    rewrite str_app_cons. cbn [Rewrite.after_first]. rewrite Ha. exact (IH Hn).
Qed.

Lemma contains_equals_app name cmd :
  PyStr.contains_char "=" (name +:+ "=" +:+ cmd) = true.
Proof.
  rewrite ConfFacts.contains_app. apply orb_true_iff. right. reflexivity.
Qed.

Lemma load_commands_app l1 : forall l2 table,
  Rewrite.load_commands (l1 ++ l2) table
  = match Rewrite.load_commands l1 table with
    | Ok t1 => Rewrite.load_commands l2 t1
    | Raise e => Raise e
    end.
Proof.
  induction l1 as [|c l1 IH]; intros l2 table; [reflexivity|].
  change ((c :: l1) ++ l2) with (c :: (l1 ++ l2)). cbn [Rewrite.load_commands].
  destruct (c =? EmptyString)%string; [apply IH|].
  destruct (PyStr.contains_char "=" c); [apply IH | reflexivity].
Qed.

End CommandFacts.

(** X11.  [Config.__init__] reads the [commands] file without raising
    exactly when every line of it is empty or contains a [=]. *)
Theorem commands_file_loads
    (lines : list string) (table : gmap string string) :
  (exists loaded, Rewrite.load_commands lines table = Py.Ok loaded)
  <-> Forall (fun c => c = EmptyString \/ PyStr.contains_char "=" c = true) lines.
Proof.
  revert table. induction lines as [|c rest IH]; intros table.
  - split; [constructor | intros _; exists table; reflexivity].
  - cbn [Rewrite.load_commands].
    destruct (String.eqb_spec c EmptyString) as [->|Hne].
    + rewrite IH. split.
      * intros H. constructor; [left; reflexivity | exact H].
      * intros H. inversion H; assumption.
    + destruct (PyStr.contains_char "=" c) eqn:Hc.
      * rewrite IH. split.
        -- intros H. constructor; [right; exact Hc | exact H].
        -- intros H. inversion H; assumption.
      * split.
        -- intros [loaded H]. discriminate H.
        -- intros H. inversion H as [|? ? [Hx|Hx] _]; congruence.
Qed.

(** X12.  In the table [Config.__init__] has loaded, every entry was in
    the table before or is a line [name=command] of the file, and the
    last line of the file, if its name holds no [=], is bound to its
    command: a later line overrides an earlier one of the same name. *)
Theorem commands_table_entries
    (lines : list string) (table loaded : gmap string string) :
  Rewrite.load_commands lines table = Py.Ok loaded ->
  (forall name cmd,
      loaded !! name = Some cmd ->
      table !! name = Some cmd \/ In (name +:+ "=" +:+ cmd)%string lines)
  /\ (forall name cmd rest,
         lines = rest ++ [(name +:+ "=" +:+ cmd)%string] ->
         PyStr.contains_char "=" name = false ->
         loaded !! name = Some cmd).
Proof.
  intros Hload. split.
  - revert table Hload. induction lines as [|c rest IH]; intros table Hload name cmd Hl.
    + injection Hload as <-. left. exact Hl.
    + cbn [Rewrite.load_commands] in Hload.
      destruct (String.eqb_spec c EmptyString) as [->|Hne].
      * destruct (IH table Hload name cmd Hl) as [H|H]; [left | right; right]; exact H.
      * destruct (PyStr.contains_char "=" c) eqn:Hc; [|discriminate Hload].
        destruct (IH _ Hload name cmd Hl) as [H|H]; [|right; right; exact H].
        destruct (decide (PyStr.before_first "=" c = name)) as [Heq|Hneq].
        -- rewrite Heq, lookup_insert_eq in H. injection H as <-.
           right. left. rewrite <- Heq. apply CommandFacts.split_at_equals.
           exact Hc.
        -- rewrite lookup_insert_ne in H by exact Hneq. left. exact H.
  - intros name cmd rest -> Hname.
    rewrite CommandFacts.load_commands_app in Hload.
    destruct (Rewrite.load_commands rest table) as [t1|e]; [|discriminate Hload].
    cbn [Rewrite.load_commands] in Hload.
    rewrite CommandFacts.contains_equals_app in Hload.
    destruct (String.eqb_spec (name +:+ "=" +:+ cmd) EmptyString) as [E|_].
    + apply str_app_eq_nil in E as [_ E]. discriminate E.
    + injection Hload as <-.
      rewrite (CommandFacts.after_first_app name cmd Hname).
      change (name +:+ "=" +:+ cmd) with (name +:+ String "=" cmd).
      rewrite (ConfFacts.before_first_app "=" name cmd Hname).
      apply lookup_insert_eq.
Qed.

Lemma commands_table_entries_witness :
  (<["pause" := "set pause yes"]>
     (<["seek" := "seek {}"]> (<["pause" := "cycle pause"]> (∅ : gmap string string))))
    !! "pause" = Some "set pause yes".
Proof.
  refine (proj2 (commands_table_entries
                   ["pause=cycle pause"; "seek=seek {}"; "pause=set pause yes"] ∅
                   (<["pause" := "set pause yes"]>
                      (<["seek" := "seek {}"]> (<["pause" := "cycle pause"]> ∅)))
                   _)
                "pause" "set pause yes" ["pause=cycle pause"; "seek=seek {}"] _ _);
    reflexivity.
Defined.

(** ** [server.py]: the dispatcher *)

Module PagesFacts.
Import Py World Legacy Pages Observe Steps Invariant.

Lemma eqb_false (a b : string) : a <> b -> (a =? b) = false.
Proof. intros H. apply String.eqb_neq. exact H. Qed.

Section Html.
Context {rt : Runtime}.
Variable e : env.
Variable s : site.


Lemma legacy_quit_previous_no_session w :
  mpv_process w = None ->
  Legacy.quit_previous w
  = (Ok tt, World (procs w) None (trace w ++ [EvPrint no_stdin])).
Proof.
  intros Hh. unfold Legacy.quit_previous.
  erewrite try_raise.
  2:{ erewrite bind_ok by reflexivity. unfold get_mpv_process. rewrite Hh.
      erewrite bind_raise by reflexivity. reflexivity. }
  unfold print, emit. rewrite Hh. reflexivity.
Qed.

(** After the try block of [play_file] no process is alive. *)
Lemma legacy_quit_previous_all_dead w :
  session_ok w ->
  exists w1, Legacy.quit_previous w = (Ok tt, w1)
             /\ all_dead (procs w1) /\ mpv_process w1 = mpv_process w
             /\ length (procs w1) = length (procs w).
Proof.
  intros Hok. destruct (mpv_process w) as [pid|] eqn:Hh.
  - destruct Hok as [Hone Hlt]. pose proof (Hlt pid Hh) as Hpid.
    destruct (lookup_lt_is_Some_2 (procs w) pid Hpid) as [p Hp].
    eexists. split; [apply (legacy_quit_previous_session w pid p Hh Hp)|]. simpl.
    split; [|split; [reflexivity | apply length_insert]].
    apply all_dead_after_quit; [split; assumption | exact Hh | reflexivity].
  - eexists. split; [apply (legacy_quit_previous_no_session w Hh)|]. simpl.
    split; [apply all_dead_no_session; assumption | auto].
Qed.

Lemma legacy_play_file_result fpath w :
  session_ok w ->
  exists w1,
    Legacy.quit_previous w = (Ok tt, w1)
    /\ all_dead (procs w1) /\ mpv_process w1 = mpv_process w
    /\ length (procs w1) = length (procs w)
    /\ Legacy.play_file e fpath w
       = if Legacy.popen_ok e (Legacy.command_line e fpath)
         then (Ok tt, World (procs w1 ++ [Proc (Legacy.command_line e fpath) true [] []])
                            (Some (length (procs w1)))
                            (trace w1 ++ [EvSpawn (length (procs w1))
                                            (Legacy.command_line e fpath)]))
         else (Raise (Exn FileNotFoundError "[Errno 2] No such file or directory: 'mpv'"),
               w1).
Proof.
  intros Hok. destruct (legacy_quit_previous_all_dead w Hok) as (w1 & Hq & Hd & Hh & Hlen).
  exists w1. repeat (split; [assumption|]).
  unfold Legacy.play_file. erewrite bind_ok by exact Hq.
  unfold mbind, M_bind, bind, Popen, set_mpv_process.
  destruct (Legacy.popen_ok e _); reflexivity.
Qed.

Lemma keeps_legacy_play_file fpath : keeps (Legacy.play_file e fpath).
Proof.
  intros w Hok. pose proof Hok as [_ Hlt].
  destruct (legacy_play_file_result fpath w Hok) as (w1 & _ & Hd & Hh & Hlen & Hp).
  rewrite Hp. destruct (Legacy.popen_ok e _); simpl.
  - apply session_ok_started. exact Hd.
  - destruct w1 as [l h t]. simpl in *. apply session_ok_all_dead; [exact Hd|].
    intros pid Hpid. rewrite Hlen. apply Hlt. congruence.
Qed.

Lemma keeps_mret {A} (a : A) : keeps (mret a : M A).
Proof. apply keeps_quiet. reflexivity. Qed.

Lemma keeps_lifted {A} (o : outcome A) : keeps (lift o).
Proof. apply keeps_quiet. reflexivity. Qed.

Lemma keeps_valid_items items : keeps (valid_items items).
Proof.
  induction items as [|i rest IH]; simpl; [apply keeps_mret|].
  apply keeps_bind.
  - apply keeps_try; [apply keeps_lifted|]. intros x.
    apply keeps_bind; [apply keeps_print | intros _; apply keeps_mret].
  - intros k. apply keeps_bind; [exact IH | intros r; apply keeps_mret].
Qed.

Lemma keeps_list_dir path : keeps (list_dir s path).
Proof.
  unfold list_dir. apply keeps_bind.
  - apply keeps_try; [|intros x; apply keeps_mret].
    apply keeps_bind; [|intros l; apply keeps_mret].
    unfold DirectoryViewer.
    apply keeps_bind; [apply keeps_lifted|]. intros nav.
    apply keeps_bind; [apply keeps_lifted|]. intros items.
    apply keeps_bind; [|intros c; apply keeps_mret].
    unfold generate_content_links.
    apply keeps_bind; [apply keeps_valid_items | intros v; apply keeps_mret].
  - intros [listing|x]; [|apply keeps_mret].
    apply keeps_bind; [apply keeps_lifted | intros page; apply keeps_mret].
Qed.

Lemma keeps_legacy_serve_static path : keeps (Legacy.serve_static e path).
Proof.
  unfold Legacy.serve_static. apply keeps_bind; [apply keeps_lifted|]. intros listing.
  destruct (negb _); [apply keeps_mret|].
  apply keeps_try.
  - apply keeps_bind; [apply keeps_emit|]. intros _.
    apply keeps_bind; [apply keeps_lifted|]. intros data. apply keeps_mret.
  - intros x. apply keeps_bind; [apply keeps_print | intros _; apply keeps_mret].
Qed.

Lemma keeps_legacy_control_mpv command : keeps (control_mpv command).
Proof.
  unfold control_mpv. apply keeps_bind; [|intros _; apply keeps_mret].
  apply keeps_try; [|intros x; apply keeps_print].
  apply keeps_bind; [apply keeps_quiet; reflexivity|]. intros h.
  apply keeps_bind; [destruct h; apply keeps_quiet; reflexivity|]. intros pid.
  apply keeps_bind; [apply keeps_write|]. intros _. apply keeps_flush.
Qed.

Lemma keeps_legacy_do_GET req : keeps (do_GET e s req).
Proof.
  unfold do_GET. destruct (match login s with Some _ => _ | None => _ end);
    [apply keeps_mret|].
  destruct (PyStr.startswith _ _); [apply keeps_legacy_serve_static|].
  destruct (if url_path req =? "/dir" then _ else _); [apply keeps_list_dir|].
  destruct (if url_path req =? "/play" then _ else _).
  { apply keeps_bind; [apply keeps_legacy_play_file | intros _; apply keeps_mret]. }
  destruct (if url_path req =? "/control" then _ else _);
    [apply keeps_legacy_control_mpv|].
  destruct (path req =? "/"); apply keeps_mret.
Qed.

Lemma legacy_reachable_session_ok w : Pages.reachable e s w -> session_ok w.
Proof.
  induction 1.
  - apply session_ok_initial.
  - apply keeps_legacy_do_GET. assumption.
  - apply session_ok_proc_exits. assumption.
Qed.

Lemma no_challenge_list_dir path : no_challenge (list_dir s path).
Proof.
  intros w. unfold list_dir, Pages.status_of, mbind, M_bind, bind, try_except.
  destruct (DirectoryViewer s path w) as [[listing|x] w1]; simpl.
  - unfold lift. destruct (base_substitute s _); simpl; discriminate.
  - discriminate.
Qed.

Lemma no_challenge_serve_static path : no_challenge (Legacy.serve_static e path).
Proof.
  intros w. unfold Legacy.serve_static, Pages.status_of, mbind, M_bind, bind, try_except, lift.
  destruct (Legacy.static_listdir e) as [listing|x]; simpl; [|discriminate].
  destruct (negb _); simpl; [discriminate|].
  destruct (Legacy.static_read e _); simpl; discriminate.
Qed.

Lemma no_challenge_play fpath :
  no_challenge (Legacy.play_file e fpath ;; respond_ok (PyStr.encode (controls s)) html 0).
Proof.
  intros w. unfold Pages.status_of, mbind, M_bind, bind.
  destruct (Legacy.play_file e fpath w) as [[[]|x] w1]; simpl; discriminate.
Qed.

Lemma no_challenge_control command : no_challenge (control_mpv command).
Proof.
  intros w. unfold control_mpv, Pages.status_of, mbind, M_bind, bind.
  destruct (try_except _ _ w) as [[[]|x] w1]; simpl; discriminate.
Qed.

End Html.

End PagesFacts.



Module ControlPage.
Import Py World Legacy Pages Observe Steps.

Lemma legacy_control_page command w w' :
  try_except
    (h ← get_mpv_process;
     mpv_stdin ← stdin_of h;
     stdin_write mpv_stdin (PyStr.encode (command +:+ PyStr.LF)) ;;
     stdin_flush mpv_stdin)
    (fun x => print x) w = (Ok tt, w') ->
  control_mpv command w = (Ok (go_back command), w').
Proof.
  intros H. unfold control_mpv. erewrite bind_ok by exact H.
  unfold go_back. destruct (command =? "quit"); reflexivity.
Qed.

Lemma map_alive_insert (l : list proc) pid p q :
  l !! pid = Some p -> alive q = alive p ->
  List.map alive (<[pid := q]> l) = List.map alive l.
Proof.
  intros Hp Hq. change (alive <$> <[pid := q]> l = alive <$> l).
  rewrite list_fmap_insert, Hq. apply list_insert_id.
  rewrite list_lookup_fmap, Hp. reflexivity.
Qed.

(** The lines of the try block of [control_mpv], with a player behind the
    handle. *)
Lemma legacy_control_session command w pid p :
  mpv_process w = Some pid -> procs w !! pid = Some p ->
  control_mpv command w
  = (Ok (go_back command),
     if alive p
     then World (<[pid := Proc (argv p) true []
                            (received p ++ pending p ++ [PyStr.encode (command +:+ PyStr.LF)])]> (procs w))
                (Some pid) (trace w ++ [EvWrite pid (PyStr.encode (command +:+ PyStr.LF))])
     else World (<[pid := Proc (argv p) false (pending p ++ [PyStr.encode (command +:+ PyStr.LF)])
                            (received p)]> (procs w))
                (Some pid)
                (trace w ++ [EvWrite pid (PyStr.encode (command +:+ PyStr.LF)); EvPrint broken_pipe])).
Proof.
  intros Hh Hp. apply legacy_control_page.
  pose proof (stdin_write_at w pid p (PyStr.encode (command +:+ PyStr.LF)) Hp) as Hw.
  set (w1 := World _ _ _) in Hw.
  assert (Hp1 : procs w1 !! pid
                = Some (Proc (argv p) (alive p) (pending p ++ [PyStr.encode (command +:+ PyStr.LF)])
                          (received p)))
    by (apply (lookup_insert_here _ _ p); exact Hp).
  destruct (alive p) eqn:Ha.
  - erewrite try_ok; [reflexivity|].
    erewrite bind_ok by reflexivity. unfold get_mpv_process. rewrite Hh.
    erewrite bind_ok by reflexivity.
    erewrite bind_ok by exact Hw.
    rewrite (stdin_flush_alive w1 pid _ Hp1 eq_refl). subst w1. simpl.
    rewrite insert_insert, Hh. reflexivity.
  - erewrite try_raise.
    2:{ erewrite bind_ok by reflexivity. unfold get_mpv_process. rewrite Hh.
        erewrite bind_ok by reflexivity.
        erewrite bind_ok by exact Hw.
        apply (stdin_flush_dead w1 pid _ Hp1 eq_refl). }
    subst w1. unfold print, emit. simpl. rewrite <- app_assoc, Hh. reflexivity.
Qed.

Lemma legacy_control_no_session command w :
  mpv_process w = None ->
  control_mpv command w
  = (Ok (go_back command), World (procs w) None (trace w ++ [EvPrint no_stdin])).
Proof.
  intros Hh. apply legacy_control_page.
  erewrite try_raise.
  2:{ erewrite bind_ok by reflexivity. unfold get_mpv_process. rewrite Hh.
      erewrite bind_raise by reflexivity. reflexivity. }
  unfold print, emit. rewrite Hh. reflexivity.
Qed.

Lemma legacy_control_no_process command w pid :
  mpv_process w = Some pid -> procs w !! pid = None ->
  control_mpv command w
  = (Ok (go_back command),
     World (procs w) (Some pid) (trace w ++ [EvPrint (Exn OSError "no such process")])).
Proof.
  intros Hh Hp. apply legacy_control_page.
  erewrite try_raise.
  2:{ erewrite bind_ok by reflexivity. unfold get_mpv_process. rewrite Hh.
      erewrite bind_ok by reflexivity.
      erewrite bind_raise; [reflexivity|].
      unfold stdin_write. erewrite bind_raise; [reflexivity|].
      unfold get_proc. rewrite Hp. reflexivity. }
  unfold print, emit. rewrite Hh. reflexivity.
Qed.

End ControlPage.

(** X14.  The [control_mpv] of [server.py] always answers 200 with a
    script that goes back two pages for the command [quit] and one page
    for any other; it never raises, and it starts or kills no process
    and leaves the handle as it is. *)
Theorem legacy_control_always_answers (command : string) (w : World.world) :
  exists w',
    Pages.control_mpv command w
    = (Py.Ok (Legacy.Response 200
                [("Cache-Control", "public, max-age=0");
                 ("Content-Type", "text/html; charset=utf-8")]
                (if command =? "quit" then "<script>history.go(-2);</script>"
                 else "<script>history.go(-1);</script>")), w')
    /\ World.mpv_process w' = World.mpv_process w
    /\ List.map World.alive (World.procs w') = List.map World.alive (World.procs w)
    /\ List.map World.argv (World.procs w') = List.map World.argv (World.procs w).
Proof.
  destruct (World.mpv_process w) as [pid|] eqn:Hh.
  - destruct (World.procs w !! pid) as [p|] eqn:Hp.
    + eexists. split; [apply (ControlPage.legacy_control_session command w pid p Hh Hp)|].
      destruct (World.alive p) eqn:Ha; simpl; (split; [reflexivity|]); split.
      * apply (ControlPage.map_alive_insert _ pid p); [exact Hp | symmetry; exact Ha].
      * change (World.argv <$> <[pid := World.Proc (World.argv p) true []
                  (World.received p ++ World.pending p ++ [PyStr.encode (command +:+ PyStr.LF)])]>
                  (World.procs w) = World.argv <$> World.procs w).
        rewrite list_fmap_insert. apply list_insert_id.
        rewrite list_lookup_fmap, Hp. reflexivity.
      * apply (ControlPage.map_alive_insert _ pid p); [exact Hp | symmetry; exact Ha].
      * change (World.argv <$> <[pid := World.Proc (World.argv p) false
                  (World.pending p ++ [PyStr.encode (command +:+ PyStr.LF)]) (World.received p)]>
                  (World.procs w) = World.argv <$> World.procs w).
        rewrite list_fmap_insert. apply list_insert_id.
        rewrite list_lookup_fmap, Hp. reflexivity.
    + eexists. split; [apply (ControlPage.legacy_control_no_process command w pid Hh Hp)|].
      simpl. auto.
  - eexists. split; [apply (ControlPage.legacy_control_no_session command w Hh)|].
    simpl. auto.
Qed.

(** X15.  With a player behind the handle, the [control_mpv] of
    [server.py] writes the bytes of the command and a line feed: a
    running player receives what was still in the pipe and then this
    line, for an exited one the line stays in the pipe and the broken
    pipe is printed. *)
Theorem legacy_control_reaches_player
    (command : string) (w : World.world) (pid : nat) (p : World.proc) :
  World.mpv_process w = Some pid ->
  World.procs w !! pid = Some p ->
  snd (Pages.control_mpv command w)
  = if World.alive p
    then World.World
           (<[pid := World.Proc (World.argv p) true []
                       (World.received p ++ World.pending p ++ [PyStr.encode (command +:+ PyStr.LF)])]>
              (World.procs w))
           (Some pid) (World.trace w ++ [World.EvWrite pid (PyStr.encode (command +:+ PyStr.LF))])
    else World.World
           (<[pid := World.Proc (World.argv p) false
                       (World.pending p ++ [PyStr.encode (command +:+ PyStr.LF)]) (World.received p)]>
              (World.procs w))
           (Some pid)
           (World.trace w ++ [World.EvWrite pid (PyStr.encode (command +:+ PyStr.LF));
                              World.EvPrint Observe.broken_pipe]).
Proof.
  intros Hh Hp. rewrite (ControlPage.legacy_control_session command w pid p Hh Hp).
  reflexivity.
Qed.

Lemma legacy_control_reaches_player_witness :
  snd (Pages.control_mpv "cycle pause" Sample.playing)
  = World.World
      [World.Proc ["mpv"; "--"; "/videos/a.mkv"] true [] ["cycle pause" +:+ PyStr.LF]]
      (Some 0) [World.EvWrite 0 ("cycle pause" +:+ PyStr.LF)].
Proof.
  apply (legacy_control_reaches_player "cycle pause" Sample.playing 0
           (World.Proc ["mpv"; "--"; "/videos/a.mkv"] true [] [])); reflexivity.
Defined.

(** X16.  The [do_GET] of [server.py] answers 401 exactly when a login
    is configured and the [Authorization] header is not equal to it. *)
Theorem legacy_authorization_gate {rt : Py.Runtime}
    (e : Legacy.env) (s : Pages.site) (req : Pages.request) (w : World.world) :
  Pages.status_of (Pages.do_GET e s req w) = Some 401
  <-> exists l, Pages.login s = Some l /\ Pages.authorization req <> Some l.
Proof.
  unfold Pages.do_GET.
  set (refused := match Pages.login s with Some _ => _ | None => _ end).
  assert (Hr : refused = true
               <-> exists l, Pages.login s = Some l /\ Pages.authorization req <> Some l).
  { subst refused. destruct (Pages.login s) as [l|].
    - destruct (Pages.authorization req) as [a|].
      + destruct (a =? l) eqn:Heq; simpl.
        * apply String.eqb_eq in Heq. subst a. split; [discriminate|].
          intros (l' & [= <-] & Hne). congruence.
        * apply String.eqb_neq in Heq. split; [|reflexivity].
          intros _. exists l. split; [reflexivity | congruence].
      + split; [|reflexivity]. intros _. exists l. split; [reflexivity | discriminate].
    - split; [discriminate|]. intros (l & Hl & _). discriminate Hl. }
  rewrite <- Hr. destruct refused; [split; reflexivity|].
  split; [|discriminate]. intros H. exfalso. revert H.
  destruct (PyStr.startswith _ _); [apply PagesFacts.no_challenge_serve_static|].
  destruct (if Pages.url_path req =? "/dir" then _ else _);
    [apply PagesFacts.no_challenge_list_dir|].
  destruct (if Pages.url_path req =? "/play" then _ else _);
    [apply PagesFacts.no_challenge_play|].
  destruct (if Pages.url_path req =? "/control" then _ else _);
    [apply PagesFacts.no_challenge_control|].
  destruct (Pages.path req =? "/"); discriminate.
Qed.

Module PathFacts.
Import Py World Legacy Pages Steps.

Lemma parts_rooted r ns : r <> EmptyString -> last (Posix.parts (Posix.Path r ns)) <> None.
Proof.
  intros Hr. unfold Posix.parts. simpl.
  apply String.eqb_neq in Hr. rewrite Hr.
  rewrite last_app. destruct (last ns); discriminate.
Qed.

Section Html.
Context {rt : Runtime}.

Lemma navlinks_rooted r (chain : list (list string)) :
  r <> EmptyString ->
  exists ls, navlinks (List.map (Posix.Path r) chain) = Ok ls
             /\ length ls = length chain.
Proof.
  intros Hr. induction chain as [|ns rest (ls & IH & Hlen)]; simpl.
  - exists []. split; reflexivity.
  - unfold navlink. pose proof (parts_rooted r ns Hr) as Hlast.
    destruct (last (Posix.parts (Posix.Path r ns))) as [part|]; [|congruence].
    rewrite IH. eexists. split; [reflexivity|]. simpl. rewrite Hlen. reflexivity.
Qed.

Lemma length_prefixes {A} (l : list A) : length (Posix.prefixes l) = S (length l).
Proof.
  induction l as [|x l IH]; [reflexivity|].
  simpl. rewrite length_map. simpl in IH. rewrite IH. reflexivity.
Qed.

Lemma navigation_relative ns :
  generate_navigation_links (Posix.Path EmptyString ns)
  = Raise (Exn IndexError "tuple index out of range").
Proof. unfold generate_navigation_links, Posix.lineage. destruct ns; reflexivity. Qed.

Lemma navigation_rooted r ns :
  r <> EmptyString ->
  exists links,
    generate_navigation_links (Posix.Path r ns) = Ok (String.concat "/" links)
    /\ length links = S (length ns).
Proof.
  intros Hr. unfold generate_navigation_links, Posix.lineage. simpl.
  destruct (navlinks_rooted r (Posix.prefixes ns) Hr) as (ls & Hls & Hlen).
  rewrite Hls. exists ls. split; [reflexivity|].
  rewrite Hlen. apply length_prefixes.
Qed.

(** The ancestors from the top down and the path itself are the paths
    with the first [i] names, for [i] from none to all. *)
Lemma prefixes_take {A} (l : list A) :
  Posix.prefixes l = List.map (fun i => take i l) (seq 0 (S (length l))).
Proof.
  induction l as [|x l IH]; [reflexivity|].
  change (Posix.prefixes (x :: l)) with ([] :: List.map (cons x) (Posix.prefixes l)).
  rewrite IH. change (length (x :: l)) with (S (length l)).
  change (seq 0 (S (S (length l)))) with (0 :: seq 1 (S (length l))).
  rewrite <- seq_shift. cbn [List.map]. rewrite !List.map_map. reflexivity.
Qed.

Lemma last_default {A} (l : list A) : forall a d d',
  List.last (a :: l) d = List.last (a :: l) d'.
Proof.
  induction l as [|b l IH]; intros a d d'; [reflexivity|].
  change (List.last (b :: l) d = List.last (b :: l) d'). apply IH.
Qed.

Lemma last_rooted {A} (r : A) (ns : list A) : last (r :: ns) = Some (List.last ns r).
Proof.
  revert r. induction ns as [|n ns IH]; intros r; [reflexivity|].
  change (last (r :: n :: ns)) with (last (n :: ns)). rewrite IH.
  destruct ns as [|a ns]; [reflexivity|].
  f_equal. change (List.last (n :: a :: ns) r) with (List.last (a :: ns) r).
  apply last_default.
Qed.

Lemma navlink_rooted r ns :
  r <> EmptyString ->
  navlink (Posix.Path r ns)
  = Ok ("<a class=" +:+ quoted "navlink"
        +:+ " href=" +:+ quoted ("/dir?path=" +:+ quote (Posix.str (Posix.Path r ns)))
        +:+ ">" +:+ html_escape (List.last ns r) +:+ "</a>").
Proof.
  intros Hr. unfold navlink, Posix.parts. simpl Posix.root. simpl Posix.names.
  apply String.eqb_neq in Hr. rewrite Hr.
  change ([r] ++ ns) with (r :: ns). rewrite last_rooted. reflexivity.
Qed.

Lemma navlinks_links r (chain : list (list string)) :
  r <> EmptyString ->
  navlinks (List.map (Posix.Path r) chain)
  = Ok (List.map
          (fun ns =>
             "<a class=" +:+ quoted "navlink"
             +:+ " href=" +:+ quoted ("/dir?path=" +:+ quote (Posix.str (Posix.Path r ns)))
             +:+ ">" +:+ html_escape (List.last ns r) +:+ "</a>")
          chain).
Proof.
  intros Hr. induction chain as [|ns rest IH]; [reflexivity|].
  cbn [List.map navlinks]. rewrite (navlink_rooted r ns Hr), IH. reflexivity.
Qed.

End Html.

End PathFacts.

(** X17.  For a path with a root and [n] names,
    [generate_navigation_links] returns [n + 1] links joined with
    slashes: the link number [i], counted from 0, goes to the ancestor
    made of the root and the first [i] names (the last one to the path
    itself); its address is [/dir?path=] and the quoted text of that
    ancestor, and it shows the ancestor's last name, the root for the top
    one, escaped.  For a relative path it raises [IndexError], the top
    ancestor [.] having no parts. *)
Theorem navigation_links_need_a_root {rt : Py.Runtime} (p : Posix.path) :
  (Posix.root p <> EmptyString ->
   Pages.generate_navigation_links p
   = Py.Ok (String.concat "/"
              (List.map
                 (fun i =>
                    let ancestor := Posix.Path (Posix.root p) (take i (Posix.names p)) in
                    "<a class=" +:+ Legacy.quoted "navlink"
                    +:+ " href="
                    +:+ Legacy.quoted ("/dir?path=" +:+ Py.quote (Posix.str ancestor))
                    +:+ ">"
                    +:+ Py.html_escape (List.last (Posix.names ancestor) (Posix.root p))
                    +:+ "</a>")
                 (seq 0 (S (length (Posix.names p)))))))
  /\ (Posix.root p = EmptyString ->
      Pages.generate_navigation_links p
      = Py.Raise (Py.Exn Py.IndexError "tuple index out of range")).
Proof.
  destruct p as [r ns]. simpl Posix.root. simpl Posix.names. split.
  - intros Hr. unfold Pages.generate_navigation_links, Posix.lineage.
    simpl Posix.root. simpl Posix.names.
    rewrite (PathFacts.navlinks_links r _ Hr), PathFacts.prefixes_take, List.map_map.
    reflexivity.
  - intros ->. apply PathFacts.navigation_relative.
Qed.

Lemma navigation_links_need_a_root_witness :
  Pages.generate_navigation_links (rt := Sample.runtime) (Posix.parse "/videos/films")
  = Py.Ok ("<a class=" +:+ Legacy.quoted "navlink" +:+ " href="
           +:+ Legacy.quoted "/dir?path=/" +:+ ">/</a>/<a class="
           +:+ Legacy.quoted "navlink" +:+ " href="
           +:+ Legacy.quoted "/dir?path=/videos" +:+ ">videos</a>/<a class="
           +:+ Legacy.quoted "navlink" +:+ " href="
           +:+ Legacy.quoted "/dir?path=/videos/films" +:+ ">films</a>").
Proof.
  destruct (navigation_links_need_a_root (rt := Sample.runtime)
              (Posix.parse "/videos/films")) as [Hrooted _].
  rewrite Hrooted; [reflexivity | discriminate].
Defined.

(** X18.  [list_dir] answers a relative path with 404 and the text
    [tuple index out of range]; the directory is not read and nothing is
    printed. *)
Theorem relative_folder_is_not_found {rt : Py.Runtime}
    (s : Pages.site) (path : string) (w : World.world) :
  Posix.root_of path = EmptyString ->
  Pages.list_dir s path w
  = (Py.Ok (Legacy.Response 404 [("Content-Type", "text/plain")]
              "tuple index out of range"), w).
Proof.
  intros Hr. unfold Pages.list_dir.
  erewrite Steps.bind_ok.
  2:{ erewrite Steps.try_raise.
      2:{ erewrite Steps.bind_raise; [reflexivity|].
          unfold Pages.DirectoryViewer. erewrite Steps.bind_raise; [reflexivity|].
          unfold World.lift, Posix.parse. rewrite Hr.
          rewrite PathFacts.navigation_relative. reflexivity. }
      reflexivity. }
  reflexivity.
Qed.

Lemma relative_folder_is_not_found_witness :
  Pages.list_dir (rt := Sample.runtime) (Fixture.site None) "videos" World.initial
  = (Py.Ok (Legacy.Response 404 [("Content-Type", "text/plain")]
              "tuple index out of range"), World.initial).
Proof.
  apply (relative_folder_is_not_found (rt := Sample.runtime)). reflexivity.
Defined.

(** X19.  [list_dir] answers an absolute path whose directory cannot be
    read with 404 and the bytes of the text of the exception, or [404]
    when that text is empty, and changes nothing. *)
Theorem unreadable_folder_is_not_found {rt : Py.Runtime}
    (s : Pages.site) (path : string) (x : Py.exn) (w : World.world) :
  Posix.root_of path <> EmptyString ->
  Pages.iterdir s (Posix.str (Posix.parse path)) = Py.Raise x ->
  Pages.list_dir s path w
  = (Py.Ok (Legacy.Response 404 [("Content-Type", "text/plain")]
              (if PyStr.encode (Py.exn_text x) =? EmptyString then "404"
               else PyStr.encode (Py.exn_text x))), w).
Proof.
  intros Hr Hx. unfold Pages.list_dir.
  destruct (PathFacts.navigation_rooted _ (Posix.names (Posix.parse path)) Hr)
    as (links & Hlinks & _).
  change (Posix.Path _ _) with (Posix.parse path) in Hlinks.
  erewrite Steps.bind_ok.
  2:{ erewrite Steps.try_raise.
      2:{ erewrite Steps.bind_raise; [reflexivity|].
          unfold Pages.DirectoryViewer.
          erewrite Steps.bind_ok by (unfold World.lift; rewrite Hlinks; reflexivity).
          erewrite Steps.bind_raise; [reflexivity|].
          unfold World.lift. rewrite Hx. reflexivity. }
      reflexivity. }
  reflexivity.
Qed.

Lemma unreadable_folder_is_not_found_witness :
  Pages.list_dir (rt := Sample.runtime) (Fixture.site None) "/music" World.initial
  = (Py.Ok (Legacy.Response 404 [("Content-Type", "text/plain")]
              "[Errno 2] No such file or directory: '/music'"), World.initial).
Proof.
  apply (unreadable_folder_is_not_found (rt := Sample.runtime) (Fixture.site None) "/music"
           (Py.Exn Py.FileNotFoundError "[Errno 2] No such file or directory: '/music'")).
  - discriminate.
  - reflexivity.
Defined.

Module ListDirFacts.
Import Py World Legacy Pages Steps.

(** The first loop of [generate_content_links] keeps the entries that
    exist and prints the failures of [exists], in the order of the
    directory. *)
Lemma valid_items_result items w :
  valid_items items w
  = (Ok (List.filter found items),
     World (procs w) (mpv_process w) (trace w ++ omap exists_failure items)).
Proof.
  revert w. induction items as [|i rest IH]; intros w.
  - simpl. rewrite app_nil_r. destruct w; reflexivity.
  - cbn [valid_items List.filter omap list_omap].
    unfold found at 1, exists_failure at 1.
    unfold mbind, M_bind, bind, try_except, lift, print, emit, mret, M_ret, ret.
    destruct (exists_ i) as [b|x]; simpl.
    + rewrite IH. destruct b; reflexivity.
    + rewrite IH. simpl. rewrite <- app_assoc. reflexivity.
Qed.

Lemma In_content_links valid l :
  In l (content_links valid) <-> exists x, In x valid /\ link_of x = Some l.
Proof.
  unfold content_links.
  change (In l (omap link_of (sorted (key_lt sort_compare) valid))
          <-> exists x, In x valid /\ link_of x = Some l).
  split.
  - intros H. apply list_elem_of_In, list_elem_of_omap in H as (x & Hx & Hl).
    exists x. split; [|exact Hl]. apply list_elem_of_In in Hx.
    eapply Permutation_in; [apply SortFacts.sorted_perm | exact Hx].
  - intros (x & Hx & Hl). apply list_elem_of_In, list_elem_of_omap.
    exists x. split; [|exact Hl]. apply list_elem_of_In.
    eapply Permutation_in; [apply Permutation_sym, SortFacts.sorted_perm | exact Hx].
Qed.

Lemma link_of_some x :
  (exists l, link_of x = Some l)
  <-> PyStr.startswith "." (name x) = false /\ points_to x <> Other.
Proof.
  unfold link_of, is_file, is_dir.
  destruct (PyStr.startswith "." (name x)).
  - split; [intros (l & H); discriminate H | intros [H _]; discriminate H].
  - destruct (points_to x).
    + split; [intros _; split; [reflexivity | discriminate] | intros _; eexists; reflexivity].
    + split; [intros _; split; [reflexivity | discriminate]|].
      intros _. destruct (existsb _ vid_ext); eexists; reflexivity.
    + split; [intros (l & H); discriminate H | intros [_ H]; congruence].
Qed.

End ListDirFacts.

(** X20.  When the navigation links can be made and the directory can
    be read, [list_dir] puts into the template the navigation links, the
    play-all link for [path/*] and the links of the entries that exist,
    and answers 200 with the bytes of the page; a template that cannot be
    filled raises.  Either way the failures of [exists] have been printed, in
    the order of the directory. *)
Theorem folder_page {rt : Py.Runtime}
    (s : Pages.site) (path nav : string) (items : list Legacy.entry) (w : World.world) :
  Pages.generate_navigation_links (Posix.parse path) = Py.Ok nav ->
  Pages.iterdir s (Posix.str (Posix.parse path)) = Py.Ok items ->
  Pages.list_dir s path w
  = let links :=
      Legacy.play_all (Posix.str (Posix.child (Posix.parse path) "*"))
        :: List.map Legacy.render (Legacy.content_links (List.filter Pages.found items)) in
    let listing :=
      "<h1>" +:+ nav +:+ "</h1><hr><ul>" +:+ String.concat EmptyString links +:+ "</ul>" in
    let w' :=
      World.World (World.procs w) (World.mpv_process w)
        (World.trace w ++ omap Pages.exists_failure items) in
    match Pages.base_substitute s
            ("<div class=" +:+ Legacy.quoted "listing" +:+ ">" +:+ listing +:+ "</div>") with
    | Py.Ok page =>
        (Py.Ok (Legacy.Response 200
                  [("Cache-Control", "public, max-age=0");
                   ("Content-Type", "text/html; charset=utf-8")] (PyStr.encode page)), w')
    | Py.Raise x => (Py.Raise x, w')
    end.
Proof.
  intros Hnav Hitems. unfold Pages.list_dir.
  erewrite Steps.bind_ok.
  2:{ erewrite Steps.try_ok; [reflexivity|].
      erewrite Steps.bind_ok; [reflexivity|].
      unfold Pages.DirectoryViewer.
      erewrite Steps.bind_ok by (unfold World.lift; rewrite Hnav; reflexivity).
      erewrite Steps.bind_ok by (unfold World.lift; rewrite Hitems; reflexivity).
      erewrite Steps.bind_ok; [reflexivity|].
      unfold Legacy.generate_content_links.
      erewrite Steps.bind_ok by apply ListDirFacts.valid_items_result.
      reflexivity. }
  cbv zeta. unfold mbind, World.M_bind, World.bind, World.lift.
  destruct (Pages.base_substitute s _); reflexivity.
Qed.

Lemma folder_page_witness :
  Pages.status_of
    (Pages.list_dir (rt := Sample.runtime) (Fixture.site None) "/videos" World.initial)
  = Some 200.
Proof.
  rewrite (folder_page (rt := Sample.runtime) (Fixture.site None) "/videos"
             ("<a class=" +:+ Legacy.quoted "navlink" +:+ " href="
              +:+ Legacy.quoted "/dir?path=/" +:+ ">/</a>/<a class="
              +:+ Legacy.quoted "navlink" +:+ " href="
              +:+ Legacy.quoted "/dir?path=/videos" +:+ ">videos</a>")
             Sample.listing World.initial); reflexivity.
Defined.

(** X21.  The listing [generate_content_links] renders has a link for
    an entry exactly when the entry is in the directory, [exists]
    answers [True] for it, its name does not start with a dot and it
    is a regular file or a directory. *)
Theorem listed_entries (items : list Legacy.entry) (x : Legacy.entry) :
  (exists l, In l (Legacy.content_links (List.filter Pages.found items))
             /\ Legacy.target l = x)
  <-> In x items
      /\ Legacy.exists_ x = Py.Ok true
      /\ PyStr.startswith "." (Legacy.name x) = false
      /\ Legacy.points_to x <> Legacy.Other.
Proof.
  split.
  - intros (l & Hl & Ht). apply ListDirFacts.In_content_links in Hl as (y & Hy & Hlink).
    pose proof (SortFacts.link_of_target y l Hlink) as Hty.
    assert (y = x) as -> by congruence.
    apply List.filter_In in Hy as [Hin Hfound].
    split; [exact Hin|]. split.
    + unfold Pages.found in Hfound. destruct (Legacy.exists_ x) as [[]|]; congruence.
    + apply ListDirFacts.link_of_some. exists l. exact Hlink.
  - intros (Hin & Hex & Hvis). apply ListDirFacts.link_of_some in Hvis as (l & Hlink).
    exists l. split; [|apply (SortFacts.link_of_target x l Hlink)].
    apply ListDirFacts.In_content_links. exists x. split; [|exact Hlink].
    apply List.filter_In. split; [exact Hin|]. unfold Pages.found. rewrite Hex. reflexivity.
Qed.

(** X22.  In every world [server.py] can be in, from the start through
    any requests and any exits of the player, at most one process is
    alive, and a live process is the one the handle points to. *)
Theorem legacy_at_most_one_player {rt : Py.Runtime}
    (e : Legacy.env) (s : Pages.site) (w : World.world) :
  Pages.reachable e s w ->
  World.live_count w <= 1
  /\ (forall pid p, World.procs w !! pid = Some p -> World.alive p = true ->
                    World.mpv_process w = Some pid).
Proof.
  intros Hr. pose proof (PagesFacts.legacy_reachable_session_ok e s w Hr) as Hok.
  split; [apply Invariant.session_ok_live_count; exact Hok | apply Hok].
Qed.

Lemma legacy_at_most_one_player_witness :
  World.live_count
    (snd (Pages.do_GET (rt := Sample.runtime) (Sample.legacy_config true) (Fixture.site None)
            (Pages.Request "/play?path=/videos/b.mkv" None "/play" [("path", "/videos/b.mkv")])
            (snd (Pages.do_GET (rt := Sample.runtime) (Sample.legacy_config true)
                    (Fixture.site None)
                    (Pages.Request "/play?path=/videos/a.mkv" None "/play"
                       [("path", "/videos/a.mkv")])
                    World.initial)))) <= 1.
Proof.
  apply (legacy_at_most_one_player (rt := Sample.runtime) (Sample.legacy_config true)
           (Fixture.site None)).
  apply Pages.legacy_GET, Pages.legacy_GET, Pages.legacy_initial.
Defined.



Module LoaderFacts.
Import Py.

Lemma legacy_load_commands_app read l1 : forall l2 table,
  Pages.load_commands read (l1 ++ l2) table
  = match Pages.load_commands read l1 table with
    | Ok t1 => Pages.load_commands read l2 t1
    | Raise e => Raise e
    end.
Proof.
  induction l1 as [|c l1 IH]; intros l2 table; [reflexivity|].
  change ((c :: l1) ++ l2) with (c :: (l1 ++ l2)). cbn [Pages.load_commands].
  destruct (c =? EmptyString)%string; [apply IH|].
  destruct (PyStr.contains_char "=" c); [|reflexivity].
  destruct (PyStr.startswith "file=" _); [|apply IH].
  destruct (read _); [apply IH | reflexivity].
Qed.

End LoaderFacts.

(** X24.  In the class body of [server.py], a line [name=file=path] at
    the end of the [commands] file binds the name to the content of the
    file at [path], and makes the class body raise when that file cannot
    be read. *)
Theorem command_from_file
    (read : string -> Py.outcome string) (rest : list string) (name file : string)
    (table loaded : gmap string string) :
  Pages.load_commands read rest table = Py.Ok loaded ->
  PyStr.contains_char "=" name = false ->
  Pages.load_commands read (rest ++ [(name +:+ "=" +:+ "file=" +:+ file)%string]) table
  = match read file with
    | Py.Ok text => Py.Ok (<[name := text]> loaded)
    | Py.Raise x => Py.Raise x
    end.
Proof.
  intros Hrest Hname. rewrite LoaderFacts.legacy_load_commands_app, Hrest.
  cbn [Pages.load_commands].
  rewrite CommandFacts.contains_equals_app.
  destruct (String.eqb_spec (name +:+ "=" +:+ "file=" +:+ file) EmptyString) as [E|_].
  { apply str_app_eq_nil in E as [_ E]. discriminate E. }
  rewrite (CommandFacts.after_first_app name _ Hname).
  change (name +:+ "=" +:+ "file=" +:+ file) with (name +:+ String "=" ("file=" +:+ file)).
  rewrite (ConfFacts.before_first_app "=" name _ Hname).
  change (PyStr.startswith "file=" ("file=" +:+ file)) with true.
  change (PyStr.drop 5 ("file=" +:+ file)) with file.
  destruct (read file); reflexivity.
Qed.

Lemma command_from_file_witness :
  Pages.load_commands
    (fun f => if f =? "scripts/skip" then Py.Ok "seek 85" else Py.Raise (Py.Exn Py.FileNotFoundError f))
    ["pause=cycle pause"; "skip=file=scripts/skip"] ∅
  = Py.Ok (<["skip" := "seek 85"]> (<["pause" := "cycle pause"]> ∅)).
Proof.
  apply (command_from_file
           (fun f => if f =? "scripts/skip" then Py.Ok "seek 85"
                     else Py.Raise (Py.Exn Py.FileNotFoundError f))
           ["pause=cycle pause"] "skip" "scripts/skip" ∅
           (<["pause" := "cycle pause"]> ∅)); reflexivity.
Defined.

(** X25.  On a [commands] file in which no command starts with [file=],
    the class body of [server.py] and [Config.__init__] of
    [server-rewrite.py] load the same table, or raise alike. *)
Theorem loaders_agree
    (read : string -> Py.outcome string) (lines : list string)
    (table : gmap string string) :
  Forall (fun c => PyStr.startswith "file=" (Rewrite.after_first "=" c) = false) lines ->
  Pages.load_commands read lines table = Rewrite.load_commands lines table.
Proof.
  intros H. revert table. induction H as [|c rest Hc _ IH]; intros table; [reflexivity|].
  cbn [Pages.load_commands Rewrite.load_commands]. rewrite Hc.
  destruct (c =? EmptyString)%string; [apply IH|].
  destruct (PyStr.contains_char "=" c); [apply IH | reflexivity].
Qed.

Lemma loaders_agree_witness :
  Pages.load_commands (fun _ => Py.Ok "quit") ["pause=cycle pause"; EmptyString; "file=seek 5"] ∅
  = Rewrite.load_commands ["pause=cycle pause"; EmptyString; "file=seek 5"] ∅.
Proof.
  apply (loaders_agree (fun _ => Py.Ok "quit") ["pause=cycle pause"; EmptyString; "file=seek 5"] ∅).
  repeat constructor.
Defined.

(** X26.  On a configuration text whose every line contains a [=], holds
    no [#] and has no blanks around it, the class body of [server.py] and
    [Config.mpv_config] of [server-rewrite.py] make the same global
    flags. *)
Theorem config_parsers_agree (text : string) :
  Forall (fun o => PyStr.contains_char "=" o = true
                   /\ PyStr.contains_char "#" o = false
                   /\ PyStr.strip o = o)
         (PyStr.splitlines text) ->
  Legacy.config_lines text = Rewrite.mpv_config_lines text.
Proof.
  unfold Legacy.config_lines, Rewrite.mpv_config_lines.
  induction 1 as [|o rest (Heq & Hhash & Hstrip) _ IH]; [reflexivity|].
  cbn [List.filter]. rewrite Hstrip, Heq.
  assert (Hstart : PyStr.startswith "#" o = false).
  { destruct (PyStr.startswith "#" o) eqn:E; [|reflexivity].
    apply ConfFacts.startswith_contains in E. congruence. }
  assert (Hne : (o =? EmptyString) = false).
  { destruct o; [discriminate Heq | reflexivity]. }
  rewrite Hstart, Hne. cbn [andb negb List.map].
  rewrite Hstrip, (ConfFacts.before_first_all "#" o Hhash), IH. reflexivity.
Qed.

Lemma config_parsers_agree_witness :
  Legacy.config_lines ("volume=50" +:+ PyStr.LF +:+ "sub-auto=fuzzy")
  = Rewrite.mpv_config_lines ("volume=50" +:+ PyStr.LF +:+ "sub-auto=fuzzy").
Proof.
  apply (config_parsers_agree ("volume=50" +:+ PyStr.LF +:+ "sub-auto=fuzzy")).
  repeat constructor.
Defined.

(** X27.  In [server.py], when the requested name is in the listing of
    [static], [serve_static] opens the file; if it can be read the
    answer is 200 with the content, a cache age of 315360000 and the
    content type [text/css] for the extension [.css] and
    [application/octet-stream] for any other, and if not the exception
    is printed and the answer is 404 with the text
    [error reading file]. *)
Theorem legacy_static_file_served {rt : Py.Runtime}
    (e : Legacy.env) (path : string) (listing : list string) (w : World.world) :
  Legacy.static_listdir e = Py.Ok listing ->
  In (Py.unquote (PyStr.drop 8 path)) listing ->
  Legacy.serve_static e path w
  = match Legacy.static_read e (Py.unquote (PyStr.drop 8 path)) with
    | Py.Ok data =>
        (Py.Ok (Legacy.Response 200
                  [("Cache-Control", "public, max-age=315360000");
                   ("Content-Type",
                    if PyStr.splitext_ext (Py.unquote (PyStr.drop 8 path)) =? ".css"
                    then "text/css" else "application/octet-stream")]
                  data),
         World.World (World.procs w) (World.mpv_process w)
           (World.trace w ++ [World.EvOpen (Py.unquote (PyStr.drop 8 path))]))
    | Py.Raise x =>
        (Py.Ok (Legacy.Response 404 [("Content-Type", "text/plain")] "error reading file"),
         World.World (World.procs w) (World.mpv_process w)
           (World.trace w ++ [World.EvOpen (Py.unquote (PyStr.drop 8 path));
                              World.EvPrint x]))
    end.
Proof.
  intros Hl Hin.
  assert (Hex : existsb (String.eqb (Py.unquote (PyStr.drop 8 path))) listing = true).
  { apply existsb_exists. exists (Py.unquote (PyStr.drop 8 path)).
    split; [exact Hin | apply String.eqb_refl]. }
  unfold Legacy.serve_static.
  set (requested := Py.unquote (PyStr.drop 8 path)) in *.
  unfold mbind, World.M_bind, World.bind, World.lift,
    World.try_except, World.emit, World.print, World.emit.
  rewrite Hl, Hex.
  destruct (Legacy.static_read e requested) as [data|x].
  - reflexivity.
  - cbn [negb fst snd World.procs World.mpv_process World.trace].
    rewrite <- app_assoc. reflexivity.
Qed.

Lemma legacy_static_file_served_witness :
  Legacy.serve_static (rt := Sample.runtime) (Sample.legacy_config true)
    "/static/style.css" World.initial
  = (Py.Ok (Legacy.Response 200
              [("Cache-Control", "public, max-age=315360000");
               ("Content-Type", "text/css")]
              "body { }"),
     World.World [] None [World.EvOpen "style.css"]).
Proof.
  apply (legacy_static_file_served (rt := Sample.runtime) (Sample.legacy_config true)
           "/static/style.css" ["style.css"] World.initial).
  - reflexivity.
  - left. reflexivity.
Defined.
